(** * ScrapperMarketplace: airline policy scraper, store and viability analysis

    A shallow embedding of the extraction heuristics ([src/utils.py]), the
    policy record ([src/models.py]), the scraper orchestration
    ([src/scrapers/base_scraper.py]), the policy store ([src/database.py])
    and the viability computations ([src/analyzer.py]), followed by the
    properties stated about them.

    Conventions of the embedding.
    - Text is a [string] whose characters are read as the code points
      0..255 (Latin-1).  On that range the classes [\d] and [\s], [str.strip],
      [str.lower] and case-insensitive literal matching are the ones given
      below; code points above 255 are outside the model.
    - Python floats are represented by the rational number they are computed
      from ([Q]); binary rounding of float arithmetic is not part of the model.
    - Python [None] is [None]; a raised exception is a value of [exn]. *)

From Stdlib Require Import Ascii String List ZArith QArith Qround Qabs Bool.
From Stdlib Require Import Lia Lqa Permutation Sorted.
Import ListNotations.

Local Open Scope string_scope.
Local Open Scope Z_scope.

(* ================================================================== *)
(** * Python primitives used by the sources *)
(* ================================================================== *)

Module Py.

(** Code point of a character. *)
Definition code (c : ascii) : N := N_of_ascii c.

Definition in_range (lo hi : N) (c : ascii) : bool :=
  (N.leb lo (code c) && N.leb (code c) hi)%bool.

(** [\d] (and [str.isdecimal]): the decimal digits. *)
Definition is_digit (c : ascii) : bool := in_range 48 57 c.

(** [\s] (and the characters [str.strip] removes): TAB..CR, FS..US, SPACE,
    NEL and NBSP. *)
Definition is_space (c : ascii) : bool :=
  (in_range 9 13 c || in_range 28 32 c
   || N.eqb (code c) 133 || N.eqb (code c) 160)%bool.

(** [str.lower] on one character: A-Z and the accented capitals
    (U+00C0..U+00DE except the multiplication sign U+00D7) move down by 32. *)
Definition lower_char (c : ascii) : ascii :=
  if (in_range 65 90 c
      || (in_range 192 222 c && negb (N.eqb (code c) 215)))%bool
  then ascii_of_N (code c + 32)
  else c.

Fixpoint lower (s : string) : string :=
  match s with
  | EmptyString => EmptyString
  | String c s' => String (lower_char c) (lower s')
  end.

Fixpoint lstrip (s : string) : string :=
  match s with
  | EmptyString => EmptyString
  | String c s' => if is_space c then lstrip s' else s
  end.

Fixpoint rev_string (s : string) (acc : string) : string :=
  match s with
  | EmptyString => acc
  | String c s' => rev_string s' (String c acc)
  end.

Definition rstrip (s : string) : string :=
  rev_string (lstrip (rev_string s EmptyString)) EmptyString.

(** [s.strip()] *)
Definition strip (s : string) : string := rstrip (lstrip s).

(** [s.replace(c, '')] for a one-character [c]. *)
Fixpoint remove_char (c : ascii) (s : string) : string :=
  match s with
  | EmptyString => EmptyString
  | String d s' =>
      if Ascii.eqb c d then remove_char c s' else String d (remove_char c s')
  end.

Fixpoint starts_with (p s : string) : bool :=
  match p, s with
  | EmptyString, _ => true
  | String a p', String b s' => (Ascii.eqb a b && starts_with p' s')%bool
  | String _ _, EmptyString => false
  end.

(** [needle in hay] *)
Fixpoint contains (needle hay : string) : bool :=
  match hay with
  | EmptyString => starts_with needle EmptyString
  | String _ hay' => (starts_with needle hay || contains needle hay')%bool
  end.

(** Every character of the text passes the test. *)
Fixpoint all_chars (test : ascii -> bool) (s : string) : bool :=
  match s with
  | EmptyString => true
  | String c s' => (test c && all_chars test s')%bool
  end.

(** Truthiness of a string: [if not text]. *)
Definition truthy (s : string) : bool :=
  match s with EmptyString => false | _ => true end.

Definition digit_value (c : ascii) : Z := Z.of_N (code c) - 48.

(** Value of a run of decimal digits read left to right from [acc];
    [None] when a character is not a digit. *)
Fixpoint digits_value (s : string) (acc : Z) : option Z :=
  match s with
  | EmptyString => Some acc
  | String c s' =>
      if is_digit c then digits_value s' (10 * acc + digit_value c) else None
  end.

(** [int(s)] on a run of decimal digits, which is all the extraction loop
    passes (lemma [conversion_arguments]): [Some n] for a non-empty run,
    [None] where Python raises [ValueError].  Signs, blanks and underscores,
    which [int] also reads, do not occur. *)
Definition int_of_string (s : string) : option Z :=
  match s with
  | EmptyString => None
  | _ => digits_value s 0
  end.

(** Splits [s] at its first ['.']: the part before and, when there is a dot,
    the part after. *)
Fixpoint split_dot (s : string) : string * option string :=
  match s with
  | EmptyString => (EmptyString, None)
  | String c s' =>
      if Ascii.eqb c "." then (EmptyString, Some s')
      else let (a, b) := split_dot s' in (String c a, b)
  end.

(** [float(s)] on a run of digits and dots, which is all the extraction
    loop passes (lemma [conversion_arguments]): digits with at most one dot
    and at least one digit; [None] where Python raises [ValueError].  The
    value is the decimal read.  Signs, exponents and the words [inf] and
    [nan], which [float] also reads, do not occur. *)
Definition float_of_string (s : string) : option Q :=
  match split_dot s with
  | (ip, None) =>
      match int_of_string ip with
      | Some n => Some (inject_Z n)
      | None => None
      end
  | (ip, Some fp) =>
      match ip, fp with
      | EmptyString, EmptyString => None
      | _, _ =>
          match digits_value ip 0, digits_value fp 0 with
          | Some n, Some f =>
              Some (inject_Z n
                    + inject_Z f / inject_Z (10 ^ Z.of_nat (String.length fp)))%Q
          | _, _ => None
          end
      end
  end.

(** [min(a, b)]: the second argument only when it is strictly smaller. *)
Definition min (a b : Q) : Q :=
  match (b ?= a)%Q with Lt => b | _ => a end.

(** Rounding of a rational to the nearest integer, ties to the even one. *)
Definition round_half_even (q : Q) : Z :=
  let f := Qfloor q in
  match (q - inject_Z f ?= 1 # 2)%Q with
  | Lt => f
  | Gt => f + 1
  | Eq => if Z.even f then f else f + 1
  end.

(** [round(q, ndigits)] *)
Definition round (q : Q) (ndigits : nat) : Q :=
  let scale := inject_Z (10 ^ Z.of_nat ndigits) in
  (inject_Z (round_half_even (q * scale)) / scale)%Q.

(** [sep.join(parts)] *)
Fixpoint join (sep : string) (parts : list string) : string :=
  match parts with
  | [] => ""
  | [x] => x
  | x :: rest => x ++ sep ++ join sep rest
  end.

(** Exceptions: the classes the sources raise or catch, each with the
    text [str(e)] gives.  All of them derive from [Exception]. *)
Inductive exn : Type :=
| ValueError (msg : string)
| RequestException (msg : string)   (* requests.exceptions.RequestException *)
| Exception (msg : string).         (* any other exception *)

(** [str(e)] *)
Definition exn_str (e : exn) : string :=
  match e with
  | ValueError msg => msg
  | RequestException msg => msg
  | Exception msg => msg
  end.

(** Outcome of a call: a returned value or a raised exception. *)
Inductive result (A : Type) : Type :=
| Return (a : A)
| Raise (e : exn).
Arguments Return {A} a.
Arguments Raise {A} e.

(** [int(s)] and [float(s)] as calls that may raise [ValueError]. *)
Definition int (s : string) : result Z :=
  match int_of_string s with
  | Some n => Return n
  | None =>
      Raise (ValueError
               ("invalid literal for int() with base 10: '" ++ s ++ "'"))
  end.

Definition float (s : string) : result Q :=
  match float_of_string s with
  | Some q => Return q
  | None =>
      Raise (ValueError ("could not convert string to float: '" ++ s ++ "'"))
  end.

End Py.

(* ================================================================== *)
(** * The regular expressions of [re] that the sources use *)
(* ================================================================== *)

Module Re.

(** The members of a bracketed class. *)
Inductive item : Type :=
| ILit (c : ascii)              (* a literal character *)
| IDigit                        (* \d *)
| ISpace.                       (* \s *)

(** One-character matchers.  All patterns are compiled with
    [re.IGNORECASE], so a literal compares lower-cased. *)
Inductive atom : Type :=
| Lit (c : ascii)               (* a literal character *)
| Digit                         (* \d *)
| Space                         (* \s *)
| OneOf (items : list item)     (* [...] *)
| NoneOf (items : list item).   (* [^...] *)

(** The pattern syntax: the quantifiers [*] and [+] only ever apply to a
    one-character matcher in the sources; [?] applies to groups as well. *)
Inductive regex : Type :=
| Eps                           (* the empty pattern *)
| Atom (a : atom)
| Star (a : atom)               (* a*  greedy *)
| Plus (a : atom)               (* a+  greedy *)
| Opt (r : regex)               (* r?  greedy *)
| Seq (r1 r2 : regex)
| Alt (r1 r2 : regex)           (* r1|r2 *)
| Group (r : regex)             (* (r), the capturing group *)
| Eol.                          (* $ *)

Definition item_matches (i : item) (c : ascii) : bool :=
  match i with
  | ILit d => Ascii.eqb (Py.lower_char d) (Py.lower_char c)
  | IDigit => Py.is_digit c
  | ISpace => Py.is_space c
  end.

Definition atom_matches (a : atom) (c : ascii) : bool :=
  match a with
  | Lit d => Ascii.eqb (Py.lower_char d) (Py.lower_char c)
  | Digit => Py.is_digit c
  | Space => Py.is_space c
  | OneOf items => existsb (fun i => item_matches i c) items
  | NoneOf items => negb (existsb (fun i => item_matches i c) items)
  end.

(** A literal word. *)
Fixpoint word (s : string) : regex :=
  match s with
  | EmptyString => Eps
  | String c EmptyString => Atom (Lit c)
  | String c s' => Seq (Atom (Lit c)) (word s')
  end.

(** Concatenation of several patterns. *)
Fixpoint cat (rs : list regex) : regex :=
  match rs with
  | [] => Eps
  | [r] => r
  | r :: rs' => Seq r (cat rs')
  end.

(** The first [n] characters of [s]. *)
Fixpoint take (n : nat) (s : string) : string :=
  match n, s with
  | S n', String c s' => String c (take n' s')
  | _, _ => EmptyString
  end.

(** What was consumed when matching moved from [s] to its suffix [s']. *)
Definition consumed (s s' : string) : string :=
  take (String.length s - String.length s') s.

(** [$] without [re.MULTILINE]: the end of the text, or just before a
    newline that ends it. *)
Definition at_end (s : string) : bool :=
  match s with
  | EmptyString => true
  | String c EmptyString => Ascii.eqb c "010"
  | _ => false
  end.

Section Backtracking.

Context {R : Type}.

(** Greedy repetition of a one-character matcher: take as many as possible,
    give one back at a time while the continuation fails. *)
Fixpoint match_star (a : atom) (s : string) (k : string -> option R)
  : option R :=
  match s with
  | String c s' =>
      if atom_matches a c then
        match match_star a s' k with
        | Some x => Some x
        | None => k s
        end
      else k s
  | EmptyString => k s
  end.

(** The backtracking matcher in continuation style: [match_re r s cap k]
    matches [r] at the head of [s] and hands the rest of the text and the
    text of the capturing group to [k]; alternatives are tried in the order
    [re] tries them. *)
Fixpoint match_re (r : regex) (s : string) (cap : option string)
         (k : string -> option string -> option R) : option R :=
  match r with
  | Eps => k s cap
  | Atom a =>
      match s with
      | String c s' => if atom_matches a c then k s' cap else None
      | EmptyString => None
      end
  | Star a => match_star a s (fun s' => k s' cap)
  | Plus a =>
      match s with
      | String c s' =>
          if atom_matches a c then match_star a s' (fun s'' => k s'' cap)
          else None
      | EmptyString => None
      end
  | Opt r1 =>
      match match_re r1 s cap k with
      | Some x => Some x
      | None => k s cap
      end
  | Seq r1 r2 => match_re r1 s cap (fun s' cap' => match_re r2 s' cap' k)
  | Alt r1 r2 =>
      match match_re r1 s cap k with
      | Some x => Some x
      | None => match_re r2 s cap k
      end
  | Group r1 => match_re r1 s cap (fun s' _ => k s' (Some (consumed s s')))
  | Eol => if at_end s then k s cap else None
  end.

End Backtracking.

(** [re.match(r, s)]: a match at the start of [s]; the result is the text of
    the capturing group (the empty string when the group took no part). *)
Definition match_at (r : regex) (s : string) : option string :=
  match_re r s None
           (fun _ cap => Some match cap with Some g => g | None => "" end).

(** [re.search(r, s)]: the leftmost match. *)
Fixpoint search (r : regex) (s : string) : option string :=
  match match_at r s with
  | Some g => Some g
  | None =>
      match s with
      | EmptyString => None
      | String _ s' => search r s'
      end
  end.

(** [re.findall(r, s)] for a pattern with one group is the list of the
    group's texts, leftmost match first, so [matches[0]] under [if matches]
    is the group of the leftmost match. *)
Definition findall_first (r : regex) (s : string) : option string :=
  search r s.

(** Truth value of [re.search(r, s)]. *)
Definition found (r : regex) (s : string) : bool :=
  match search r s with Some _ => true | None => false end.

End Re.

(* ================================================================== *)
(** * [src/utils.py]: extraction heuristics and validators *)
(* ================================================================== *)

Module Utils.

Import Py Re.

(** The class [[\d,.]]. *)
Definition amount_class : atom := OneOf [IDigit; ILit ","; ILit "."].

(** [([\d,.]+)], the capturing group of every amount pattern. *)
Definition amount_group : regex := Group (Plus amount_class).

(** Every capturing group of the pattern is [([\d,.]+)]. *)
Fixpoint captures_amount (r : regex) : Prop :=
  match r with
  | Group r1 => r1 = Plus amount_class
  | Seq r1 r2 | Alt r1 r2 => captures_amount r1 /\ captures_amount r2
  | Opt r1 => captures_amount r1
  | _ => True
  end.

(** A captured text, if any, is made of characters of [[\d,.]]. *)
Definition amount_text (cap : option string) : Prop :=
  match cap with
  | Some g => all_chars (atom_matches amount_class) g = true
  | None => True
  end.


(** The letter o with acute accent (U+00F3). *)
Definition o_acute : ascii := "243"%char.

Definition dolares_acute : string := String "d" (String o_acute "lares").

(** [REGEX_COSTOS_COP] *)
Definition REGEX_COSTOS_COP : list regex :=
  [ (* \$\s*([\d,.]+)\s*(?:COP|pesos) *)
    cat [Atom (Lit "$"); Star Space; amount_group; Star Space;
         Alt (word "COP") (word "pesos")];
    (* ([\d,.]+)\s*pesos\s+colombianos *)
    cat [amount_group; Star Space; word "pesos"; Plus Space;
         word "colombianos"];
    (* valor(?:\s+de)?\s+\$?\s*([\d,.]+) *)
    cat [word "valor"; Opt (Seq (Plus Space) (word "de")); Plus Space;
         Opt (Atom (Lit "$")); Star Space; amount_group];
    (* \$\s*([\d,.]+)(?:\s|$) *)
    cat [Atom (Lit "$"); Star Space; amount_group; Alt (Atom Space) Eol];
    (* ([\d,.]+)\s*COP *)
    cat [amount_group; Star Space; word "COP"] ].

(** [REGEX_COSTOS_USD] *)
Definition REGEX_COSTOS_USD : list regex :=
  [ (* USD?\s*\$?\s*([\d,.]+) *)
    cat [word "US"; Opt (Atom (Lit "D")); Star Space; Opt (Atom (Lit "$"));
         Star Space; amount_group];
    (* \$\s*([\d,.]+)\s*(?:USD|dólares|dolares) *)
    cat [Atom (Lit "$"); Star Space; amount_group; Star Space;
         Alt (word "USD") (Alt (word dolares_acute) (word "dolares"))];
    (* ([\d,.]+)\s*dólares? *)
    cat [amount_group; Star Space; word dolares_acute;
         Opt (Atom (Lit "s"))] ].

(** [no\s+(?:X\s+)?Y], the shape of most negative phrases. *)
Definition no_phrase (x y : string) : regex :=
  cat [word "no"; Plus Space; Opt (Seq (word x) (Plus Space)); word y].

(** [KEYWORDS_NEGATIVE] *)
Definition KEYWORDS_NEGATIVE : list regex :=
  [ no_phrase "se" "permite";          (* no\s+(?:se\s+)?permite *)
    no_phrase "es" "posible";          (* no\s+(?:es\s+)?posible *)
    no_phrase "se" "autoriza";         (* no\s+(?:se\s+)?autoriza *)
    word "imposible";
    word "prohibido";
    no_phrase "se" "puede";            (* no\s+(?:se\s+)?puede *)
    no_phrase "es" "permitido";        (* no\s+(?:es\s+)?permitido *)
    cat [word "no"; Plus Space; word "reembolsable"] ].

(** [KEYWORDS_POSITIVE] *)
Definition KEYWORDS_POSITIVE : list regex :=
  [ word "permite";
    word "posible";
    word "puede";
    word "autorizado";
    word "permitido";
    word "disponible";
    cat [word "se"; Plus Space; word "acepta"] ].

(** The loop of [extract_cop_amount] over the pattern list: the first match
    of a pattern is cleaned of [','] and ['.'] and converted with [int];
    a [ValueError] moves on to the next pattern, as does a pattern without
    a match. *)
Fixpoint cop_loop (patterns : list regex) (text : string)
  : result (option Z) :=
  match patterns with
  | [] => Return None
  | pattern :: rest =>
      match findall_first pattern text with
      | Some m =>
          let amount_str := remove_char "." (remove_char "," m) in
          match int amount_str with
          | Return n => Return (Some n)
          | Raise (ValueError _) => cop_loop rest text
          | Raise e => Raise e
          end
      | None => cop_loop rest text
      end
  end.

Definition extract_cop_amount (text : string) : result (option Z) :=
  if negb (truthy text) then Return None
  else cop_loop REGEX_COSTOS_COP (strip text).

(** The loop of [extract_usd_amount]: as above, with only [','] removed and
    [float] as the conversion. *)
Fixpoint usd_loop (patterns : list regex) (text : string)
  : result (option Q) :=
  match patterns with
  | [] => Return None
  | pattern :: rest =>
      match findall_first pattern text with
      | Some m =>
          let amount_str := remove_char "," m in
          match float amount_str with
          | Return q => Return (Some q)
          | Raise (ValueError _) => usd_loop rest text
          | Raise e => Raise e
          end
      | None => usd_loop rest text
      end
  end.

Definition extract_usd_amount (text : string) : result (option Q) :=
  if negb (truthy text) then Return None
  else usd_loop REGEX_COSTOS_USD (strip text).

(** Number of patterns of a list found in the text. *)
Fixpoint count_found (patterns : list regex) (text : string) : Z :=
  match patterns with
  | [] => 0
  | pattern :: rest =>
      (if found pattern text then 1 else 0) + count_found rest text
  end.

(** Number of caller keywords whose lower-cased form occurs in the text. *)
Fixpoint count_keywords (keywords : list string) (text : string) : Z :=
  match keywords with
  | [] => 0
  | keyword :: rest =>
      (if contains (lower keyword) text then 1 else 0)
      + count_keywords rest text
  end.

(** [positive_matches] and [negative_matches] as they stand when the result
    is determined; [text] is already lower-cased and stripped. *)
Definition positive_matches (text : string) (keywords : option (list string))
  : Z :=
  count_found KEYWORDS_POSITIVE text
  + match keywords with
    | Some kws => count_keywords kws text
    | None => 0
    end.

Definition negative_matches (text : string) : Z :=
  count_found KEYWORDS_NEGATIVE text.

(** The last statement of [detect_boolean_policy], from the two counts. *)
Definition determine_result (positive_matches negative_matches : Z)
  : option bool * Q :=
  if positive_matches >? negative_matches then
    (Some true,
     min (inject_Z positive_matches
          / inject_Z (positive_matches + negative_matches + 1)) (9 # 10))
  else if negative_matches >? positive_matches then
    (Some false,
     min (inject_Z negative_matches
          / inject_Z (positive_matches + negative_matches + 1)) (9 # 10))
  else (None, 0%Q).

Definition detect_boolean_policy (text : string)
           (keywords : option (list string)) : option bool * Q :=
  if negb (truthy text) then (None, 0%Q)
  else
    let text := strip (lower text) in
    determine_result (positive_matches text keywords) (negative_matches text).

(** The validators. *)
Definition validate_cop_amount (amount : option Z) : bool :=
  match amount with
  | None => true
  | Some a => ((0 <=? a) && (a <=? 10000000))%bool
  end.

Definition validate_usd_amount (amount : option Q) : bool :=
  match amount with
  | None => true
  | Some a => (Qle_bool 0 a && Qle_bool a 5000)%bool
  end.

Definition validate_percentage (percentage : option Z) : bool :=
  match percentage with
  | None => true
  | Some p => ((0 <=? p) && (p <=? 100))%bool
  end.

(** The pattern of [validate_url]: [^https?://] followed by one or more
    characters other than blanks, angle brackets, the double quote, braces,
    bar, backslash, caret, backquote and square brackets, then [$].  It is
    applied with [re.match], which anchors at the start of the text. *)
Definition URL_PATTERN : regex :=
  cat [word "http"; Opt (Atom (Lit "s")); word "://";
       Plus (NoneOf [ISpace; ILit "<"; ILit ">"; ILit "034"; ILit "{";
                     ILit "}"; ILit "|"; ILit "092"; ILit "^"; ILit "`";
                     ILit "["; ILit "]"]);
       Eol].

Definition validate_url (url : option string) : bool :=
  match url with
  | None => true
  | Some u =>
      if negb (truthy u) then true
      else match match_at URL_PATTERN u with Some _ => true | None => false end
  end.

(** The specification's reading of amount extraction, to compare with the
    loops above: the parse of a pattern is the conversion of its first
    match with the separators removed, and extraction is the first parse
    that succeeds along the pattern list. *)
Definition cop_parse (text : string) (pattern : regex) : option Z :=
  match findall_first pattern text with
  | Some m => int_of_string (remove_char "." (remove_char "," m))
  | None => None
  end.

Definition usd_parse (text : string) (pattern : regex) : option Q :=
  match findall_first pattern text with
  | Some m => float_of_string (remove_char "," m)
  | None => None
  end.

Fixpoint first_parse {A : Type} (parse : regex -> option A)
         (patterns : list regex) : option A :=
  match patterns with
  | [] => None
  | pattern :: rest =>
      match parse pattern with
      | Some v => Some v
      | None => first_parse parse rest
      end
  end.

End Utils.

(* ================================================================== *)
(** * [src/models.py] and [src/config.py]: records and constants *)
(* ================================================================== *)

Module Config.

Definition MAX_RETRIES : nat := 3.
Definition RETRY_BACKOFF : Z := 2.

(** [VIABILITY_THRESHOLDS] *)
Definition market_coverage_minimum : Q := 40.
Definition market_coverage_ideal : Q := 60.
Definition max_acceptable_cost_cop : Z := 200000.
Definition min_airlines_needed : Z := 3.

End Config.

Module Models.

(** [AirlinePolicy].  [scraped_at] is a timestamp. *)
Record AirlinePolicy : Type := mkPolicy {
  airline_name : string;
  airline_code : string;
  allows_full_name_change : option bool;
  allows_name_correction : option bool;
  cost_name_change_domestic_cop : option Z;
  cost_name_change_intl_cop : option Z;
  cost_name_change_usd : option Q;
  allows_transfer_to_third_party : option bool;
  transfer_process_description : option string;
  allows_cancellation : option bool;
  cancellation_cost_cop : option Z;
  refund_percentage : option Z;
  time_restrictions : option string;
  fare_type_differences : option string;
  max_change_deadline : option string;
  terms_url : option string;
  support_phone : option string;
  support_email : option string;
  required_documentation : option string;
  notable_exceptions : option string;
  source_url : option string;
  scraped_at : Z;
  raw_html_hash : option string;
  requires_manual_review : bool;
  manual_review_notes : option string;
  confidence_score : Q
}.

(** A policy as the dataclass builds it from the two required fields, every
    other field at its default. *)
Definition new_policy (name code : string) (now : Z) : AirlinePolicy :=
  mkPolicy name code None None None None None None None None None None
           None None None None None None None None None now None
           false None 0.

(** [policy.requires_manual_review = r; policy.manual_review_notes = n] *)
Definition set_manual_review (r : bool) (n : option string)
           (p : AirlinePolicy) : AirlinePolicy :=
  mkPolicy (airline_name p) (airline_code p) (allows_full_name_change p)
           (allows_name_correction p) (cost_name_change_domestic_cop p)
           (cost_name_change_intl_cop p) (cost_name_change_usd p)
           (allows_transfer_to_third_party p)
           (transfer_process_description p) (allows_cancellation p)
           (cancellation_cost_cop p) (refund_percentage p)
           (time_restrictions p) (fare_type_differences p)
           (max_change_deadline p) (terms_url p) (support_phone p)
           (support_email p) (required_documentation p)
           (notable_exceptions p) (source_url p) (scraped_at p)
           (raw_html_hash p) r n (confidence_score p).

(** [policy.confidence_score = c] *)
Definition set_confidence_score (c : Q) (p : AirlinePolicy)
  : AirlinePolicy :=
  mkPolicy (airline_name p) (airline_code p) (allows_full_name_change p)
           (allows_name_correction p) (cost_name_change_domestic_cop p)
           (cost_name_change_intl_cop p) (cost_name_change_usd p)
           (allows_transfer_to_third_party p)
           (transfer_process_description p) (allows_cancellation p)
           (cancellation_cost_cop p) (refund_percentage p)
           (time_restrictions p) (fare_type_differences p)
           (max_change_deadline p) (terms_url p) (support_phone p)
           (support_email p) (required_documentation p)
           (notable_exceptions p) (source_url p) (scraped_at p)
           (raw_html_hash p) (requires_manual_review p)
           (manual_review_notes p) c.

Definition is_some {A : Type} (o : option A) : bool :=
  match o with Some _ => true | None => false end.

(** [getattr(policy, field) is not None] for the fields the sources look up
    by name. *)
Definition has_value (policy : AirlinePolicy) (field : string) : bool :=
  if String.eqb field "allows_full_name_change" then
    is_some (allows_full_name_change policy)
  else if String.eqb field "allows_name_correction" then
    is_some (allows_name_correction policy)
  else if String.eqb field "allows_transfer_to_third_party" then
    is_some (allows_transfer_to_third_party policy)
  else if String.eqb field "cost_name_change_domestic_cop" then
    is_some (cost_name_change_domestic_cop policy)
  else if String.eqb field "allows_cancellation" then
    is_some (allows_cancellation policy)
  else if String.eqb field "cancellation_cost_cop" then
    is_some (cancellation_cost_cop policy)
  else if String.eqb field "refund_percentage" then
    is_some (refund_percentage policy)
  else if String.eqb field "time_restrictions" then
    is_some (time_restrictions policy)
  else false.

(** The critical fields, as listed in [get_missing_fields], in
    [calculate_confidence_score] and in [config.CRITICAL_FIELDS]. *)
Definition critical_fields : list string :=
  [ "allows_full_name_change";
    "allows_name_correction";
    "allows_transfer_to_third_party";
    "cost_name_change_domestic_cop" ].

(** The important fields of [calculate_confidence_score]
    ([config.IMPORTANT_FIELDS]). *)
Definition important_fields : list string :=
  [ "allows_cancellation";
    "cancellation_cost_cop";
    "refund_percentage";
    "time_restrictions" ].

(** [AirlinePolicy.get_missing_fields] *)
Definition get_missing_fields (policy : AirlinePolicy) : list string :=
  filter (fun field_name => negb (has_value policy field_name))
         critical_fields.

(** [x is True] for a tri-state field. *)
Definition is_True (o : option bool) : bool :=
  match o with Some true => true | _ => false end.

(** [AirlinePolicy.is_transfer_viable] *)
Definition is_transfer_viable (policy : AirlinePolicy) : bool :=
  (is_True (allows_full_name_change policy)
   || is_True (allows_transfer_to_third_party policy))%bool.

(** [ScrapingResult] (the [warnings] list is never filled by the sources). *)
Record ScrapingResult : Type := mkResult {
  result_airline_name : string;
  success : bool;
  policy : option AirlinePolicy;
  error_message : option string;
  execution_time_seconds : Q
}.

(** The three values of [ViabilityReport.get_viability_status], whose texts
    are VIABLE, VIABLE CON RESTRICCIONES and NO VIABLE. *)
Inductive viability_status : Type :=
| VIABLE
| VIABLE_CON_RESTRICCIONES
| NO_VIABLE.

(** [ViabilityReport]: the counts, the two lists, the two metrics and the
    band that selects the conclusion and recommendation texts.  The cost
    summary and the texts themselves are left out. *)
Record ViabilityReport : Type := mkReport {
  total_airlines : Z;
  scraped_successfully : Z;
  allow_transfer : Z;
  allow_name_change : Z;
  allow_name_correction_only : Z;
  viable_airlines : list string;
  non_viable_airlines : list string;
  market_coverage_percentage : Q;
  overall_viability_score : Q;
  conclusion : viability_status
}.

(** [ViabilityReport.get_viability_status] *)
Definition get_viability_status (r : ViabilityReport) : viability_status :=
  if Qle_bool 60 (market_coverage_percentage r) then VIABLE
  else if Qle_bool 40 (market_coverage_percentage r)
       then VIABLE_CON_RESTRICCIONES
       else NO_VIABLE.

(** [ViabilityReport.is_viable] *)
Definition is_viable (r : ViabilityReport) : bool :=
  Qle_bool 40 (market_coverage_percentage r).

End Models.

(* ================================================================== *)
(** * [src/database.py]: the policy store *)
(* ================================================================== *)

Module Database.

Import Py Models.

(** A row of [airline_policies]: the [AUTOINCREMENT] key and the columns
    written by [to_db_tuple].  The table has no column for
    [confidence_score], so that field is not kept by a row. *)
Record row : Type := mkRow {
  id : Z;
  columns : AirlinePolicy
}.

Definition code_of (r : row) : string := airline_code (columns r).

(** The table and the largest key handed out so far. *)
Record store : Type := mkStore {
  airline_policies : list row;
  sequence : Z
}.

(** The table right after [_init_database] on a new file. *)
Definition empty_store : store := mkStore [] 0.

(** [INSERT OR REPLACE] under [airline_code UNIQUE]: the rows that hold the
    new row's code are deleted and the new row is added under a fresh key. *)
Definition insert_or_replace (p : AirlinePolicy) (db : store) : store :=
  mkStore
    (filter (fun r => negb (String.eqb (code_of r) (airline_code p)))
            (airline_policies db)
     ++ [mkRow (sequence db + 1) (set_confidence_score 0 p)])
    (sequence db + 1).

(** [DatabaseManager.insert_policy].  [fault] stands for the engine raising
    [sqlite3.Error]: the transaction is not committed and [False] is
    returned. *)
Definition insert_policy (fault : bool) (p : AirlinePolicy) (db : store)
  : bool * store :=
  if fault then (false, db) else (true, insert_or_replace p db).

(** [DatabaseManager.delete_policy] *)
Definition delete_policy (fault : bool) (code : string) (db : store)
  : bool * store :=
  if fault then (false, db)
  else (true,
        mkStore (filter (fun r => negb (String.eqb (code_of r) code))
                        (airline_policies db))
                (sequence db)).

(** [DatabaseManager.clear_all_policies] *)
Definition clear_all_policies (fault : bool) (db : store) : bool * store :=
  if fault then (false, db) else (true, mkStore [] (sequence db)).

(** [_row_to_policy]: the columns, with [confidence_score] at the
    dataclass default. *)
Definition _row_to_policy (r : row) : AirlinePolicy :=
  set_confidence_score 0 (columns r).

(** [ORDER BY scraped_at DESC], rows of equal time in table order. *)
Fixpoint insert_desc (r : row) (sorted : list row) : list row :=
  match sorted with
  | [] => [r]
  | x :: rest =>
      if scraped_at (columns x) <? scraped_at (columns r)
      then r :: sorted
      else x :: insert_desc r rest
  end.

Definition order_by_scraped_at_desc (rows : list row) : list row :=
  fold_right insert_desc [] rows.

(** [DatabaseManager.get_policy_by_code] *)
Definition get_policy_by_code (fault : bool) (code : string) (db : store)
  : option AirlinePolicy :=
  if fault then None
  else
    match order_by_scraped_at_desc
            (filter (fun r => String.eqb (code_of r) code)
                    (airline_policies db)) with
    | r :: _ => Some (_row_to_policy r)
    | [] => None
    end.

(** [DatabaseManager.get_all_policies] *)
Definition get_all_policies (fault : bool) (db : store)
  : list AirlinePolicy :=
  if fault then []
  else map _row_to_policy (order_by_scraped_at_desc (airline_policies db)).

(** [DatabaseManager.get_policies_requiring_review] *)
Definition get_policies_requiring_review (fault : bool) (db : store)
  : list AirlinePolicy :=
  if fault then []
  else map _row_to_policy
           (order_by_scraped_at_desc
              (filter (fun r => requires_manual_review (columns r))
                      (airline_policies db))).

(** The operations that write to the table. *)
Inductive operation : Type :=
| Insert (fault : bool) (p : AirlinePolicy)
| Delete (fault : bool) (code : string)
| Clear (fault : bool).

Definition apply (o : operation) (db : store) : store :=
  match o with
  | Insert fault p => snd (insert_policy fault p db)
  | Delete fault code => snd (delete_policy fault code db)
  | Clear fault => snd (clear_all_policies fault db)
  end.

Definition run (ops : list operation) (db : store) : store :=
  fold_left (fun d o => apply o d) ops db.

(** Number of rows that hold a code. *)
Definition rows_with_code (code : string) (db : store) : nat :=
  List.length (filter (fun r => String.eqb (code_of r) code)
                      (airline_policies db)).

(** At most one row per airline code. *)
Definition one_row_per_code (db : store) : Prop :=
  NoDup (map code_of (airline_policies db)).

End Database.

(* ================================================================== *)
(** * [src/scrapers/base_scraper.py]: the shared orchestration *)
(* ================================================================== *)

Module Scraper.

Import Py Models.

(** Accented letters of the messages (Latin-1 code points). *)
Definition a_acute : string := String "225" "".
Definition e_acute : string := String "233" "".
Definition i_acute : string := String "237" "".

Definition ERR_COP : string :=
  "Costo dom" ++ e_acute ++ "stico COP fuera de rango".
Definition ERR_USD : string := "Costo USD fuera de rango".
Definition ERR_PERCENTAGE : string :=
  "Porcentaje de reembolso inv" ++ a_acute ++ "lido".
Definition ERR_TERMS_URL : string :=
  "URL de t" ++ e_acute ++ "rminos inv" ++ a_acute ++ "lida".
Definition ERR_SOURCE_URL : string :=
  "URL de origen inv" ++ a_acute ++ "lida".
Definition ERR_MISSING (critical_missing : list string) : string :=
  "Faltan campos cr" ++ i_acute ++ "ticos: " ++ join ", " critical_missing.

(** The dictionary [validate_extracted_data] returns. *)
Record validation : Type := mkValidation {
  is_valid : bool;
  errors : list string
}.

(** [errors.append(msg)] when the check fails. *)
Definition check (ok : bool) (msg : string) (errors : list string)
  : list string :=
  if negb ok then (errors ++ [msg])%list else errors.

(** [BaseScraper.validate_extracted_data] *)
Definition validate_extracted_data (policy : AirlinePolicy) : validation :=
  let errors := [] in
  let errors :=
    check (Utils.validate_cop_amount (cost_name_change_domestic_cop policy))
          ERR_COP errors in
  let errors :=
    check (Utils.validate_usd_amount (cost_name_change_usd policy))
          ERR_USD errors in
  let errors :=
    check (Utils.validate_percentage (refund_percentage policy))
          ERR_PERCENTAGE errors in
  let errors :=
    check (Utils.validate_url (terms_url policy)) ERR_TERMS_URL errors in
  let errors :=
    check (Utils.validate_url (source_url policy)) ERR_SOURCE_URL errors in
  let critical_missing := get_missing_fields policy in
  let errors :=
    if (3 <? List.length critical_missing)%nat
    then (errors ++ [ERR_MISSING critical_missing])%list
    else errors in
  mkValidation (List.length errors =? 0)%nat errors.

(** One round of a loop of [calculate_confidence_score]:
    [total_fields += weight] and, when the field is set,
    [filled_fields += weight]. *)
Definition count_field (policy : AirlinePolicy) (weight : Z)
           (acc : Z * Z) (field : string) : Z * Z :=
  let (total_fields, filled_fields) := acc in
  (total_fields + weight,
   if has_value policy field then filled_fields + weight else filled_fields).

(** [BaseScraper.calculate_confidence_score] *)
Definition calculate_confidence_score (policy : AirlinePolicy) : Q :=
  let acc := fold_left (count_field policy 2) critical_fields (0, 0) in
  let acc := fold_left (count_field policy 1) important_fields acc in
  let (total_fields, filled_fields) := acc in
  let score :=
    if total_fields >? 0
    then (inject_Z filled_fields / inject_Z total_fields)%Q
    else 0%Q in
  round score 2.

(** Number of fields of a list that the policy has set. *)
Definition filled (policy : AirlinePolicy) (fields : list string) : Z :=
  Z.of_nat (List.length (filter (has_value policy) fields)).

(** The filled weight: critical fields count double, important fields
    single. *)
Definition filled_weight (policy : AirlinePolicy) : Z :=
  2 * filled policy critical_fields + filled policy important_fields.

(** What a run meets outside the program: the outcome of each download
    attempt ([requests.get] with [raise_for_status], delays included), of
    the HTML parser and of the snapshot write, whether the storage engine
    fails on the insert and on the read that follows it, and the clock
    readings at the start and at the end. *)
Record environment (Soup : Type) : Type := mkEnv {
  http_get : nat -> result string;
  BeautifulSoup : string -> result Soup;
  timestamp : string;
  snapshot_written : bool;
  insert_fault : bool;
  read_fault : bool;
  time_start : Q;
  time_end : Q
}.
Arguments http_get {Soup} _ _.
Arguments BeautifulSoup {Soup} _ _.
Arguments timestamp {Soup} _.
Arguments snapshot_written {Soup} _.
Arguments insert_fault {Soup} _.
Arguments read_fault {Soup} _.
Arguments time_start {Soup} _.
Arguments time_end {Soup} _.

(** A scraper: the constructor's arguments and the one abstract method,
    which reads the downloaded text and the parsed page and builds a policy
    or raises.  The concrete scrapers do not touch the store in it. *)
Record BaseScraper (Soup : Type) : Type := mkScraper {
  scraper_airline_name : string;
  scraper_airline_code : string;
  base_url : string;
  policies_url : string;
  requires_javascript : bool;
  extract_data : string -> Soup -> result AirlinePolicy
}.
Arguments scraper_airline_name {Soup} _.
Arguments scraper_airline_code {Soup} _.
Arguments base_url {Soup} _.
Arguments policies_url {Soup} _.
Arguments requires_javascript {Soup} _.
Arguments extract_data {Soup} _ _ _.

(** The loop of [fetch_page] from attempt number [attempt], with [fuel]
    rounds of [range(MAX_RETRIES)] left.  A [RequestException] is caught:
    on the last attempt the function returns [None], otherwise the loop
    goes on; any other exception leaves the function. *)
Fixpoint fetch_loop (http : nat -> result string) (attempt fuel : nat)
  : result (option string) :=
  match fuel with
  | O => Return None
  | S fuel' =>
      match http attempt with
      | Return text => Return (Some text)
      | Raise (RequestException _) =>
          if (attempt =? Config.MAX_RETRIES - 1)%nat then Return None
          else fetch_loop http (S attempt) fuel'
      | Raise e => Raise e
      end
  end.

(** [BaseScraper.fetch_page] *)
Definition fetch_page {Soup} (env : environment Soup)
  : result (option string) :=
  fetch_loop (http_get env) 0 Config.MAX_RETRIES.

(** What a run can change: the store and the snapshot directory. *)
Record world : Type := mkWorld {
  db : Database.store;
  snapshots : list (string * string)
}.

(** Computations that read and change the world and may raise; the changes
    made before an exception stay. *)
Definition M (A : Type) : Type := world -> result A * world.

Definition ret {A} (a : A) : M A := fun w => (Return a, w).

Definition raise {A} (e : exn) : M A := fun w => (Raise e, w).

Definition bind {A B} (m : M A) (f : A -> M B) : M B :=
  fun w =>
    match m w with
    | (Return a, w') => f a w'
    | (Raise e, w') => (Raise e, w')
    end.

(** A call of a function that does not touch the world. *)
Definition call {A} (r : result A) : M A := fun w => (r, w).

(** [try: body  except Exception as e: handler(e)] *)
Definition try_except {A} (body : M A) (handler : exn -> M A) : M A :=
  fun w =>
    match body w with
    | (Return a, w') => (Return a, w')
    | (Raise e, w') => handler e w'
    end.

Notation "x <- m ;; k" := (bind m (fun x => k))
  (at level 61, m at next level, right associativity).

(** [BaseScraper.save_snapshot]: a failed write is logged and swallowed. *)
Definition save_snapshot {Soup} (self : BaseScraper Soup)
           (env : environment Soup) (html_content : string) : M unit :=
  fun w =>
    if negb (truthy html_content) then (Return tt, w)
    else if snapshot_written env then
      (Return tt,
       mkWorld (db w)
               ((scraper_airline_code self ++ "_" ++ timestamp env ++ ".html",
                 html_content) :: snapshots w))
    else (Return tt, w).

(** [self.db.insert_policy(policy)] *)
Definition db_insert_policy {Soup} (env : environment Soup)
           (policy : AirlinePolicy) : M bool :=
  fun w =>
    let (ok, db') := Database.insert_policy (insert_fault env) policy (db w) in
    (Return ok, mkWorld db' (snapshots w)).

(** [BaseScraper.detect_policy_changes] *)
Definition detect_policy_changes {Soup} (self : BaseScraper Soup)
           (env : environment Soup) (new_policy : AirlinePolicy) : M bool :=
  fun w =>
    match Database.get_policy_by_code (read_fault env)
                                      (scraper_airline_code self) (db w) with
    | None => (Return true, w)
    | Some old_policy =>
        match raw_html_hash old_policy, raw_html_hash new_policy with
        | Some a, Some b => (Return (negb (String.eqb a b)), w)
        | None, None => (Return false, w)
        | _, _ => (Return true, w)
        end
    end.

Definition NO_HTML : string := "No se pudo obtener contenido HTML".

(** The [try] block of [BaseScraper.scrape]. *)
Definition scrape_body {Soup} (self : BaseScraper Soup)
           (env : environment Soup) : M ScrapingResult :=
  fetched <- call (fetch_page env) ;;
  html_content <-
    match fetched with
    | Some html => if truthy html then ret html else raise (Exception NO_HTML)
    | None => raise (Exception NO_HTML)
    end ;;
  soup <- call (BeautifulSoup env html_content) ;;
  _ <- save_snapshot self env html_content ;;
  policy <- call (extract_data self html_content soup) ;;
  let validation_result := validate_extracted_data policy in
  let policy :=
    if negb (is_valid validation_result)
    then set_manual_review true
                           (Some (join "; " (errors validation_result)))
                           policy
    else policy in
  let policy :=
    set_confidence_score (calculate_confidence_score policy) policy in
  _ <- db_insert_policy env policy ;;
  _ <- detect_policy_changes self env policy ;;
  ret (mkResult (scraper_airline_name self) true (Some policy) None
                (time_end env - time_start env)%Q).

(** [BaseScraper.scrape] *)
Definition scrape {Soup} (self : BaseScraper Soup) (env : environment Soup)
  : M ScrapingResult :=
  try_except
    (scrape_body self env)
    (fun e =>
       ret (mkResult (scraper_airline_name self) false None
                     (Some (exn_str e))
                     (time_end env - time_start env)%Q)).

(** Every download attempt fails with a [RequestException]. *)
Definition retries_exhausted {Soup} (env : environment Soup) : Prop :=
  forall attempt : nat,
    (attempt < Config.MAX_RETRIES)%nat ->
    exists msg, http_get env attempt = Raise (RequestException msg).

(** The result [scrape] builds in its [except] branch. *)
Definition failure {Soup} (self : BaseScraper Soup)
           (env : environment Soup)
           (e : exn) : ScrapingResult :=
  mkResult (scraper_airline_name self) false None (Some (exn_str e))
           (time_end env - time_start env)%Q.

End Scraper.

(* ================================================================== *)
(** * [src/analyzer.py]: viability metrics *)
(* ================================================================== *)

Module Analyzer.

Import Py Models.

(** The data frame: one row per loaded policy. *)
Definition frame : Type := list AirlinePolicy.

(** [PolicyAnalyzer]: the store it reads and the frame it has loaded, if
    any. *)
Record PolicyAnalyzer : Type := mkAnalyzer {
  db : Database.store;
  df : option frame
}.

(** Number of rows that satisfy a test. *)
Definition count (test : AirlinePolicy -> bool) (rows : frame) : Z :=
  Z.of_nat (List.length (filter test rows)).

(** [len(df)] *)
Definition len (rows : frame) : Z := Z.of_nat (List.length rows).

(** [PolicyAnalyzer.load_data]: when the store gives no policy an empty
    frame is returned and [self.df] is left as it was. *)
Definition load_data (fault : bool) (self : PolicyAnalyzer)
  : frame * PolicyAnalyzer :=
  match Database.get_all_policies fault (db self) with
  | [] => ([], self)
  | policies => (policies, mkAnalyzer (db self) (Some policies))
  end.

(** [self.df is None or self.df.empty] *)
Definition none_or_empty (d : option frame) : bool :=
  match d with
  | None => true
  | Some [] => true
  | Some _ => false
  end.

(** [df[col] <= max_acceptable_cost_cop]: a missing cost compares false. *)
Definition reasonable_cost (p : AirlinePolicy) : bool :=
  match cost_name_change_domestic_cop p with
  | Some c => c <=? Config.max_acceptable_cost_cop
  | None => false
  end.

Definition allows_transfer (p : AirlinePolicy) : bool :=
  is_True (allows_transfer_to_third_party p).

(** [PolicyAnalyzer._calculate_overall_viability_score] on the loaded
    frame. *)
Definition _calculate_overall_viability_score (rows : frame) : Q :=
  match rows with
  | [] => 0
  | _ =>
      let total := inject_Z (len rows) in
      let transfer_score :=
        (inject_Z (count allows_transfer rows) / total * (5 # 10))%Q in
      let cost_score :=
        (inject_Z (count reasonable_cost rows) / total * (3 # 10))%Q in
      let data_score :=
        ((1 - inject_Z (count requires_manual_review rows) / total)
         * (2 # 10))%Q in
      let overall_score := (transfer_score + cost_score + data_score)%Q in
      round overall_score 2
  end.

(** [viable_mask]: transfer allowed or full name change allowed. *)
Definition viable_mask (p : AirlinePolicy) : bool :=
  (is_True (allows_transfer_to_third_party p)
   || is_True (allows_full_name_change p))%bool.

(** The local [market_coverage] of [generate_viability_report]. *)
Definition market_coverage (rows : frame) : Q :=
  let total := len rows in
  let viable_count := count viable_mask rows in
  if total >? 0
  then (inject_Z viable_count / inject_Z total * 100)%Q
  else 0%Q.

(** The band tested by [_generate_conclusion] and
    [_generate_recommendation]. *)
Definition conclusion_band (market_coverage : Q) : viability_status :=
  if Qle_bool Config.market_coverage_ideal market_coverage then VIABLE
  else if Qle_bool Config.market_coverage_minimum market_coverage
       then VIABLE_CON_RESTRICCIONES
       else NO_VIABLE.

(** The report built from a non-empty frame. *)
Definition report_of (rows : frame) : ViabilityReport :=
  mkReport
    (len rows)
    (len rows - count requires_manual_review rows)
    (count allows_transfer rows)
    (count (fun p => is_True (allows_full_name_change p)) rows)
    (count (fun p => is_True (allows_name_correction p)) rows)
    (map airline_name (filter viable_mask rows))
    (map airline_name (filter (fun p => negb (viable_mask p)) rows))
    (round (market_coverage rows) 1)
    (_calculate_overall_viability_score rows)
    (conclusion_band (market_coverage rows)).

(** [if self.df is None or self.df.empty: self.load_data()] *)
Definition ensure_loaded (fault : bool) (self : PolicyAnalyzer)
  : PolicyAnalyzer :=
  if none_or_empty (df self) then snd (load_data fault self) else self.

(** [PolicyAnalyzer.generate_viability_report].  The frame is loaded when
    none is held, first by the method itself and again by
    [generate_statistics]; [fault] and [fault'] tell whether the store
    fails on each of the two reads.  Without rows the attribute and column
    look-ups that follow raise. *)
Definition generate_viability_report (fault fault' : bool)
           (self : PolicyAnalyzer)
  : result ViabilityReport * PolicyAnalyzer :=
  let self := ensure_loaded fault self in
  let self := ensure_loaded fault' self in
  match df self with
  | None =>
      (Raise (Exception "'NoneType' object has no attribute 'empty'"), self)
  | Some [] => (Raise (Exception "'allows_transfer_to_third_party'"), self)
  | Some rows => (Return (report_of rows), self)
  end.



End Analyzer.

(* ================================================================== *)
(** * Further functions of [src/utils.py] *)
(* ================================================================== *)

Module UtilsMore.

Import Py Re Utils.

(** [[\d]+], the class and group of the percentage patterns. *)
Definition digit_class : atom := OneOf [IDigit].

Definition digits_group : regex := Group (Plus digit_class).

(** [REGEX_PORCENTAJES] *)
Definition REGEX_PORCENTAJES : list regex :=
  [ (* ([\d]+)\s*% *)
    cat [digits_group; Star Space; Atom (Lit "%")];
    (* ([\d]+)\s*por\s*ciento *)
    cat [digits_group; Star Space; word "por"; Star Space; word "ciento"] ].

(** The loop of [extract_percentage]: the first match of a pattern is
    converted with [int]; a [ValueError] moves on to the next pattern. *)
Fixpoint percentage_loop (patterns : list regex) (text : string)
  : result (option Z) :=
  match patterns with
  | [] => Return None
  | pattern :: rest =>
      match findall_first pattern text with
      | Some m =>
          match int m with
          | Return n => Return (Some n)
          | Raise (ValueError _) => percentage_loop rest text
          | Raise e => Raise e
          end
      | None => percentage_loop rest text
      end
  end.

(** [extract_percentage]: the text is searched as it is, without
    stripping. *)
Definition extract_percentage (text : string) : result (option Z) :=
  if negb (truthy text) then Return None
  else percentage_loop REGEX_PORCENTAJES text.

(** [has_content_changed] *)
Definition has_content_changed (new_hash : string)
           (old_hash : option string) : bool :=
  match old_hash with
  | None => true
  | Some old =>
      if negb (truthy old) then true else negb (String.eqb new_hash old)
  end.

(** [re.sub(r'\s+', ' ', text)]: every maximal run of blanks becomes one
    space.  [in_run] tells that the previous character was a blank. *)
Fixpoint sub_blanks (in_run : bool) (text : string) : string :=
  match text with
  | EmptyString => EmptyString
  | String c rest =>
      if is_space c then
        if in_run then sub_blanks true rest
        else String " " (sub_blanks true rest)
      else String c (sub_blanks false rest)
  end.

(** [clean_text] *)
Definition clean_text (text : string) : string :=
  if negb (truthy text) then ""
  else strip (sub_blanks false text).

(** [len(text)] *)
Definition len (text : string) : Z := Z.of_nat (String.length text).

(** [text[:stop]]: a negative [stop] counts from the end. *)
Definition slice_to (stop : Z) (text : string) : string :=
  if 0 <=? stop then take (Z.to_nat stop) text
  else take (Z.to_nat (len text + stop)) text.

(** [truncate_text] *)
Definition truncate_text (text : string) (max_length : Z) : string :=
  if (negb (truthy text) || (len text <=? max_length))%bool then text
  else slice_to (max_length - 3) text ++ "...".







End UtilsMore.

(* ================================================================== *)
(** * Further methods of [src/models.py] *)
(* ================================================================== *)

Module ModelsMore.

Import Py Models.

(** Truthiness of an optional integer and of an optional text. *)
Definition truthy_int (o : option Z) : bool :=
  match o with
  | Some n => negb (n =? 0)
  | None => false
  end.

Definition truthy_text (o : option string) : bool :=
  match o with
  | Some s => truthy s
  | None => false
  end.

(** [AirlinePolicy.get_viability_score] *)
Definition get_viability_score (self : AirlinePolicy) : Q :=
  let score := 0%Q in
  let score :=
    if is_True (allows_transfer_to_third_party self) then (score + (5 # 10))%Q
    else if is_True (allows_full_name_change self) then (score + (3 # 10))%Q
    else if is_True (allows_name_correction self) then (score + (1 # 10))%Q
    else score in
  let score :=
    if truthy_int (cost_name_change_domestic_cop self) then
      match cost_name_change_domestic_cop self with
      | Some cost =>
          if cost <? 50000 then (score + (3 # 10))%Q
          else if cost <? 100000 then (score + (2 # 10))%Q
          else if cost <? 200000 then (score + (1 # 10))%Q
          else score
      | None => score
      end
    else score in
  let score :=
    if truthy_text (transfer_process_description self)
    then (score + (2 # 10))%Q
    else score in
  min score 1.

End ModelsMore.

(* ================================================================== *)
(** * Further queries of [src/database.py] *)
(* ================================================================== *)

Module DatabaseMore.

Import Py Models Database.

(** [ORDER BY airline_name], rows of equal name in table order. *)
Fixpoint insert_by_name (r : row) (sorted : list row) : list row :=
  match sorted with
  | [] => [r]
  | x :: rest =>
      if String.ltb (airline_name (columns r)) (airline_name (columns x))
      then r :: sorted
      else x :: insert_by_name r rest
  end.

Definition order_by_airline_name (rows : list row) : list row :=
  fold_right insert_by_name [] rows.

(** [column = 1] on a nullable boolean column. *)
Definition is_one (o : option bool) : bool :=
  match o with Some true => true | _ => false end.

(** [DatabaseManager.get_viable_airlines] *)
Definition get_viable_airlines (fault : bool) (db : store)
  : list AirlinePolicy :=
  if fault then []
  else map _row_to_policy
           (order_by_airline_name
              (filter (fun r =>
                         (is_one (allows_transfer_to_third_party (columns r))
                          || is_one (allows_full_name_change (columns r)))%bool)
                      (airline_policies db))).

End DatabaseMore.

(* ================================================================== *)
(** * Further methods of [src/scrapers/base_scraper.py] *)
(* ================================================================== *)

Module ScraperMore.

Import Py Models Scraper.

(** [captcha_indicators] *)
Definition captcha_indicators : list string :=
  [ "recaptcha"; "captcha"; "g-recaptcha"; "cloudflare";
    "cf-browser-verification"; "human verification" ].

(** [BaseScraper._detect_captcha] *)
Definition _detect_captcha (html_content : string) : bool :=
  let html_lower := lower html_content in
  existsb (fun indicator => contains indicator html_lower)
          captcha_indicators.

(** [BaseScraper.needs_manual_review] *)
Definition needs_manual_review (policy : AirlinePolicy) : bool :=
  let missing_critical := List.length (get_missing_fields policy) in
  if (2 <? missing_critical)%nat then true
  else match (confidence_score policy ?= 4 # 10)%Q with
       | Lt => true
       | _ => false
       end.

End ScraperMore.

(* ================================================================== *)
(** * [src/utils.py]: sentences, telephone numbers and addresses *)
(* ================================================================== *)

Module UtilsSentences.

Import Py Re Utils UtilsMore.

(** The class [[.!?]]. *)
Definition is_terminator (c : ascii) : bool :=
  (Ascii.eqb c "." || Ascii.eqb c "!" || Ascii.eqb c "?")%bool.

(** [re.split(r'[.!?]+', text)]: the pieces between the maximal runs of
    terminators, with an empty piece before a leading run and after a
    trailing one.  [in_run] tells that the previous character was a
    terminator. *)
Fixpoint split (in_run : bool) (text : string) : list string :=
  match text with
  | EmptyString => [EmptyString]
  | String c rest =>
      if is_terminator c then
        if in_run then split true rest
        else EmptyString :: split true rest
      else
        match split false rest with
        | piece :: more => String c piece :: more
        | [] => [String c EmptyString]
        end
  end.

(** [sentences[start:stop]] for [start <= stop <= len(sentences)]. *)
Definition slice (start stop : nat) (sentences : list string)
  : list string :=
  firstn (stop - start) (skipn start sentences).

(** [any(keyword.lower() in sentence_lower for keyword in keywords)] *)
Definition mentions (keywords : list string) (sentence : string) : bool :=
  let sentence_lower := lower sentence in
  existsb (fun keyword => contains (lower keyword) sentence_lower) keywords.

(** The loop of [extract_sentences_with_keywords] from sentence number
    [i]. *)
Fixpoint sentences_loop (sentences keywords : list string)
         (context_sentences i : nat) (todo : list string) : list string :=
  match todo with
  | [] => []
  | sentence :: rest =>
      let relevant :=
        if mentions keywords sentence then
          let start := Nat.max 0 (i - context_sentences) in
          let stop :=
            Nat.min (List.length sentences) (i + context_sentences + 1) in
          [clean_text (join " " (slice start stop sentences))]
        else [] in
      (relevant
       ++ sentences_loop sentences keywords context_sentences (S i) rest)%list
  end.

(** [extract_sentences_with_keywords], for the non-negative
    [context_sentences] its callers pass. *)
Definition extract_sentences_with_keywords (text : string)
           (keywords : list string) (context_sentences : nat)
  : list string :=
  match text, keywords with
  | EmptyString, _ => []
  | _, [] => []
  | _, _ =>
      let sentences := split false text in
      sentences_loop sentences keywords context_sentences 0 sentences
  end.

(** [\d{n}] *)
Definition digits (n : nat) : regex := cat (repeat (Atom Digit) n).

(** The class [[\s-]]. *)
Definition separator : atom := OneOf [ISpace; ILit "-"].

(** The patterns of [extract_phone].  The outer group stands for
    [match.group(0)], the whole match.  A counted repetition is written
    out: [\d{1,3}] is a digit followed, optionally, by a second and then a
    third, and [\d{10,}] is ten digits followed by [\d*]. *)
Definition PHONE_PATTERNS : list regex :=
  [ (* \+?\d{1,3}[\s-]?\d{3}[\s-]?\d{3}[\s-]?\d{4} *)
    Group (cat [Opt (Atom (Lit "+"));
                Atom Digit; Opt (Seq (Atom Digit) (Opt (Atom Digit)));
                Opt (Atom separator); digits 3;
                Opt (Atom separator); digits 3;
                Opt (Atom separator); digits 4]);
    (* \d{3}[\s-]\d{3}[\s-]\d{4} *)
    Group (cat [digits 3; Atom separator; digits 3; Atom separator;
                digits 4]);
    (* \d{10,} *)
    Group (Seq (digits 10) (Star Digit)) ].

(** The first pattern that is found gives the result. *)
Fixpoint first_found (patterns : list regex) (text : string)
  : option string :=
  match patterns with
  | [] => None
  | pattern :: rest =>
      match search pattern text with
      | Some whole => Some whole
      | None => first_found rest text
      end
  end.

(** [extract_phone] *)
Definition extract_phone (text : string) : option string :=
  if negb (truthy text) then None else first_found PHONE_PATTERNS text.

(** The letters [a-zA-Z].  The address pattern is compiled without
    [re.IGNORECASE], and its classes list both cases of every letter: that
    is what the literals of a class match here (lemma [address_classes]). *)
Definition letters : list item :=
  map ILit (list_ascii_of_string "abcdefghijklmnopqrstuvwxyz").

Definition letter : atom := OneOf letters.

(** [[a-zA-Z0-9._%+-]] and [[a-zA-Z0-9.-]] *)
Definition local_class : atom :=
  OneOf (letters
         ++ [IDigit; ILit "."; ILit "_"; ILit "%"; ILit "+"; ILit "-"])%list.

Definition domain_class : atom :=
  OneOf (letters ++ [IDigit; ILit "."; ILit "-"])%list.

(** [[a-zA-Z0-9._%+-]+@[a-zA-Z0-9.-]+\.[a-zA-Z]{2,}], the whole match
    captured; [[a-zA-Z]{2,}] is a letter followed by [[a-zA-Z]+]. *)
Definition EMAIL_PATTERN : regex :=
  Group (cat [Plus local_class; Atom (Lit "@"); Plus domain_class;
              Atom (Lit "."); Atom letter; Plus letter]).

(** [extract_email] *)
Definition extract_email (text : string) : option string :=
  if negb (truthy text) then None else search EMAIL_PATTERN text.

End UtilsSentences.

(* ================================================================== *)
(** * [src/scrapers/]: the scrapers of Wingo, Satena and LATAM *)
(* ================================================================== *)

Module Scrapers.

Import Py Models Utils UtilsMore UtilsSentences Scraper.

Definition bind_result {A B : Type} (r : result A) (f : A -> result B)
  : result B :=
  match r with
  | Return a => f a
  | Raise e => Raise e
  end.

Notation "x <-- r ;; k" := (bind_result r (fun x => k))
  (at level 61, r at next level, right associativity).

Definition cancelacion : string := "cancelaci" ++ String o_acute "n".
Definition devolucion : string := "devoluci" ++ String o_acute "n".
Definition correccion : string := "correcci" ++ String o_acute "n".

(** The assignments to the fields of the transfer block. *)
Definition set_transfer
           (full_name_change name_correction : option bool)
           (domestic_cop : option Z) (usd : option Q)
           (third_party : option bool) (description : option string)
           (p : AirlinePolicy) : AirlinePolicy :=
  mkPolicy (airline_name p) (airline_code p) full_name_change
           name_correction domestic_cop
           (cost_name_change_intl_cop p) usd third_party description
           (allows_cancellation p)
           (cancellation_cost_cop p) (refund_percentage p)
           (time_restrictions p) (fare_type_differences p)
           (max_change_deadline p) (terms_url p) (support_phone p)
           (support_email p) (required_documentation p)
           (notable_exceptions p) (source_url p) (scraped_at p)
           (raw_html_hash p) (requires_manual_review p)
           (manual_review_notes p) (confidence_score p).

(** The assignments to the fields of the cancellation block. *)
Definition set_cancellation (allows : option bool) (cost : option Z)
           (refund : option Z) (p : AirlinePolicy) : AirlinePolicy :=
  mkPolicy (airline_name p) (airline_code p) (allows_full_name_change p)
           (allows_name_correction p) (cost_name_change_domestic_cop p)
           (cost_name_change_intl_cop p) (cost_name_change_usd p)
           (allows_transfer_to_third_party p)
           (transfer_process_description p) allows cost refund
           (time_restrictions p) (fare_type_differences p)
           (max_change_deadline p) (terms_url p) (support_phone p)
           (support_email p) (required_documentation p)
           (notable_exceptions p) (source_url p) (scraped_at p)
           (raw_html_hash p) (requires_manual_review p)
           (manual_review_notes p) (confidence_score p).

(** The assignments to the contact fields, the terms and the notable
    exceptions. *)
Definition set_contact (phone email terms exceptions : option string)
           (p : AirlinePolicy) : AirlinePolicy :=
  mkPolicy (airline_name p) (airline_code p) (allows_full_name_change p)
           (allows_name_correction p) (cost_name_change_domestic_cop p)
           (cost_name_change_intl_cop p) (cost_name_change_usd p)
           (allows_transfer_to_third_party p)
           (transfer_process_description p) (allows_cancellation p)
           (cancellation_cost_cop p) (refund_percentage p)
           (time_restrictions p) (fare_type_differences p)
           (max_change_deadline p) terms phone email
           (required_documentation p) exceptions (source_url p)
           (scraped_at p) (raw_html_hash p) (requires_manual_review p)
           (manual_review_notes p) (confidence_score p).

(** The cancellation block, the same in the three scrapers. *)
Definition cancellation_block (cancellation_sections : list string)
           (policy : AirlinePolicy) : result AirlinePolicy :=
  match cancellation_sections with
  | [] => Return policy
  | _ =>
      let cancellation_text := join " " cancellation_sections in
      let allows_cancel := fst (detect_boolean_policy cancellation_text None) in
      cost <-- extract_cop_amount cancellation_text ;;
      refund <-- extract_percentage cancellation_text ;;
      Return (set_cancellation allows_cancel cost refund policy)
  end.

(** The airlines whose scrapers are modelled, and the [transfer_keywords]
    and [cancellation_keywords] of their [extract_data]. *)
Inductive airline : Type := Wingo | Satena | LATAM.

Definition transfer_keywords (a : airline) : list string :=
  match a with
  | Wingo => ["cambio de nombre"; "modificar nombre"; "cambiar pasajero"]
  | Satena => ["cambio de nombre"; "modificar nombre"; "cambio de pasajero"]
  | LATAM =>
      ["cambio de pasajero"; "cambio de nombre"; "transferencia de boleto"]
  end.

Definition cancellation_keywords (a : airline) : list string :=
  match a with
  | Wingo => ["cancelar"; "reembolso"; "anular reserva"]
  | Satena => [cancelacion; "reembolso"; devolucion]
  | LATAM => [cancelacion; "reembolso"; devolucion]
  end.

Section Page.

Context {Soup : Type}.

(** What the scrapers take from their libraries and from the clock:
    [soup.get_text(separator=' ', strip=True)], the MD5 digest in
    hexadecimal, and [datetime.now()]. *)
Variable get_text : Soup -> string.
Variable md5_hexdigest : string -> string.
Variable now : Z.

(** [compute_html_hash] *)
Definition compute_html_hash (html_content : string) : string :=
  if negb (truthy html_content) then "" else md5_hexdigest html_content.

(** The policy the constructor call of every [extract_data] builds. *)
Definition initial_policy (name code url html_content : string)
  : AirlinePolicy :=
  mkPolicy name code None None None None None None None None None None
           None None None None None None None None (Some url) now
           (Some (compute_html_hash html_content)) false None 0.

(** [WingoScraper] *)
Definition WINGO_URL : string :=
  "https://www.wingo.com/es/ayuda/cambios-y-cancelaciones".

Definition wingo_extract_data (html_content : string) (soup : Soup)
  : result AirlinePolicy :=
  let policy := initial_policy "Wingo" "P5" WINGO_URL html_content in
  let page_text := get_text soup in
  let transfer_keywords := transfer_keywords Wingo in
  let cancellation_keywords := cancellation_keywords Wingo in
  let transfer_sections :=
    extract_sentences_with_keywords page_text transfer_keywords 2 in
  let cancellation_sections :=
    extract_sentences_with_keywords page_text cancellation_keywords 2 in
  policy <--
    match transfer_sections with
    | [] => Return policy
    | _ =>
        let transfer_text := join " " transfer_sections in
        let allows_change := fst (detect_boolean_policy transfer_text None) in
        cop <-- extract_cop_amount transfer_text ;;
        usd <-- extract_usd_amount transfer_text ;;
        Return (set_transfer
                  allows_change
                  (Some (contains correccion (lower transfer_text)))
                  cop usd allows_change
                  (Some (clean_text (slice_to 500 transfer_text)))
                  policy)
    end ;;
  policy <-- cancellation_block cancellation_sections policy ;;
  let page_lower := lower page_text in
  Return (set_contact
            (extract_phone page_text) (extract_email page_text)
            (Some WINGO_URL)
            (if (contains "low cost" page_lower
                 || contains "bajo costo" page_lower)%bool
             then Some ("Aerol" ++ i_acute ++ "nea de bajo costo con pol"
                        ++ i_acute ++ "ticas restrictivas")
             else notable_exceptions policy)
            policy).

Definition WingoScraper : BaseScraper Soup :=
  mkScraper Soup "Wingo" "P5" "https://www.wingo.com" WINGO_URL false
            wingo_extract_data.

(** [SatenaScraper] *)
Definition SATENA_URL : string :=
  "https://www.satena.com/terminos-y-condiciones/".

Definition satena_extract_data (html_content : string) (soup : Soup)
  : result AirlinePolicy :=
  let policy := initial_policy "Satena" "9R" SATENA_URL html_content in
  let page_text := get_text soup in
  let transfer_keywords := transfer_keywords Satena in
  let cancellation_keywords := cancellation_keywords Satena in
  let transfer_sections :=
    extract_sentences_with_keywords page_text transfer_keywords 2 in
  let cancellation_sections :=
    extract_sentences_with_keywords page_text cancellation_keywords 2 in
  policy <--
    match transfer_sections with
    | [] => Return policy
    | _ =>
        let transfer_text := join " " transfer_sections in
        let allows_change := fst (detect_boolean_policy transfer_text None) in
        cop <-- extract_cop_amount transfer_text ;;
        Return (set_transfer
                  allows_change
                  (Some (contains correccion (lower transfer_text)))
                  cop (cost_name_change_usd policy) allows_change
                  (Some (clean_text (slice_to 500 transfer_text)))
                  policy)
    end ;;
  policy <-- cancellation_block cancellation_sections policy ;;
  Return (set_contact
            (extract_phone page_text) (extract_email page_text)
            (Some SATENA_URL)
            (Some ("Aerol" ++ i_acute ++ "nea estatal, rutas a zonas remotas"))
            policy).

Definition SatenaScraper : BaseScraper Soup :=
  mkScraper Soup "Satena" "9R" "https://www.satena.com" SATENA_URL false
            satena_extract_data.

(** [LatamScraper] *)
Definition LATAM_URL : string :=
  "https://www.latamairlines.com/co/es/experiencia/cambios-y-reembolsos".

Definition LATAM_TERMS : string :=
  "https://www.latamairlines.com/co/es/condiciones-generales-de-transporte".

Definition latam_extract_data (html_content : string) (soup : Soup)
  : result AirlinePolicy :=
  let policy := initial_policy "LATAM" "LA" LATAM_URL html_content in
  let page_text := get_text soup in
  let transfer_keywords := transfer_keywords LATAM in
  let cancellation_keywords := cancellation_keywords LATAM in
  let transfer_sections :=
    extract_sentences_with_keywords page_text transfer_keywords 2 in
  let cancellation_sections :=
    extract_sentences_with_keywords page_text cancellation_keywords 2 in
  policy <--
    match transfer_sections with
    | [] => Return policy
    | _ =>
        let transfer_text := join " " transfer_sections in
        let allows_change := fst (detect_boolean_policy transfer_text None) in
        cop <-- extract_cop_amount transfer_text ;;
        usd <-- extract_usd_amount transfer_text ;;
        Return (set_transfer
                  allows_change
                  (Some (contains correccion (lower transfer_text)))
                  cop usd
                  (Some (contains "transferir" (lower transfer_text)))
                  (Some (clean_text (slice_to 500 transfer_text)))
                  policy)
    end ;;
  policy <-- cancellation_block cancellation_sections policy ;;
  Return (set_contact
            (extract_phone page_text) (extract_email page_text)
            (Some LATAM_TERMS) (notable_exceptions policy) policy).

Definition LatamScraper : BaseScraper Soup :=
  mkScraper Soup "LATAM" "LA" "https://www.latamairlines.com" LATAM_URL
            false latam_extract_data.

(** The scraper of an airline. *)
Definition scraper (a : airline) : BaseScraper Soup :=
  match a with
  | Wingo => WingoScraper
  | Satena => SatenaScraper
  | LATAM => LatamScraper
  end.

End Page.

End Scrapers.

(* ================================================================== *)
(** * The language of a pattern *)
(* ================================================================== *)

Module ReLanguage.

Import Py Re.

(** The texts a pattern matches as a whole. *)
Fixpoint language (r : regex) (w : string) : Prop :=
  match r with
  | Eps => w = ""
  | Atom a => exists c, w = String c "" /\ atom_matches a c = true
  | Star a => all_chars (atom_matches a) w = true
  | Plus a => w <> "" /\ all_chars (atom_matches a) w = true
  | Opt r1 => w = "" \/ language r1 w
  | Seq r1 r2 => exists u v, w = u ++ v /\ language r1 u /\ language r2 v
  | Alt r1 r2 => language r1 w \/ language r2 w
  | Group r1 => language r1 w
  | Eol => w = ""
  end.

(** The one-character matchers of a pattern. *)
Fixpoint atoms (r : regex) : list atom :=
  match r with
  | Eps | Eol => []
  | Atom a | Star a | Plus a => [a]
  | Opt r1 | Group r1 => atoms r1
  | Seq r1 r2 | Alt r1 r2 => (atoms r1 ++ atoms r2)%list
  end.

(** The least number of digits a match of the pattern holds for sure. *)
Fixpoint min_digits (r : regex) : nat :=
  match r with
  | Atom Digit | Plus Digit => 1
  | Seq r1 r2 => min_digits r1 + min_digits r2
  | Alt r1 r2 => Nat.min (min_digits r1) (min_digits r2)
  | Group r1 => min_digits r1
  | _ => 0
  end.

(** Number of decimal digits of a text. *)
Fixpoint count_digits (s : string) : nat :=
  match s with
  | EmptyString => 0
  | String c rest =>
      if is_digit c then S (count_digits rest) else count_digits rest
  end.

(** [a-zA-Z] *)
Definition is_letter (c : ascii) : bool :=
  (in_range 65 90 c || in_range 97 122 c)%bool.

(** One of the given characters. *)
Definition one_of (chars : string) (c : ascii) : bool :=
  existsb (Ascii.eqb c) (list_ascii_of_string chars).

End ReLanguage.

(* ================================================================== *)
(** * [src/database.py]: the aggregate statistics *)
(* ================================================================== *)

Module DatabaseStatistics.

Import Py Models Database DatabaseMore.










End DatabaseStatistics.

(* ================================================================== *)
(** * Sample data *)
(* ================================================================== *)

Module Examples.

Import Py Models Analyzer.



Definition avianca_policy (now : Z) : AirlinePolicy :=
  mkPolicy "Avianca" "AV" (Some true) (Some true) (Some 150000) None None
           (Some true) None None None None None None None None None None
           None None None now None false None 0.


(** A scraper whose extraction raises, and two environments: one where
    every download fails, one where the page arrives. *)
Definition broken_scraper : Scraper.BaseScraper string :=
  Scraper.mkScraper string "Avianca" "AV" "https://www.avianca.com"
                    "https://www.avianca.com/co/es/" false
                    (fun _ _ => Raise (Exception "boom")).

Definition offline : Scraper.environment string :=
  Scraper.mkEnv string (fun _ => Raise (RequestException "timeout"))
                (fun html => Return html) "20240101_000000" true false
                false 10 25.

Definition online : Scraper.environment string :=
  Scraper.mkEnv string (fun _ => Return "<html>no se permite</html>")
                (fun html => Return html) "20240101_000000" true false
                false 10 25.

Definition stocked_world : Scraper.world :=
  Scraper.mkWorld
    (snd (Database.insert_policy false (avianca_policy 1)
                                 Database.empty_store))
    [].

End Examples.

(* ================================================================== *)
(** * Notions used in the statements *)
(* ================================================================== *)

Module Notions.

Import Py Re Utils UtilsMore Models ModelsMore Database Scraper ScraperMore.
Import UtilsSentences Scrapers ReLanguage Examples.

(** [s'] is what remains of [s] after some prefix. *)
Definition suffix (s' s : string) : Prop := exists pre, s = pre ++ s'.

(** The pattern has no capturing group. *)
Fixpoint no_groups (r : regex) : Prop :=
  match r with
  | Group _ => False
  | Seq r1 r2 | Alt r1 r2 => no_groups r1 /\ no_groups r2
  | Opt r1 => no_groups r1
  | _ => True
  end.

(** The text starts with a blank. *)
Definition starts_blank (s : string) : bool :=
  match s with
  | String c _ => is_space c
  | EmptyString => false
  end.

(** Every blank of the text is a single space that follows a non-blank
    character; [prev_blank] tells that the text comes after a blank (or at
    the very start, where a blank is not wanted either). *)
Fixpoint single_spaced (prev_blank : bool) (s : string) : bool :=
  match s with
  | EmptyString => true
  | String c rest =>
      if is_space c
      then (Ascii.eqb c " " && negb prev_blank && single_spaced true rest)%bool
      else single_spaced false rest
  end.

(** The characters of the text that are not blanks. *)
Fixpoint non_blanks (s : string) : string :=
  match s with
  | EmptyString => EmptyString
  | String c rest =>
      if is_space c then non_blanks rest else String c (non_blanks rest)
  end.



(** The policy [scrape] stores for what the extraction returned: flagged
    with the validation errors when invalid, and carrying its confidence
    score. *)
Definition finished (p0 : AirlinePolicy) : AirlinePolicy :=
  let v := validate_extracted_data p0 in
  let flagged :=
    if negb (is_valid v)
    then set_manual_review true (Some (join "; " (errors v))) p0
    else p0 in
  set_confidence_score (calculate_confidence_score flagged) flagged.

(** A scraper whose extraction returns Avianca's policy. *)
Definition working_scraper : BaseScraper string :=
  mkScraper string "Avianca" "AV" "https://www.avianca.com"
            "https://www.avianca.com/co/es/" false
            (fun _ _ => Return (avianca_policy 2)).

(** [b] was captured no later than [a]. *)
Definition not_newer (a b : row) : Prop :=
  scraped_at (columns b) <= scraped_at (columns a).


(** No keyword of the list occurs in the page, whatever the case. *)
Definition unmentioned (keywords : list string) (page_text : string)
  : Prop :=
  forall k, In k keywords -> contains (lower k) (lower page_text) = false.

(** The characters of a telephone number. *)
Definition phone_char (c : ascii) : bool :=
  (is_digit c || is_space c || one_of "+-" c)%bool.

(** The characters before and after the at sign of an address. *)
Definition local_char (c : ascii) : bool :=
  (is_letter c || is_digit c || one_of "._%+-" c)%bool.

Definition domain_char (c : ascii) : bool :=
  (is_letter c || is_digit c || one_of ".-" c)%bool.

Section OnPages.

Context {Soup : Type}.

(** The attempts before [attempt] failed with a request error. *)
Definition failed_before (env : environment Soup) (attempt : nat) : Prop :=
  forall earlier : nat,
    (earlier < attempt)%nat ->
    exists msg, http_get env earlier = Raise (RequestException msg).


(** The extraction of airline [a] on a page, for the page reader, the
    digest and the clock reading given. *)
Definition extracted (get_text : Soup -> string)
           (md5_hexdigest : string -> string) (now : Z)
           (a : airline) (html : string) (soup : Soup)
  : result AirlinePolicy :=
  extract_data (scraper get_text md5_hexdigest now a) html soup.

(** The sentences around the transfer keywords, and their text. *)
Definition transfer_sections (get_text : Soup -> string)
           (a : airline) (soup : Soup) : list string :=
  extract_sentences_with_keywords (get_text soup) (transfer_keywords a) 2.

Definition transfer_text (get_text : Soup -> string)
           (a : airline) (soup : Soup) : string :=
  join " " (transfer_sections get_text a soup).

End OnPages.

End Notions.

(* ================================================================== *)
(** * Properties of the extraction heuristics *)
(* ================================================================== *)

Section BooleanDetection.

Import Py Utils.

Lemma min_le_r (a b : Q) : (min a b <= b)%Q.
Proof.
  unfold min. destruct (b ?= a)%Q eqn:E.
  - apply Qeq_alt in E. rewrite E. apply Qle_refl.
  - apply Qle_refl.
  - rewrite <- Qgt_alt in E. apply Qlt_le_weak. exact E.
Qed.

Lemma min_le_l (a b : Q) : (min a b <= a)%Q.
Proof.
  unfold min. destruct (b ?= a)%Q eqn:E.
  - apply Qle_refl.
  - rewrite <- Qlt_alt in E. apply Qlt_le_weak. exact E.
  - apply Qle_refl.
Qed.

Lemma min_nonneg (a b : Q) : (0 <= a)%Q -> (0 <= b)%Q -> (0 <= min a b)%Q.
Proof.
  intros Ha Hb. unfold min. destruct (b ?= a)%Q; assumption.
Qed.

(** [min] picks one of its arguments. *)
Lemma min_cases (a b : Q) :
  ((a <= b)%Q /\ min a b = a) \/ ((b < a)%Q /\ min a b = b).
Proof.
  unfold min. destruct (b ?= a)%Q eqn:E.
  - left. split; [| reflexivity]. apply Qeq_alt in E. rewrite E.
    apply Qle_refl.
  - right. split; [| reflexivity]. apply Qlt_alt. exact E.
  - left. split; [| reflexivity]. rewrite <- Qgt_alt in E.
    apply Qlt_le_weak. exact E.
Qed.

Lemma ratio_nonneg (a b : Z) :
  0 <= a -> 0 < b -> (0 <= inject_Z a / inject_Z b)%Q.
Proof.
  intros Ha Hb. apply Qle_shift_div_l.
  - change 0%Q with (inject_Z 0). rewrite <- Zlt_Qlt. exact Hb.
  - rewrite Qmult_0_l. change 0%Q with (inject_Z 0). rewrite <- Zle_Qle.
    exact Ha.
Qed.

Lemma count_found_nonneg (patterns : list Re.regex) (text : string) :
  0 <= count_found patterns text.
Proof.
  induction patterns as [| p ps IH]; simpl; [lia |].
  destruct (Re.found p text); lia.
Qed.

Lemma count_keywords_nonneg (keywords : list string) (text : string) :
  0 <= count_keywords keywords text.
Proof.
  induction keywords as [| k ks IH]; simpl; [lia |].
  destruct (contains (lower k) text); lia.
Qed.

Lemma positive_matches_nonneg text keywords :
  0 <= positive_matches text keywords.
Proof.
  unfold positive_matches.
  pose proof (count_found_nonneg KEYWORDS_POSITIVE text).
  destruct keywords as [kws |]; [| lia].
  pose proof (count_keywords_nonneg kws text). lia.
Qed.

Lemma negative_matches_nonneg text : 0 <= negative_matches text.
Proof. apply count_found_nonneg. Qed.

Lemma determine_result_bounds (p n : Z) :
  0 <= p -> 0 <= n ->
  (0 <= snd (determine_result p n) <= 9 # 10)%Q.
Proof.
  intros Hp Hn. unfold determine_result.
  destruct (p >? n) eqn:E1; [| destruct (n >? p) eqn:E2]; simpl.
  - split; [| apply min_le_r].
    apply min_nonneg; [apply ratio_nonneg; lia | discriminate].
  - split; [| apply min_le_r].
    apply min_nonneg; [apply ratio_nonneg; lia | discriminate].
  - split; discriminate.
Qed.

(** C1 (evaluation of the code at the two texts of the claim).  Without a
    keyword list, "no se permite el cambio de nombre" scores one positive
    hit ([permite]) and one negative hit ([no\s+(?:se\s+)?permite]), a tie:
    the function returns [None] with confidence 0, not [False] with a
    positive confidence.  "se permite el cambio de nombre" returns [True]
    with confidence 1/2. *)
Theorem detect_boolean_policy_permite_tie :
  positive_matches "no se permite el cambio de nombre" None = 1
  /\ negative_matches "no se permite el cambio de nombre" = 1
  /\ detect_boolean_policy "no se permite el cambio de nombre" None
     = (None, 0%Q)
  /\ detect_boolean_policy "se permite el cambio de nombre" None
     = (Some true, 1 # 2).
Proof. repeat split; vm_compute; reflexivity. Qed.

(** C6.  The result is determined by the two match counts alone, and
    exchanging the counts flips the boolean ([True] and [False] trade
    places, the undetermined [None] stays) and leaves the confidence as it
    is. *)
Theorem determine_result_swap :
  (forall (text : string) (keywords : option (list string)),
      text <> "" ->
      detect_boolean_policy text keywords
      = determine_result (positive_matches (strip (lower text)) keywords)
                         (negative_matches (strip (lower text))))
  /\ (forall positive_matches negative_matches : Z,
         determine_result negative_matches positive_matches
         = (option_map negb
              (fst (determine_result positive_matches negative_matches)),
            snd (determine_result positive_matches negative_matches))).
Proof.
  split.
  - intros text keywords NE. unfold detect_boolean_policy.
    destruct text; [congruence | reflexivity].
  - intros p n. unfold determine_result.
    replace (n + p + 1) with (p + n + 1) by lia.
    destruct (p >? n) eqn:E1; destruct (n >? p) eqn:E2; try reflexivity.
    rewrite Z.gtb_lt in E1, E2. lia.
Qed.

(** C7.  For every text and keyword list the confidence lies in
    [0, 0.9].  With [p] and [n] the positive and negative counts on the
    lower-cased, stripped text: if [p > n] the result is [True] with
    confidence [min(p / (p + n + 1), 0.9)], if [n > p] it is [False] with
    [min(n / (p + n + 1), 0.9)], and on a tie (zero against zero included)
    and on an empty text it is [None] with confidence exactly 0. *)
Theorem detect_boolean_policy_confidence
        (text : string) (keywords : option (list string)) :
  let p := positive_matches (strip (lower text)) keywords in
  let n := negative_matches (strip (lower text)) in
  (0 <= snd (detect_boolean_policy text keywords) <= 9 # 10)%Q
  /\ (text = "" -> detect_boolean_policy text keywords = (None, 0%Q))
  /\ (text <> "" -> n < p ->
      detect_boolean_policy text keywords
      = (Some true, min (inject_Z p / inject_Z (p + n + 1)) (9 # 10)))
  /\ (text <> "" -> p < n ->
      detect_boolean_policy text keywords
      = (Some false, min (inject_Z n / inject_Z (p + n + 1)) (9 # 10)))
  /\ (p = n -> detect_boolean_policy text keywords = (None, 0%Q)).
Proof.
  intros p n.
  assert (Hp : 0 <= p) by apply positive_matches_nonneg.
  assert (Hn : 0 <= n) by apply negative_matches_nonneg.
  unfold detect_boolean_policy.
  destruct text as [| c rest].
  - simpl. repeat split; try discriminate; try reflexivity.
    all: intros H; try (now elim H).
  - cbn [truthy negb].
    change (positive_matches (strip (lower (String c rest))) keywords) with p.
    change (negative_matches (strip (lower (String c rest)))) with n.
    repeat split.
    + apply determine_result_bounds; assumption.
    + apply determine_result_bounds; assumption.
    + discriminate.
    + intros _ H. unfold determine_result.
      destruct (p >? n) eqn:E; [reflexivity |].
      rewrite Z.gtb_ltb, Z.ltb_ge in E. lia.
    + intros _ H. unfold determine_result.
      destruct (p >? n) eqn:E1.
      * rewrite Z.gtb_lt in E1. lia.
      * destruct (n >? p) eqn:E2; [reflexivity |].
        rewrite Z.gtb_ltb, Z.ltb_ge in E2. lia.
    + intros H. unfold determine_result. rewrite H.
      destruct (n >? n) eqn:E; [| reflexivity].
      rewrite Z.gtb_lt in E. lia.
Qed.

End BooleanDetection.

Section Captures.

Import Py Re Utils.

Lemma take_app_length (pre s : string) :
  take (String.length (pre ++ s) - String.length s) (pre ++ s) = pre.
Proof.
  induction pre as [| c pre IH]; cbn [append String.length].
  - rewrite Nat.sub_diag. destruct s; reflexivity.
  - replace (S (String.length (pre ++ s)) - String.length s)%nat
      with (S (String.length (pre ++ s) - String.length s)).
    + cbn [take]. now rewrite IH.
    + assert (String.length s <= String.length (pre ++ s))%nat.
      { clear. induction pre; cbn [append String.length]; lia. }
      lia.
Qed.

Lemma match_star_inv {R : Type} (a : atom) (s : string)
      (k : string -> option R) (x : R) :
  match_star a s k = Some x ->
  exists pre s',
    s = pre ++ s'
    /\ all_chars (atom_matches a) pre = true
    /\ k s' = Some x.
Proof.
  induction s as [| c s1 IH]; cbn [match_star].
  - intros H. exists "", "". auto.
  - destruct (atom_matches a c) eqn:E.
    + destruct (match_star a s1 k) as [y |] eqn:M.
      * intros H. injection H as ->.
        destruct (IH eq_refl) as (pre & s' & -> & A & K).
        exists (String c pre), s'. cbn [all_chars append]. rewrite E, A. auto.
      * intros H. exists "", (String c s1). auto.
    + intros H. exists "", (String c s1). auto.
Qed.

Lemma match_re_capture {R : Type} (r : regex) :
  captures_amount r ->
  forall (s : string) (cap : option string)
         (k : string -> option string -> option R) (x : R),
    amount_text cap ->
    match_re r s cap k = Some x ->
    exists s' cap', k s' cap' = Some x /\ amount_text cap'.
Proof.
  induction r as [| a | a | a | r1 IH1 | r1 IH1 r2 IH2 | r1 IH1 r2 IH2
                  | r1 IH1 |]; intros W s cap k x C; cbn [match_re].
  - eauto.
  - destruct s as [| c s1]; [discriminate |].
    destruct (atom_matches a c); [eauto | discriminate].
  - intros H. apply match_star_inv in H. destruct H as (? & s' & _ & _ & K).
    eauto.
  - destruct s as [| c s1]; [discriminate |].
    destruct (atom_matches a c); [| discriminate].
    intros H. apply match_star_inv in H. destruct H as (? & s' & _ & _ & K).
    eauto.
  - destruct (match_re r1 s cap k) as [y |] eqn:M.
    + intros H. injection H as ->. eapply IH1; eauto.
    + eauto.
  - destruct W as [W1 W2]. intros H.
    destruct (IH1 W1 _ _ _ _ C H) as (s1 & cap1 & H1 & C1).
    eapply IH2; eauto.
  - destruct W as [W1 W2].
    destruct (match_re r1 s cap k) as [y |] eqn:M.
    + intros H. injection H as ->. eapply IH1; eauto.
    + intros H. eapply IH2; eauto.
  - cbn [captures_amount] in W. subst r1. cbn [match_re].
    destruct s as [| c s1]; [discriminate |].
    destruct (atom_matches amount_class c) eqn:E; [| discriminate].
    intros H. apply match_star_inv in H.
    destruct H as (pre & s' & -> & A & K).
    exists s', (Some (consumed (String c (pre ++ s')) s')).
    split; [exact K |]. unfold consumed.
    change (String c (pre ++ s')) with (String c pre ++ s').
    rewrite take_app_length. cbn [amount_text all_chars]. now rewrite E, A.
  - destruct (at_end s); [eauto | discriminate].
Qed.

Lemma search_capture (r : regex) (s g : string) :
  captures_amount r ->
  search r s = Some g ->
  all_chars (atom_matches amount_class) g = true.
Proof.
  intros W. induction s as [| c s1 IH]; cbn [search].
  - destruct (match_at r "") as [y |] eqn:M; [| discriminate].
    intros H. injection H as ->. unfold match_at in M.
    apply (match_re_capture r W) in M; [| exact I].
    destruct M as (s' & [g' |] & E & C); injection E as <-;
      [exact C | reflexivity].
  - destruct (match_at r (String c s1)) as [y |] eqn:M; [| exact IH].
    intros H. injection H as ->. unfold match_at in M.
    apply (match_re_capture r W) in M; [| exact I].
    destruct M as (s' & [g' |] & E & C); injection E as <-;
      [exact C | reflexivity].
Qed.

Lemma amount_patterns_capture (pattern : regex) :
  In pattern (REGEX_COSTOS_COP ++ REGEX_COSTOS_USD) ->
  captures_amount pattern.
Proof.
  cbn [REGEX_COSTOS_COP REGEX_COSTOS_USD app In].
  intros H.
  repeat (destruct H as [<- | H]; [cbn; repeat split; reflexivity |]).
  destruct H.
Qed.

(** The characters of the class [[\d,.]]. *)
Lemma amount_class_char (c : ascii) :
  atom_matches amount_class c = true ->
  is_digit c = true \/ c = ","%char \/ c = "."%char.
Proof.
  destruct c as [[] [] [] [] [] [] [] []]; vm_compute; intros H;
    first [discriminate H | now left | now right; left | now right; right].
Qed.

Lemma remove_char_all (test : ascii -> bool) (c : ascii) (s : string) :
  all_chars test s = true -> all_chars test (remove_char c s) = true.
Proof.
  induction s as [| d s' IH]; [reflexivity |].
  cbn [all_chars remove_char]. intros H. apply andb_prop in H as [H1 H2].
  destruct (Ascii.eqb c d); [now apply IH |].
  cbn [all_chars]. now rewrite H1, IH.
Qed.

(** With the commas removed, a captured text holds digits and dots. *)
Lemma usd_amount_str_chars (m : string) :
  all_chars (atom_matches amount_class) m = true ->
  all_chars (fun c => (is_digit c || Ascii.eqb c ".")%bool)
            (remove_char "," m) = true.
Proof.
  induction m as [| c m' IH]; [reflexivity |].
  cbn [all_chars remove_char]. intros H. apply andb_prop in H as [H1 H2].
  destruct (amount_class_char c H1) as [D | [-> | ->]].
  - destruct (Ascii.eqb "," c) eqn:E.
    + now apply IH.
    + cbn [all_chars]. apply andb_true_intro.
      split; [now rewrite D | now apply IH].
  - now apply IH.
  - cbn [all_chars]. apply andb_true_intro.
    split; [reflexivity | now apply IH].
Qed.

(** With commas and dots removed, a captured text holds digits only. *)
Lemma cop_amount_str_digits (m : string) :
  all_chars (atom_matches amount_class) m = true ->
  all_chars is_digit (remove_char "." (remove_char "," m)) = true.
Proof.
  induction m as [| c m' IH]; [reflexivity |].
  cbn [all_chars remove_char]. intros H. apply andb_prop in H as [H1 H2].
  destruct (amount_class_char c H1) as [D | [-> | ->]].
  - destruct (Ascii.eqb "," c) eqn:E1; [now apply IH |].
    cbn [remove_char]. destruct (Ascii.eqb "." c) eqn:E2; [now apply IH |].
    cbn [all_chars]. apply andb_true_intro.
    split; [exact D | now apply IH].
  - now apply IH.
  - now apply IH.
Qed.

(** The texts handed to [int] and [float] by the two extraction loops are
    runs of digits, and of digits and dots: the conversions of [Py] are
    defined on all of them. *)
Lemma conversion_arguments (pattern : regex) (text m : string) :
  In pattern (REGEX_COSTOS_COP ++ REGEX_COSTOS_USD) ->
  findall_first pattern text = Some m ->
  all_chars is_digit (remove_char "." (remove_char "," m)) = true
  /\ all_chars (fun c => (is_digit c || Ascii.eqb c ".")%bool)
               (remove_char "," m) = true.
Proof.
  intros Hin H. apply amount_patterns_capture in Hin.
  pose proof (search_capture pattern text m Hin H) as A.
  split; [now apply cop_amount_str_digits | now apply usd_amount_str_chars].
Qed.

End Captures.

Section AmountExtraction.

Import Py Utils.



(** The loops return, and return the first parse. *)
Lemma cop_loop_first_parse (patterns : list Re.regex) (text : string) :
  cop_loop patterns text = Return (first_parse (cop_parse text) patterns).
Proof.
  induction patterns as [| p ps IH]; simpl; [reflexivity |].
  unfold cop_parse at 1. destruct (Re.findall_first p text) as [m |].
  - unfold int. destruct (int_of_string _); [reflexivity | exact IH].
  - exact IH.
Qed.

Lemma usd_loop_first_parse (patterns : list Re.regex) (text : string) :
  usd_loop patterns text = Return (first_parse (usd_parse text) patterns).
Proof.
  induction patterns as [| p ps IH]; simpl; [reflexivity |].
  unfold usd_parse at 1. destruct (Re.findall_first p text) as [m |].
  - unfold float. destruct (float_of_string _); [reflexivity | exact IH].
  - exact IH.
Qed.

Lemma extract_cop_amount_first_parse (text : string) :
  extract_cop_amount text
  = Return (first_parse (cop_parse (strip text)) REGEX_COSTOS_COP).
Proof.
  unfold extract_cop_amount. destruct text as [| c rest].
  - reflexivity.
  - cbn [truthy negb]. apply cop_loop_first_parse.
Qed.

Lemma extract_usd_amount_first_parse (text : string) :
  extract_usd_amount text
  = Return (first_parse (usd_parse (strip text)) REGEX_COSTOS_USD).
Proof.
  unfold extract_usd_amount. destruct text as [| c rest].
  - reflexivity.
  - cbn [truthy negb]. apply usd_loop_first_parse.
Qed.


End AmountExtraction.

(* ================================================================== *)
(** * Rounding *)
(* ================================================================== *)

Section Rounding.

Import Py.

Lemma round_half_even_range (q : Q) :
  Qfloor q <= round_half_even q <= Qfloor q + 1.
Proof.
  unfold round_half_even.
  destruct (q - inject_Z (Qfloor q) ?= 1 # 2)%Q;
    [destruct (Z.even (Qfloor q)) | |]; lia.
Qed.

Lemma round_half_even_mono (q1 q2 : Q) :
  (q1 <= q2)%Q -> round_half_even q1 <= round_half_even q2.
Proof.
  intros H.
  pose proof (Qfloor_resp_le _ _ H) as Hf.
  pose proof (round_half_even_range q1) as R1.
  pose proof (round_half_even_range q2) as R2.
  destruct (Z.eq_dec (Qfloor q1) (Qfloor q2)) as [E | NE]; [| lia].
  clear R1 R2 Hf. unfold round_half_even. rewrite <- E.
  destruct (q1 - inject_Z (Qfloor q1) ?= 1 # 2)%Q eqn:C1;
    destruct (q2 - inject_Z (Qfloor q1) ?= 1 # 2)%Q eqn:C2;
    try (destruct (Z.even (Qfloor q1))); try lia;
    try rewrite <- Qeq_alt in C1; try rewrite <- Qlt_alt in C1;
    try rewrite <- Qgt_alt in C1;
    try rewrite <- Qeq_alt in C2; try rewrite <- Qlt_alt in C2;
    try rewrite <- Qgt_alt in C2; exfalso; lra.
Qed.

(** The rounded integer is within one half of the number. *)
Lemma round_half_even_error (q : Q) :
  (q - (1 # 2) <= inject_Z (round_half_even q) <= q + (1 # 2))%Q.
Proof.
  pose proof (Qfloor_le q) as Hl. pose proof (Qlt_floor q) as Hu.
  rewrite inject_Z_plus in Hu. change (inject_Z 1) with 1%Q in Hu.
  unfold round_half_even.
  destruct (q - inject_Z (Qfloor q) ?= 1 # 2)%Q eqn:C;
    [rewrite <- Qeq_alt in C | rewrite <- Qlt_alt in C
     | rewrite <- Qgt_alt in C];
    try (destruct (Z.even (Qfloor q)));
    try rewrite inject_Z_plus; try change (inject_Z 1) with 1%Q; lra.
Qed.

Lemma scale_pos (ndigits : nat) : (0 < inject_Z (10 ^ Z.of_nat ndigits))%Q.
Proof.
  change 0%Q with (inject_Z 0). rewrite <- Zlt_Qlt.
  apply Z.pow_pos_nonneg; lia.
Qed.

Lemma round_mono (q1 q2 : Q) (ndigits : nat) :
  (q1 <= q2)%Q -> (round q1 ndigits <= round q2 ndigits)%Q.
Proof.
  intros H. unfold round. pose proof (scale_pos ndigits) as Hs.
  set (s := inject_Z (10 ^ Z.of_nat ndigits)) in *.
  apply Qmult_le_compat_r.
  - rewrite <- Zle_Qle. apply round_half_even_mono.
    apply Qmult_le_compat_r; [exact H | apply Qlt_le_weak; exact Hs].
  - apply Qlt_le_weak, Qinv_lt_0_compat. exact Hs.
Qed.

(** Rounding to [ndigits] decimals moves a number by at most half a unit of
    the last decimal kept. *)
Lemma round_error (q : Q) (ndigits : nat) :
  (Qabs (round q ndigits - q)
   <= (1 # 2) / inject_Z (10 ^ Z.of_nat ndigits))%Q.
Proof.
  unfold round. pose proof (scale_pos ndigits) as Hs.
  set (s := inject_Z (10 ^ Z.of_nat ndigits)) in *.
  pose proof (round_half_even_error (q * s)) as [H1 H2].
  set (r := inject_Z (round_half_even (q * s))) in *.
  assert (E : (r / s - q == (r - q * s) / s)%Q) by (field; lra).
  rewrite E. unfold Qdiv. rewrite Qabs_Qmult.
  rewrite (Qabs_pos (/ s)) by (apply Qlt_le_weak, Qinv_lt_0_compat, Hs).
  apply Qmult_le_compat_r;
    [| apply Qlt_le_weak, Qinv_lt_0_compat, Hs].
  apply Qabs_Qle_condition. split; lra.
Qed.


End Rounding.

(* ================================================================== *)
(** * Properties of validation and of the confidence score *)
(* ================================================================== *)

Section Confidence.

Import Py Models Scraper.

Lemma fold_count_field (policy : AirlinePolicy) (weight : Z)
      (fields : list string) (total_fields filled_fields : Z) :
  fold_left (count_field policy weight) fields (total_fields, filled_fields)
  = (total_fields + weight * Z.of_nat (List.length fields),
     filled_fields + weight * filled policy fields).
Proof.
  revert total_fields filled_fields.
  induction fields as [| f fs IH]; intros t n.
  - unfold filled. simpl. f_equal; lia.
  - cbn [fold_left count_field]. rewrite IH. unfold filled.
    cbn [filter List.length]. destruct (has_value policy f);
      cbn [List.length]; f_equal; lia.
Qed.

(** The score is the filled weight over the total weight 12, rounded to two
    decimals. *)
Lemma calculate_confidence_score_weighted (policy : AirlinePolicy) :
  calculate_confidence_score policy
  = round (inject_Z (filled_weight policy) / inject_Z 12) 2.
Proof.
  unfold calculate_confidence_score.
  rewrite fold_count_field, fold_count_field.
  change (Z.of_nat (List.length critical_fields)) with 4.
  change (Z.of_nat (List.length important_fields)) with 4.
  change (0 + 2 * 4 + 1 * 4) with 12. change (12 >? 0) with true.
  cbv iota.
  replace (0 + 2 * filled policy critical_fields
           + 1 * filled policy important_fields)
    with (filled_weight policy) by (unfold filled_weight; lia).
  reflexivity.
Qed.

Lemma filled_le (p p' : AirlinePolicy) (fields : list string) :
  (forall g, In g fields -> has_value p g = true -> has_value p' g = true) ->
  filled p fields <= filled p' fields.
Proof.
  unfold filled. induction fields as [| f fs IH]; intros H; [simpl; lia |].
  assert (IH' : Z.of_nat (List.length (filter (has_value p) fs))
                <= Z.of_nat (List.length (filter (has_value p') fs))).
  { apply IH. intros g Hg. apply H. now right. }
  cbn [filter]. destruct (has_value p f) eqn:E.
  - rewrite (H f (or_introl eq_refl) E). cbn [List.length]. lia.
  - destruct (has_value p' f); cbn [List.length]; lia.
Qed.

(** C5.  The confidence score is the filled weight (each of the 4 critical
    fields counting 2, each of the 4 important fields counting 1) over the
    total weight 12, rounded to two decimals, and it is monotonic: if a
    critical or important field that is [None] in [p] is set in [p'], and
    every other field is set in [p'] exactly when it is set in [p], then
    the score of [p'] is not below the score of [p]. *)
Theorem confidence_score_monotone
        (p p' : AirlinePolicy) (field : string) :
  In field (critical_fields ++ important_fields) ->
  has_value p field = false ->
  has_value p' field = true ->
  (forall g, g <> field -> has_value p' g = has_value p g) ->
  calculate_confidence_score p
  = round (inject_Z (filled_weight p) / inject_Z 12) 2
  /\ calculate_confidence_score p'
     = round (inject_Z (filled_weight p') / inject_Z 12) 2
  /\ (calculate_confidence_score p <= calculate_confidence_score p')%Q.
Proof.
  intros Hin Hp Hp' Hothers.
  split; [apply calculate_confidence_score_weighted |].
  split; [apply calculate_confidence_score_weighted |].
  rewrite !calculate_confidence_score_weighted.
  apply round_mono.
  assert (Himp : forall g, has_value p g = true -> has_value p' g = true).
  { intros g Hg. destruct (string_dec g field) as [-> | NE].
    - congruence.
    - now rewrite Hothers. }
  assert (H1 : filled p critical_fields <= filled p' critical_fields)
    by (apply filled_le; auto).
  assert (H2 : filled p important_fields <= filled p' important_fields)
    by (apply filled_le; auto).
  apply Qmult_le_compat_r; [| discriminate].
  rewrite <- Zle_Qle. unfold filled_weight. lia.
Qed.

(** C5, at an input: a policy with nothing set scores 0, and setting its
    transfer flag raises the score to 0.17. *)
Lemma confidence_score_monotone_witness :
  calculate_confidence_score (new_policy "Avianca" "AV" 0)
  = round (inject_Z 0 / inject_Z 12) 2
  /\ calculate_confidence_score
       (mkPolicy "Avianca" "AV" None None None None None (Some true) None
                 None None None None None None None None None None None
                 None 0 None false None 0)
     = round (inject_Z 2 / inject_Z 12) 2
  /\ (calculate_confidence_score (new_policy "Avianca" "AV" 0)
      <= calculate_confidence_score
           (mkPolicy "Avianca" "AV" None None None None None (Some true)
                     None None None None None None None None None None None
                     None None 0 None false None 0))%Q.
Proof.
  apply (confidence_score_monotone
           (new_policy "Avianca" "AV" 0)
           (mkPolicy "Avianca" "AV" None None None None None (Some true)
                     None None None None None None None None None None None
                     None None 0 None false None 0)
           "allows_transfer_to_third_party").
  - simpl. tauto.
  - reflexivity.
  - reflexivity.
  - intros g Hg. unfold has_value.
    destruct (String.eqb_spec g "allows_transfer_to_third_party") as [E | _];
      [contradiction |].
    reflexivity.
Defined.

End Confidence.

Section Validation.

Import Py Models Scraper Utils.

(** With the domestic cost absent, more than three critical fields are
    missing exactly when the three tri-state flags are absent too. *)
Lemma missing_more_than_three (policy : AirlinePolicy) :
  cost_name_change_domestic_cop policy = None ->
  (3 <? List.length (get_missing_fields policy))%nat
  = (negb (is_some (allows_full_name_change policy))
     && negb (is_some (allows_name_correction policy))
     && negb (is_some (allows_transfer_to_third_party policy)))%bool.
Proof.
  intros H. unfold get_missing_fields, critical_fields.
  cbn [filter has_value String.eqb Ascii.eqb Bool.eqb].
  rewrite H.
  destruct (allows_full_name_change policy),
           (allows_name_correction policy),
           (allows_transfer_to_third_party policy); reflexivity.
Qed.

(** C10.  Each range validator accepts an absent value ([None]; for a URL
    also the empty text).  Hence for a record whose domestic cost, USD
    cost, refund percentage, terms URL and source URL are all absent, the
    error list holds no range or URL error: it is empty, or it is the one
    missing-critical-fields error, and the record is invalid (and so
    flagged for review by [scrape]) exactly when more than 3 critical
    fields are missing, that is when the three tri-state flags are absent
    as well. *)
Theorem validators_accept_absent :
  validate_cop_amount None = true
  /\ validate_usd_amount None = true
  /\ validate_percentage None = true
  /\ validate_url None = true
  /\ validate_url (Some "") = true
  /\ forall policy : AirlinePolicy,
      cost_name_change_domestic_cop policy = None ->
      cost_name_change_usd policy = None ->
      refund_percentage policy = None ->
      terms_url policy = None ->
      source_url policy = None ->
      let v := validate_extracted_data policy in
      let missing := get_missing_fields policy in
      errors v
      = (if (3 <? List.length missing)%nat then [ERR_MISSING missing] else [])
      /\ is_valid v = negb (3 <? List.length missing)%nat
      /\ (is_valid v = false <->
          allows_full_name_change policy = None
          /\ allows_name_correction policy = None
          /\ allows_transfer_to_third_party policy = None).
Proof.
  repeat (split; [reflexivity |]).
  intros policy Hcop Husd Hpct Hterms Hsource v missing.
  assert (E : errors v
              = if (3 <? List.length missing)%nat
                then [ERR_MISSING missing] else []).
  { subst v missing. unfold validate_extracted_data.
    rewrite Hcop, Husd, Hpct, Hterms, Hsource. cbn [errors].
    unfold check. cbn [validate_cop_amount validate_usd_amount
                       validate_percentage validate_url negb].
    destruct (3 <? List.length (get_missing_fields policy))%nat;
      reflexivity. }
  assert (V : is_valid v = negb (3 <? List.length missing)%nat).
  { assert (V0 : is_valid v = (List.length (errors v) =? 0)%nat)
      by reflexivity.
    rewrite V0, E. destruct (3 <? List.length missing)%nat; reflexivity. }
  split; [exact E |]. split; [exact V |].
  rewrite V. subst missing. rewrite (missing_more_than_three policy Hcop).
  destruct (allows_full_name_change policy),
           (allows_name_correction policy),
           (allows_transfer_to_third_party policy); cbn;
    split; try discriminate; try tauto;
    intros (A & B & C); discriminate.
Qed.

(** C10, at an input: a policy with only its identity set has no range
    error and is invalid through the missing-fields rule alone. *)
Lemma validators_accept_absent_witness :
  errors (validate_extracted_data (new_policy "Wingo" "P5" 0))
  = [ERR_MISSING critical_fields]
  /\ is_valid (validate_extracted_data (new_policy "Wingo" "P5" 0)) = false.
Proof.
  destruct validators_accept_absent as (_ & _ & _ & _ & _ & H).
  destruct (H (new_policy "Wingo" "P5" 0) eq_refl eq_refl eq_refl eq_refl
              eq_refl) as (E & V & _).
  split; [exact E | exact V].
Defined.

End Validation.

(* ================================================================== *)
(** * Properties of the policy store *)
(* ================================================================== *)

Section Store.

Import Py Models Database.

Lemma filter_other_then_same (code : string) (rows : list row) :
  filter (fun r => String.eqb (code_of r) code)
         (filter (fun r => negb (String.eqb (code_of r) code)) rows)
  = [].
Proof.
  induction rows as [| r rs IH]; [reflexivity |].
  cbn [filter]. destruct (String.eqb (code_of r) code) eqn:E; cbn [negb].
  - exact IH.
  - cbn [filter]. rewrite E. exact IH.
Qed.

Lemma filter_other_keeps (code other : string) (rows : list row) :
  other <> code ->
  filter (fun r => String.eqb (code_of r) other)
         (filter (fun r => negb (String.eqb (code_of r) code)) rows)
  = filter (fun r => String.eqb (code_of r) other) rows.
Proof.
  intros NE. induction rows as [| r rs IH]; [reflexivity |].
  cbn [filter]. destruct (String.eqb_spec (code_of r) code) as [E | E];
    cbn [negb].
  - destruct (String.eqb_spec (code_of r) other) as [E' | E'];
      [congruence | exact IH].
  - cbn [filter]. rewrite IH. reflexivity.
Qed.

Lemma in_codes_filter (test : row -> bool) (rows : list row) (c : string) :
  In c (map code_of (filter test rows)) -> In c (map code_of rows).
Proof.
  rewrite !in_map_iff. intros (r & E & H). apply filter_In in H.
  exists r. tauto.
Qed.

Lemma NoDup_codes_filter (test : row -> bool) (rows : list row) :
  NoDup (map code_of rows) -> NoDup (map code_of (filter test rows)).
Proof.
  induction rows as [| r rs IH]; intros H; [constructor |].
  inversion H as [| c cs Hnotin Hrest]; subst.
  cbn [filter]. destruct (test r); [| now apply IH].
  cbn [map]. constructor; [| now apply IH].
  intros Hin. apply Hnotin. eapply in_codes_filter. exact Hin.
Qed.

Lemma code_not_in_filtered (code : string) (rows : list row) :
  ~ In code
      (map code_of
           (filter (fun r => negb (String.eqb (code_of r) code)) rows)).
Proof.
  rewrite in_map_iff. intros (r & E & H). apply filter_In in H.
  destruct H as [_ H]. rewrite E, String.eqb_refl in H. discriminate.
Qed.

Lemma insert_or_replace_invariant (p : AirlinePolicy) (db : store) :
  one_row_per_code db -> one_row_per_code (insert_or_replace p db).
Proof.
  unfold one_row_per_code, insert_or_replace. cbn [airline_policies].
  intros H. rewrite map_app. cbn [map].
  apply NoDup_app.
  - now apply NoDup_codes_filter.
  - constructor; [intros [] | constructor].
  - intros c Hc [E | []]. revert Hc. rewrite <- E.
    unfold code_of at 1. cbn [columns].
    change (airline_code (set_confidence_score 0 p)) with (airline_code p).
    apply code_not_in_filtered.
Qed.

Lemma apply_invariant (o : operation) (db : store) :
  one_row_per_code db -> one_row_per_code (Database.apply o db).
Proof.
  intros H. destruct o as [fault p | fault code | fault];
    destruct fault; cbn; try exact H.
  - now apply insert_or_replace_invariant.
  - unfold one_row_per_code. cbn [airline_policies].
    now apply NoDup_codes_filter.
  - constructor.
Qed.

Lemma run_invariant (ops : list operation) (db : store) :
  one_row_per_code db -> one_row_per_code (run ops db).
Proof.
  revert db. induction ops as [| o os IH]; intros db H; [exact H |].
  cbn [run fold_left]. apply IH. now apply apply_invariant.
Qed.

Lemma rows_with_code_length (code : string) (rows : list row) :
  (List.length
     (filter (fun r => negb (String.eqb (code_of r) code)) rows)
   + List.length (filter (fun r => String.eqb (code_of r) code) rows)
   = List.length rows)%nat.
Proof.
  induction rows as [| r rs IH]; [reflexivity |].
  cbn [filter]. destruct (String.eqb (code_of r) code); cbn [negb List.length];
    lia.
Qed.

(** C8.  [insert_policy] returns [True] only when the row was written, and
    then the table holds exactly one row for the policy's code, which is
    the policy just written; rows of other codes are untouched, and the
    row count grows by one less the number of rows that held the code
    before (so a code held by one row is replaced, not added to).  A
    failed insert leaves the table as it was.  At most one row per code
    holds in the new table, is kept by every writing operation, and so
    holds after any sequence of operations. *)
Theorem upsert_one_row_per_code :
  (forall (fault : bool) (p : AirlinePolicy) (db : store),
      let ok := fst (insert_policy fault p db) in
      let db' := snd (insert_policy fault p db) in
      (ok = true ->
       rows_with_code (airline_code p) db' = 1%nat
       /\ get_policy_by_code false (airline_code p) db'
          = Some (set_confidence_score 0 p)
       /\ (forall other,
              other <> airline_code p ->
              filter (fun r => String.eqb (code_of r) other)
                     (airline_policies db')
              = filter (fun r => String.eqb (code_of r) other)
                       (airline_policies db))
       /\ (List.length (airline_policies db')
           + rows_with_code (airline_code p) db
           = List.length (airline_policies db) + 1)%nat)
      /\ (ok = false -> db' = db))
  /\ one_row_per_code empty_store
  /\ (forall (o : operation) (db : store),
         one_row_per_code db -> one_row_per_code (Database.apply o db))
  /\ (forall ops : list operation, one_row_per_code (run ops empty_store)).
Proof.
  split; [| split; [constructor | split]].
  - intros fault p db ok db'. subst ok db'.
    destruct fault; cbn [insert_policy fst snd];
      (split; [| intros H; try discriminate; reflexivity]);
      intros H; try discriminate.
    assert (F : filter (fun r => String.eqb (code_of r) (airline_code p))
                       (airline_policies (insert_or_replace p db))
                = [mkRow (sequence db + 1) (set_confidence_score 0 p)]).
    { unfold insert_or_replace. cbn [airline_policies].
      rewrite filter_app, filter_other_then_same. cbn [filter app].
      unfold code_of at 1. cbn [columns].
      change (airline_code (set_confidence_score 0 p))
        with (airline_code p).
      now rewrite String.eqb_refl. }
    split; [| split; [| split]].
    + unfold rows_with_code. now rewrite F.
    + unfold get_policy_by_code. rewrite F. reflexivity.
    + intros other NE. unfold insert_or_replace. cbn [airline_policies].
      rewrite filter_app, filter_other_keeps by exact NE. cbn [filter].
      unfold code_of at 2. cbn [columns].
      change (airline_code (set_confidence_score 0 p))
        with (airline_code p).
      destruct (String.eqb_spec (airline_code p) other) as [E | _];
        [congruence |].
      apply app_nil_r.
    + unfold insert_or_replace, rows_with_code. cbn [airline_policies].
      rewrite length_app. cbn [List.length].
      pose proof (rows_with_code_length (airline_code p)
                                        (airline_policies db)).
      lia.
  - apply apply_invariant.
  - intros ops. apply run_invariant. constructor.
Qed.

End Store.

(* ================================================================== *)
(** * Properties of the scrape operation *)
(* ================================================================== *)

Section Scrape.

Import Py Models Scraper.

Context {Soup : Type}.

Lemma fetch_page_exhausted (env : environment Soup) :
  retries_exhausted env -> fetch_page env = Return None.
Proof.
  intros H. unfold fetch_page, Config.MAX_RETRIES.
  destruct (H 0%nat) as [m0 E0]; [unfold Config.MAX_RETRIES; lia |].
  destruct (H 1%nat) as [m1 E1]; [unfold Config.MAX_RETRIES; lia |].
  destruct (H 2%nat) as [m2 E2]; [unfold Config.MAX_RETRIES; lia |].
  cbn [fetch_loop]. rewrite E0. cbn. rewrite E1. cbn. rewrite E2. cbn.
  reflexivity.
Qed.

(** One case split on a scrutinee that holds no further case analysis. *)
Ltac step_scrape :=
  match goal with
  | |- context [match ?x with _ => _ end] =>
      lazymatch x with
      | context [match _ with _ => _ end] => fail
      | _ => destruct x eqn:?
      end
  end.

(** [scrape] always returns a result; a failed one names an exception and
    comes with the store untouched. *)
Lemma scrape_outcome (self : BaseScraper Soup) (env : environment Soup)
      (w : world) :
  exists (r : ScrapingResult) (w' : world),
    scrape self env w = (Return r, w')
    /\ execution_time_seconds r = (time_end env - time_start env)%Q
    /\ (success r = false ->
        (exists e, r = failure self env e) /\ db w' = db w).
Proof.
  unfold scrape, try_except, scrape_body, bind, call, ret, raise,
    save_snapshot, db_insert_policy, detect_policy_changes, failure.
  repeat (step_scrape; cbn [negb]);
    eexists; eexists; (split; [reflexivity |]);
    (split; [reflexivity |]); cbn [success]; intros Hs;
    try discriminate; (split; [eexists; reflexivity | reflexivity]).
Qed.

(** C9.  [scrape] never raises: it returns a result that carries the
    elapsed time.  A result with [success = False] carries the text of the
    exception as its error message and no policy, and the store is what
    it was before the run.  This is the outcome when every download attempt
    fails with a request error (the message is then the one about the
    missing HTML) and when the airline's extraction raises any exception
    (the message is then that exception's text). *)
Theorem scrape_failure_leaves_store
        (self : BaseScraper Soup) (env : environment Soup) (w : world) :
  exists (r : ScrapingResult) (w' : world),
    scrape self env w = (Return r, w')
    /\ execution_time_seconds r = (time_end env - time_start env)%Q
    /\ (success r = false ->
        (exists msg, error_message r = Some msg)
        /\ policy r = None
        /\ db w' = db w)
    /\ (retries_exhausted env ->
        success r = false /\ error_message r = Some NO_HTML)
    /\ (forall html soup e,
           fetch_page env = Return (Some html) ->
           truthy html = true ->
           BeautifulSoup env html = Return soup ->
           extract_data self html soup = Raise e ->
           success r = false /\ error_message r = Some (exn_str e)).
Proof.
  destruct (scrape_outcome self env w) as (r & w' & E & T & F).
  exists r, w'. split; [exact E |]. split; [exact T |].
  split; [| split].
  - intros Hs. destruct (F Hs) as ((e & ->) & D).
    split; [eexists; reflexivity | split; [reflexivity | exact D]].
  - intros H. apply fetch_page_exhausted in H.
    revert E. unfold scrape, try_except, scrape_body, bind, call.
    rewrite H. cbn. intros E. inversion E. split; reflexivity.
  - intros html soup e Hf Ht Hb He.
    revert E. unfold scrape, try_except, scrape_body, bind, call, ret.
    rewrite Hf, Ht, Hb. unfold save_snapshot. rewrite Ht. cbn [negb].
    destruct (snapshot_written env); rewrite He; cbn; intros E;
      inversion E; split; reflexivity.
Qed.

End Scrape.

(* ================================================================== *)
(** * Properties of the viability metrics *)
(* ================================================================== *)

Section Viability.

Import Py Models Analyzer Examples.











End Viability.

Section Coverage.

Import Py Models Analyzer Examples.






End Coverage.

(* ================================================================== *)
(** * The properties at concrete inputs *)
(* ================================================================== *)

Section Instances.

Import Py Models Examples.

(** C8, at an input: writing Avianca's policy twice leaves one row for
    "AV", holding the second policy. *)
Lemma upsert_one_row_per_code_witness :
  let db1 := snd (Database.insert_policy false (avianca_policy 1)
                                         Database.empty_store) in
  let db2 := snd (Database.insert_policy false (avianca_policy 2) db1) in
  Database.rows_with_code "AV" db2 = 1%nat
  /\ Database.get_policy_by_code false "AV" db2 = Some (avianca_policy 2)
  /\ List.length (Database.airline_policies db2)
     = List.length (Database.airline_policies db1).
Proof.
  intros db1 db2.
  destruct upsert_one_row_per_code as (H & _).
  destruct (H false (avianca_policy 2) db1) as (Hok & _).
  destruct (Hok eq_refl) as (H1 & H2 & _ & H4).
  split; [exact H1 |]. split; [exact H2 |].
  change (Database.rows_with_code (airline_code (avianca_policy 2)) db1)
    with 1%nat in H4.
  fold db2 in H4. lia.
Defined.

(** C9, at two inputs: with every download failing, and with an extraction
    that raises, [scrape] returns a failed result and the store keeps the
    row it had. *)
Lemma scrape_failure_leaves_store_witness :
  (exists r w',
      Scraper.scrape broken_scraper offline stocked_world = (Return r, w')
      /\ success r = false
      /\ error_message r = Some Scraper.NO_HTML
      /\ Scraper.db w' = Scraper.db stocked_world)
  /\ (exists r w',
         Scraper.scrape broken_scraper online stocked_world = (Return r, w')
         /\ success r = false
         /\ error_message r = Some "boom"
         /\ Scraper.db w' = Scraper.db stocked_world).
Proof.
  split.
  - destruct (scrape_failure_leaves_store broken_scraper offline
                                          stocked_world)
      as (r & w' & E & _ & F & X & _).
    assert (R : Scraper.retries_exhausted offline)
      by (intros attempt _; eexists; reflexivity).
    destruct (X R) as (S & M). destruct (F S) as (_ & _ & D).
    exists r, w'. repeat split; assumption.
  - destruct (scrape_failure_leaves_store broken_scraper online
                                          stocked_world)
      as (r & w' & E & _ & F & _ & X).
    destruct (X "<html>no se permite</html>" "<html>no se permite</html>"
                (Exception "boom") eq_refl eq_refl eq_refl eq_refl)
      as (S & M).
    destruct (F S) as (_ & _ & D).
    exists r, w'. repeat split; assumption.
Defined.

End Instances.

(* ================================================================== *)
(** * Further properties of the matcher and of the heuristics *)
(* ================================================================== *)

Import Notions.

Section MatcherFacts.

Import Py Re.

Lemma suffix_refl (s : string) : suffix s s.
Proof. now exists "". Qed.

Lemma suffix_cons (c : ascii) (s' s : string) :
  suffix s' s -> suffix s' (String c s).
Proof. intros [pre ->]. now exists (String c pre). Qed.

Lemma append_assoc (a b c : string) : (a ++ b) ++ c = a ++ (b ++ c).
Proof. induction a as [| x a IH]; cbn; [reflexivity | now rewrite IH]. Qed.

Lemma append_nil_r (a : string) : a ++ "" = a.
Proof. induction a as [| x a IH]; cbn; [reflexivity | now rewrite IH]. Qed.

Lemma suffix_trans (a b c : string) : suffix a b -> suffix b c -> suffix a c.
Proof.
  intros [p ->] [q ->]. exists (q ++ p). now rewrite append_assoc.
Qed.

Lemma suffix_app (pre s : string) : suffix s (pre ++ s).
Proof. now exists pre. Qed.

(** Where a successful match hands over to its continuation: at a suffix of
    the text, with the capture untouched when the pattern has no group. *)
Lemma match_re_inv {R : Type} (r : regex) :
  forall (s : string) (cap : option string)
         (k : string -> option string -> option R) (x : R),
    match_re r s cap k = Some x ->
    exists s' cap',
      suffix s' s /\ k s' cap' = Some x /\ (no_groups r -> cap' = cap).
Proof.
  induction r as [| a | a | a | r1 IH1 | r1 IH1 r2 IH2 | r1 IH1 r2 IH2
                  | r1 IH1 |]; intros s cap k x; cbn [match_re no_groups].
  - intros H. exists s, cap. auto using suffix_refl.
  - destruct s as [| c s1]; [discriminate |].
    destruct (atom_matches a c); [| discriminate].
    intros H. exists s1, cap. split; [apply suffix_cons, suffix_refl | auto].
  - intros H. apply match_star_inv in H.
    destruct H as (pre & s' & -> & _ & K).
    exists s', cap. auto using suffix_app.
  - destruct s as [| c s1]; [discriminate |].
    destruct (atom_matches a c); [| discriminate].
    intros H. apply match_star_inv in H.
    destruct H as (pre & s' & -> & _ & K).
    exists s', cap. split; [apply suffix_cons, suffix_app | auto].
  - destruct (match_re r1 s cap k) as [y |] eqn:M.
    + intros H. injection H as ->. now apply IH1.
    + intros H. exists s, cap. auto using suffix_refl.
  - intros H. apply IH1 in H. destruct H as (s1 & cap1 & S1 & H & C1).
    apply IH2 in H. destruct H as (s2 & cap2 & S2 & H & C2).
    exists s2, cap2. split; [eapply suffix_trans; eassumption |].
    split; [exact H |]. intros [N1 N2]. rewrite C2, C1; auto.
  - destruct (match_re r1 s cap k) as [y |] eqn:M.
    + intros H. injection H as ->. apply IH1 in M.
      destruct M as (s1 & cap1 & S1 & H & C1).
      exists s1, cap1. split; [exact S1 |]. split; [exact H |].
      intros [N1 _]. auto.
    + intros H. apply IH2 in H. destruct H as (s1 & cap1 & S1 & H & C1).
      exists s1, cap1. split; [exact S1 |]. split; [exact H |].
      intros [_ N2]. auto.
  - intros H. apply IH1 in H. destruct H as (s1 & cap1 & S1 & H & _).
    exists s1, (Some (consumed s s1)). split; [exact S1 |].
    split; [exact H | intros []].
  - destruct (at_end s); [| discriminate].
    intros H. exists s, cap. auto using suffix_refl.
Qed.

Lemma match_star_success {R R' : Type} (a : atom) (s : string)
      (k : string -> option R) (k' : string -> option R') :
  (forall t, k t <> None -> k' t <> None) ->
  match_star a s k <> None -> match_star a s k' <> None.
Proof.
  intros P. induction s as [| c s1 IH]; cbn [match_star]; [apply P |].
  destruct (atom_matches a c); [| apply P].
  destruct (match_star a s1 k) as [y |] eqn:M.
  - intros _. destruct (match_star a s1 k') eqn:M'; [discriminate |].
    exfalso. apply IH; [discriminate | reflexivity].
  - intros H. destruct (match_star a s1 k'); [discriminate |]. now apply P.
Qed.

(** Whether a match succeeds does not depend on the capture it starts
    from, nor on what a never-failing continuation returns. *)
Lemma match_re_success {R R' : Type} (r : regex) :
  forall (s : string) (cap cap' : option string)
         (k : string -> option string -> option R)
         (k' : string -> option string -> option R'),
    (forall t c c', k t c <> None -> k' t c' <> None) ->
    match_re r s cap k <> None -> match_re r s cap' k' <> None.
Proof.
  induction r as [| a | a | a | r1 IH1 | r1 IH1 r2 IH2 | r1 IH1 r2 IH2
                  | r1 IH1 |]; intros s cap cap' k k' P; cbn [match_re].
  - apply P.
  - destruct s as [| c s1]; [auto |].
    destruct (atom_matches a c); [apply P | auto].
  - apply match_star_success. intros t. apply P.
  - destruct s as [| c s1]; [auto |].
    destruct (atom_matches a c); [| auto].
    apply match_star_success. intros t. apply P.
  - destruct (match_re r1 s cap k) as [y |] eqn:M.
    + intros _. destruct (match_re r1 s cap' k') eqn:M'; [discriminate |].
      exfalso. apply (IH1 s cap cap' k k' P); [rewrite M; discriminate |].
      exact M'.
    + intros H. destruct (match_re r1 s cap' k'); [discriminate |].
      now apply (P s cap cap').
  - apply IH1. intros t c c'. now apply IH2.
  - destruct (match_re r1 s cap k) as [y |] eqn:M.
    + intros _. destruct (match_re r1 s cap' k') eqn:M'; [discriminate |].
      exfalso. apply (IH1 s cap cap' k k' P); [rewrite M; discriminate |].
      exact M'.
    + intros H. destruct (match_re r1 s cap' k'); [discriminate |].
      now apply (IH2 s cap cap' k k' P).
  - apply IH1. intros t c c'. apply P.
  - destruct (at_end s); [apply P | auto].
Qed.

(** [search] succeeds as soon as the pattern matches at some suffix. *)
Lemma search_of_suffix (r : regex) (s s1 : string) :
  suffix s1 s -> match_at r s1 <> None -> search r s <> None.
Proof.
  intros [pre ->] H. induction pre as [| c pre IH]; cbn [append].
  - destruct s1; cbn [search]; destruct (match_at r _); try discriminate;
      now elim H.
  - cbn [search]. destruct (match_at r (String c (pre ++ s1)));
      [discriminate | exact IH].
Qed.

(** A successful [search] is a match at some suffix. *)
Lemma search_inv (r : regex) (s g : string) :
  search r s = Some g -> exists s1, suffix s1 s /\ match_at r s1 = Some g.
Proof.
  induction s as [| c s IH]; cbn [search].
  - destruct (match_at r "") eqn:M; [| discriminate].
    intros H. injection H as ->. exists "". auto using suffix_refl.
  - destruct (match_at r (String c s)) eqn:M.
    + intros H. injection H as ->. exists (String c s).
      auto using suffix_refl.
    + intros H. destruct (IH H) as (s1 & S1 & M1).
      exists s1. auto using suffix_cons.
Qed.

(** Where a sequence is found, its second part is found as well. *)
Lemma found_tail (r1 r2 : regex) (s : string) :
  found (Seq r1 r2) s = true -> found r2 s = true.
Proof.
  unfold found. destruct (search (Seq r1 r2) s) as [g |] eqn:E;
    [| discriminate].
  intros _. apply search_inv in E. destruct E as (s0 & S0 & M).
  unfold match_at in M. cbn [match_re] in M. apply match_re_inv in M.
  destruct M as (s1 & cap1 & S1 & M & _).
  assert (A : match_at r2 s1 <> None).
  { unfold match_at.
    apply (match_re_success r2 s1 cap1 None
             (fun _ cap => Some match cap with Some g => g | None => "" end)).
    - discriminate.
    - rewrite M. discriminate. }
  pose proof (search_of_suffix r2 s s1 (suffix_trans _ _ _ S1 S0) A) as F.
  destruct (search r2 s); [reflexivity | now elim F].
Qed.

End MatcherFacts.


Section NegativePhrases.

Import Py Re Utils.

Lemma found_no_phrase (x y text : string) :
  found (no_phrase x y) text = true -> found (word y) text = true.
Proof.
  unfold no_phrase. cbn [cat]. intros H. now do 3 apply found_tail in H.
Qed.

Lemma found_imposible (text : string) :
  found (word "imposible") text = true -> found (word "posible") text = true.
Proof.
  change (word "imposible")
    with (Seq (Atom (Lit "i")) (Seq (Atom (Lit "m")) (word "posible"))).
  intros H. now do 2 apply found_tail in H.
Qed.

Lemma indicator_le (a b : bool) :
  (a = true -> b = true) -> (if a then 1 else 0) <= (if b then 1 else 0).
Proof. destruct a, b; intros H; try lia; discriminate (H eq_refl). Qed.

(** X1.  [detect_boolean_policy] can answer [False] only on a text that
    holds "no (se) autoriza", "prohibido" or "no reembolsable", or both
    "imposible" and "no (es) posible".  The negative phrases built on
    permite, posible, puede and permitido each contain a positive keyword,
    so on their own they never outnumber the positive hits, whatever the
    caller's keyword list. *)
Theorem false_needs_independent_negative
        (text : string) (keywords : option (list string)) :
  fst (detect_boolean_policy text keywords) = Some false ->
  let t := strip (lower text) in
  found (no_phrase "se" "autoriza") t = true
  \/ found (word "prohibido") t = true
  \/ found (cat [word "no"; Plus Space; word "reembolsable"]) t = true
  \/ (found (word "imposible") t = true
      /\ found (no_phrase "es" "posible") t = true).
Proof.
  intros H t. unfold detect_boolean_policy in H.
  destruct text as [| c rest]; [discriminate H |].
  cbn [truthy negb] in H. fold t in H.
  assert (G : positive_matches t keywords < negative_matches t).
  { unfold determine_result in H.
    destruct (positive_matches t keywords >? negative_matches t);
      [discriminate H |].
    destruct (negative_matches t >? positive_matches t keywords) eqn:E;
      [| discriminate H].
    now rewrite Z.gtb_lt in E. }
  clear H. unfold positive_matches, negative_matches in G.
  assert (K : 0 <= match keywords with
                   | Some kws => count_keywords kws t
                   | None => 0
                   end).
  { destruct keywords; [apply count_keywords_nonneg | lia]. }
  cbn [KEYWORDS_POSITIVE KEYWORDS_NEGATIVE count_found] in G.
  pose proof (indicator_le _ _ (found_no_phrase "se" "permite" t)) as L1.
  pose proof (indicator_le _ _ (found_no_phrase "es" "posible" t)) as L2.
  pose proof (indicator_le _ _ (found_imposible t)) as L4.
  pose proof (indicator_le _ _ (found_no_phrase "se" "puede" t)) as L6.
  pose proof (indicator_le _ _ (found_no_phrase "es" "permitido" t)) as L7.
  destruct (found (no_phrase "se" "autoriza") t); [now left |].
  destruct (found (word "prohibido") t); [now right; left |].
  destruct (found (cat [word "no"; Plus Space; word "reembolsable"]) t);
    [now right; right; left |].
  right; right; right.
  destruct (found (word "imposible") t);
    destruct (found (no_phrase "es" "posible") t);
    [split; reflexivity | exfalso | exfalso | exfalso];
    destruct (found (word "autorizado") t);
    destruct (found (word "disponible") t);
    destruct (found (cat [word "se"; Plus Space; word "acepta"]) t);
    lia.
Qed.

(** X1, at an input: "prohibido" answers [False]. *)
Lemma false_needs_independent_negative_witness :
  found (no_phrase "se" "autoriza") "prohibido" = true
  \/ found (word "prohibido") "prohibido" = true
  \/ found (cat [word "no"; Plus Space; word "reembolsable"]) "prohibido"
     = true
  \/ (found (word "imposible") "prohibido" = true
      /\ found (no_phrase "es" "posible") "prohibido" = true).
Proof.
  exact (false_needs_independent_negative "prohibido" None eq_refl).
Defined.

End NegativePhrases.


Section ExtractedValues.

Import Py Re Utils UtilsMore.

Lemma digits_value_ge (s : string) (acc n : Z) :
  0 <= acc -> digits_value s acc = Some n -> acc <= n.
Proof.
  revert acc. induction s as [| c s IH]; intros acc Hacc; cbn [digits_value].
  - intros H. injection H as <-. lia.
  - destruct (is_digit c) eqn:D; [| discriminate].
    intros H.
    assert (Hd : 0 <= digit_value c).
    { unfold is_digit, in_range in D. apply andb_prop in D as [D _].
      apply N.leb_le in D. unfold digit_value. lia. }
    apply IH in H; lia.
Qed.

Lemma int_of_string_nonneg (s : string) (n : Z) :
  int_of_string s = Some n -> 0 <= n.
Proof.
  unfold int_of_string. destruct s; [discriminate |].
  apply digits_value_ge. lia.
Qed.

Lemma float_of_string_nonneg (s : string) (q : Q) :
  float_of_string s = Some q -> (0 <= q)%Q.
Proof.
  unfold float_of_string. destruct (split_dot s) as [ip [fp |]].
  - assert (G : match digits_value ip 0, digits_value fp 0 with
                | Some n, Some f =>
                    Some (inject_Z n
                          + inject_Z f
                            / inject_Z (10 ^ Z.of_nat (String.length fp)))%Q
                | _, _ => None
                end = Some q -> (0 <= q)%Q).
    { destruct (digits_value ip 0) as [n |] eqn:En; [| discriminate].
      destruct (digits_value fp 0) as [f |] eqn:Ef; [| discriminate].
      intros H. injection H as <-.
      apply digits_value_ge in En; [| lia].
      apply digits_value_ge in Ef; [| lia].
      assert (0 <= inject_Z n)%Q
        by (change 0%Q with (inject_Z 0); now rewrite <- Zle_Qle).
      pose proof (ratio_nonneg f (10 ^ Z.of_nat (String.length fp)) Ef
                               ltac:(apply Z.pow_pos_nonneg; lia)).
      lra. }
    destruct ip, fp; try exact G. discriminate.
  - destruct (int_of_string ip) as [n |] eqn:E; [| discriminate].
    intros H. injection H as <-. apply int_of_string_nonneg in E.
    change 0%Q with (inject_Z 0). now rewrite <- Zle_Qle.
Qed.

Lemma first_parse_all {A : Type} (P : A -> Prop)
      (parse : regex -> option A) (patterns : list regex) (v : A) :
  (forall p w, parse p = Some w -> P w) ->
  first_parse parse patterns = Some v -> P v.
Proof.
  intros H. induction patterns as [| p ps IH]; cbn [first_parse];
    [discriminate |].
  destruct (parse p) as [w |] eqn:E; [| exact IH].
  intros G. injection G as <-. eapply H. exact E.
Qed.

(** X2.  An amount extracted from text is never negative: the patterns
    capture no sign.  So on an extracted amount the validators can fail
    only on their upper bounds (10,000,000 COP and 5,000 USD). *)
Theorem extracted_amounts_nonnegative (text : string) :
  (forall n : Z,
      extract_cop_amount text = Return (Some n) ->
      0 <= n /\ validate_cop_amount (Some n) = (n <=? 10000000))
  /\ (forall q : Q,
         extract_usd_amount text = Return (Some q) ->
         (0 <= q)%Q /\ validate_usd_amount (Some q) = Qle_bool q 5000).
Proof.
  split.
  - intros n H0. rewrite extract_cop_amount_first_parse in H0.
    assert (H : first_parse (cop_parse (strip text)) REGEX_COSTOS_COP
                = Some n) by congruence.
    clear H0.
    assert (G : 0 <= n).
    { apply (first_parse_all (fun v => 0 <= v) _ _ _) in H; [exact H |].
      intros p w. unfold cop_parse.
      destruct (findall_first p (strip text)); [| discriminate].
      apply int_of_string_nonneg. }
    split; [exact G |]. cbn [validate_cop_amount].
    apply Z.leb_le in G. now rewrite G.
  - intros q H0. rewrite extract_usd_amount_first_parse in H0.
    assert (H : first_parse (usd_parse (strip text)) REGEX_COSTOS_USD
                = Some q) by congruence.
    clear H0.
    assert (G : (0 <= q)%Q).
    { apply (first_parse_all (fun v => (0 <= v)%Q) _ _ _) in H; [exact H |].
      intros p w. unfold usd_parse.
      destruct (findall_first p (strip text)); [| discriminate].
      apply float_of_string_nonneg. }
    split; [exact G |]. cbn [validate_usd_amount].
    apply Qle_bool_iff in G. now rewrite G.
Qed.

(** X2, at an input. *)
Lemma extracted_amounts_nonnegative_witness :
  0 <= 150000 /\ validate_cop_amount (Some 150000) = (150000 <=? 10000000).
Proof.
  destruct (extracted_amounts_nonnegative "$150.000 COP") as [H _].
  apply H. vm_compute. reflexivity.
Defined.




End ExtractedValues.


(* ================================================================== *)
(** * Further properties of the text helpers *)
(* ================================================================== *)

Section Strings.

Import Py.

Lemma rev_string_acc (s acc : string) :
  rev_string s acc = rev_string s "" ++ acc.
Proof.
  revert acc. induction s as [| c s IH]; intros acc; cbn [rev_string].
  - reflexivity.
  - rewrite IH, (IH (String c "")), append_assoc. reflexivity.
Qed.


Lemma rev_string_app (a b : string) :
  rev_string (a ++ b) "" = rev_string b "" ++ rev_string a "".
Proof.
  induction a as [| c a IH]; cbn [append rev_string].
  - now rewrite append_nil_r.
  - rewrite (rev_string_acc (a ++ b) (String c "")), IH,
      (rev_string_acc a (String c "")).
    now rewrite append_assoc.
Qed.

Lemma rev_string_involutive (s : string) :
  rev_string (rev_string s "") "" = s.
Proof.
  induction s as [| c s IH]; cbn [rev_string]; [reflexivity |].
  rewrite (rev_string_acc s (String c "")), rev_string_app, IH.
  reflexivity.
Qed.

(** [lstrip] removes a prefix of blanks. *)
Lemma lstrip_split (s : string) :
  exists ws, s = ws ++ lstrip s /\ all_chars is_space ws = true.
Proof.
  induction s as [| c s (ws & E & A)]; cbn [lstrip].
  - exists "". auto.
  - destruct (is_space c) eqn:B.
    + exists (String c ws). cbn [append all_chars]. rewrite B, A.
      split; [now rewrite <- E | reflexivity].
    + exists "". auto.
Qed.

Lemma lstrip_starts (s : string) : starts_blank (lstrip s) = false.
Proof.
  induction s as [| c s IH]; cbn [lstrip]; [reflexivity |].
  destruct (is_space c) eqn:B; [exact IH | cbn [starts_blank]; exact B].
Qed.

Lemma lstrip_fixed (s : string) : starts_blank s = false -> lstrip s = s.
Proof.
  destruct s as [| c s]; cbn [starts_blank lstrip]; [reflexivity |].
  now intros ->.
Qed.

(** [rstrip] removes a suffix of blanks. *)
Lemma rstrip_split (s : string) :
  exists ws, s = rstrip s ++ ws /\ all_chars is_space ws = true.
Proof.
  unfold rstrip. destruct (lstrip_split (rev_string s "")) as (ws & E & A).
  exists (rev_string ws ""). split.
  - rewrite <- rev_string_app, <- E. now rewrite rev_string_involutive.
  - assert (G : forall t acc,
               all_chars is_space t = true ->
               all_chars is_space acc = true ->
               all_chars is_space (rev_string t acc) = true).
    { induction t as [| c t IH]; intros acc A1 B; cbn [rev_string];
        [exact B |].
      cbn [all_chars] in A1. apply andb_prop in A1 as [A1 A2].
      apply IH; [exact A2 |]. cbn [all_chars]. now rewrite A1, B. }
    apply G; [exact A | reflexivity].
Qed.


Lemma rstrip_idempotent (s : string) : rstrip (rstrip s) = rstrip s.
Proof.
  unfold rstrip. rewrite rev_string_involutive.
  now rewrite (lstrip_fixed _ (lstrip_starts _)).
Qed.

Lemma starts_blank_prefix (a b : string) :
  starts_blank (a ++ b) = false -> starts_blank a = false.
Proof. destruct a; [reflexivity | exact (fun H => H)]. Qed.

(** [strip] leaves nothing more to strip. *)
Lemma strip_idempotent (s : string) : strip (strip s) = strip s.
Proof.
  unfold strip.
  assert (L : lstrip (rstrip (lstrip s)) = rstrip (lstrip s)).
  { apply lstrip_fixed.
    destruct (rstrip_split (lstrip s)) as (ws & E & _).
    apply (starts_blank_prefix _ ws). rewrite <- E. apply lstrip_starts. }
  rewrite L. apply rstrip_idempotent.
Qed.


End Strings.


Section CleanText.

Import Py UtilsMore.

Lemma single_spaced_weaken (s : string) :
  single_spaced true s = true -> single_spaced false s = true.
Proof.
  destruct s as [| c s]; cbn [single_spaced]; [reflexivity |].
  destruct (is_space c); [| exact (fun H => H)].
  rewrite andb_false_r. discriminate.
Qed.

Lemma single_spaced_start (s : string) :
  single_spaced true s = true -> starts_blank s = false.
Proof.
  destruct s as [| c s]; cbn [single_spaced starts_blank]; [reflexivity |].
  destruct (is_space c); [| reflexivity].
  rewrite andb_false_r. discriminate.
Qed.

Lemma single_spaced_prefix (b : bool) (x y : string) :
  single_spaced b (x ++ y) = true -> single_spaced b x = true.
Proof.
  revert b. induction x as [| c x IH]; intros b; cbn [append single_spaced];
    [reflexivity |].
  destruct (is_space c); [| apply IH].
  intros H. apply andb_prop in H as [H1 H2]. rewrite H1. cbn [andb].
  now apply IH.
Qed.

Lemma sub_blanks_single_spaced (b : bool) (s : string) :
  single_spaced b (sub_blanks b s) = true.
Proof.
  revert b. induction s as [| c s IH]; intros b; cbn [sub_blanks];
    [reflexivity |].
  destruct (is_space c) eqn:B.
  - destruct b; [apply IH |]. cbn [single_spaced]. now rewrite IH.
  - cbn [single_spaced]. rewrite B. apply IH.
Qed.

Lemma sub_blanks_fixed (b : bool) (s : string) :
  single_spaced b s = true -> sub_blanks b s = s.
Proof.
  revert b. induction s as [| c s IH]; intros b;
    cbn [single_spaced sub_blanks]; [reflexivity |].
  destruct (is_space c).
  - intros H. apply andb_prop in H as [H1 H3]. apply andb_prop in H1 as [H1 H2].
    destruct b; [discriminate H2 |].
    apply Ascii.eqb_eq in H1. subst c. now rewrite (IH true H3).
  - intros H. now rewrite (IH false H).
Qed.

Lemma non_blanks_app (a b : string) :
  non_blanks (a ++ b) = non_blanks a ++ non_blanks b.
Proof.
  induction a as [| c a IH]; cbn [append non_blanks]; [reflexivity |].
  destruct (is_space c); [exact IH | cbn [append]; now rewrite IH].
Qed.

Lemma non_blanks_blank (ws : string) :
  all_chars is_space ws = true -> non_blanks ws = "".
Proof.
  induction ws as [| c ws IH]; cbn [all_chars non_blanks]; [reflexivity |].
  intros H. apply andb_prop in H as [H1 H2]. rewrite H1. now apply IH.
Qed.

Lemma non_blanks_sub_blanks (b : bool) (s : string) :
  non_blanks (sub_blanks b s) = non_blanks s.
Proof.
  revert b. induction s as [| c s IH]; intros b;
    cbn [sub_blanks non_blanks]; [reflexivity |].
  destruct (is_space c) eqn:B.
  - destruct b; [apply IH |]. cbn [non_blanks].
    change (is_space " ") with true. cbv iota. apply IH.
  - cbn [non_blanks]. rewrite B. now rewrite IH.
Qed.

Lemma non_blanks_strip (s : string) : non_blanks (strip s) = non_blanks s.
Proof.
  unfold strip.
  destruct (rstrip_split (lstrip s)) as (ws & E & A).
  destruct (lstrip_split s) as (ws' & E' & A').
  rewrite E' at 2. rewrite non_blanks_app, (non_blanks_blank ws' A').
  rewrite E at 2. rewrite non_blanks_app, (non_blanks_blank ws A).
  now rewrite append_nil_r.
Qed.

(** X4.  The text [clean_text] returns has no blank other than single
    spaces between non-blank characters, neither starts nor ends with a
    blank, holds the non-blank characters of the input in their order, and
    is left unchanged by a further [clean_text]. *)
Theorem clean_text_normal_form (text : string) :
  single_spaced true (clean_text text) = true
  /\ strip (clean_text text) = clean_text text
  /\ non_blanks (clean_text text) = non_blanks text
  /\ clean_text (clean_text text) = clean_text text.
Proof.
  assert (S : single_spaced true (clean_text text) = true).
  { unfold clean_text. destruct text as [| c rest]; [reflexivity |].
    cbn [truthy negb]. set (u := sub_blanks false (String c rest)).
    pose proof (sub_blanks_single_spaced false (String c rest)) as T.
    fold u in T. unfold strip.
    destruct (rstrip_split (lstrip u)) as (ws & E & _).
    apply (single_spaced_prefix true _ ws). rewrite <- E.
    destruct (lstrip_split u) as (ws' & E' & A').
    destruct u as [| d u']; [reflexivity |].
    cbn [lstrip]. cbn [single_spaced] in T.
    destruct (is_space d) eqn:B.
    - apply andb_prop in T as [_ T].
      rewrite (lstrip_fixed _ (single_spaced_start _ T)). exact T.
    - cbn [single_spaced]. now rewrite B. }
  assert (P : strip (clean_text text) = clean_text text).
  { unfold clean_text. destruct text as [| c rest]; [reflexivity |].
    cbn [truthy negb]. apply strip_idempotent. }
  split; [exact S |]. split; [exact P |]. split.
  - unfold clean_text. destruct text as [| c rest]; [reflexivity |].
    cbn [truthy negb]. now rewrite non_blanks_strip, non_blanks_sub_blanks.
  - unfold clean_text at 1. destruct (clean_text text) as [| d u] eqn:E;
      [reflexivity |].
    cbn [truthy negb].
    rewrite (sub_blanks_fixed false _ (single_spaced_weaken _ S)).
    exact P.
Qed.

End CleanText.


Section FormatRoundTrip.

Import Py Re Utils UtilsMore.




















End FormatRoundTrip.


Section Truncate.

Import Py Re UtilsMore.

Lemma length_take (n : nat) (s : string) :
  String.length (take n s) = Nat.min n (String.length s).
Proof.
  revert s. induction n as [| n IH]; intros s; [reflexivity |].
  destruct s as [| c s]; [reflexivity |]. cbn [take String.length].
  now rewrite IH.
Qed.

Lemma length_app (a b : string) :
  String.length (a ++ b) = (String.length a + String.length b)%nat.
Proof.
  induction a as [| c a IH]; cbn [append String.length];
    [reflexivity | now rewrite IH].
Qed.

Lemma take_prefix (n : nat) (s : string) :
  exists rest, s = take n s ++ rest.
Proof.
  revert s. induction n as [| n IH]; intros s; [now exists s |].
  destruct s as [| c s]; [now exists "" |].
  destruct (IH s) as [rest E]. exists rest. cbn [take append].
  now rewrite <- E.
Qed.

(** X6.  For a limit of at least 3, [truncate_text] never returns more
    than [max_length] characters: a text within the limit is returned as it
    is, and a longer one becomes its first [max_length - 3] characters
    followed by "...", exactly [max_length] characters in all. *)
Theorem truncate_text_within_limit (text : string) (max_length : Z) :
  3 <= max_length ->
  len (truncate_text text max_length) <= max_length
  /\ (len text <= max_length -> truncate_text text max_length = text)
  /\ (max_length < len text ->
      len (truncate_text text max_length) = max_length
      /\ exists kept dropped,
          text = kept ++ dropped
          /\ truncate_text text max_length = kept ++ "...").
Proof.
  intros H. unfold truncate_text.
  destruct (len text <=? max_length) eqn:E.
  - apply Z.leb_le in E. rewrite orb_true_r.
    split; [exact E |]. split; [reflexivity | lia].
  - apply Z.leb_gt in E.
    assert (T : truthy text = true).
    { destruct text; [cbn in E; lia | reflexivity]. }
    rewrite T. cbn [negb orb]. unfold slice_to.
    assert (P : (0 <=? max_length - 3) = true) by (apply Z.leb_le; lia).
    rewrite P.
    assert (L : len (take (Z.to_nat (max_length - 3)) text ++ "...")
                = max_length).
    { unfold len in *. rewrite length_app, length_take.
      cbn [String.length]. lia. }
    split; [lia |]. split; [lia |]. intros _. split; [exact L |].
    destruct (take_prefix (Z.to_nat (max_length - 3)) text) as [rest R].
    exists (take (Z.to_nat (max_length - 3)) text), rest.
    split; [exact R | reflexivity].
Qed.

(** X6, at an input. *)
Lemma truncate_text_within_limit_witness :
  len (truncate_text "cambio de nombre" 10) <= 10
  /\ (len "cambio de nombre" <= 10 ->
      truncate_text "cambio de nombre" 10 = "cambio de nombre")
  /\ (10 < len "cambio de nombre" ->
      len (truncate_text "cambio de nombre" 10) = 10
      /\ exists kept dropped,
          "cambio de nombre" = kept ++ dropped
          /\ truncate_text "cambio de nombre" 10 = kept ++ "...").
Proof. apply truncate_text_within_limit. lia. Defined.

End Truncate.

Section Captcha.

Import Py ScraperMore.

Lemma lower_app (a b : string) : lower (a ++ b) = lower a ++ lower b.
Proof.
  induction a as [| c a IH]; cbn [append lower];
    [reflexivity | now rewrite IH].
Qed.

Lemma lower_char_idempotent (c : ascii) :
  lower_char (lower_char c) = lower_char c.
Proof. destruct c as [[] [] [] [] [] [] [] []]; reflexivity. Qed.

Lemma lower_idempotent (s : string) : lower (lower s) = lower s.
Proof.
  induction s as [| c s IH]; cbn [lower]; [reflexivity |].
  now rewrite lower_char_idempotent, IH.
Qed.

Lemma starts_with_app (n h b : string) :
  starts_with n h = true -> starts_with n (h ++ b) = true.
Proof.
  revert h. induction n as [| c n IH]; intros h; [reflexivity |].
  destruct h as [| d h]; cbn [starts_with append]; [discriminate |].
  intros H. apply andb_prop in H as [H1 H2]. rewrite H1. now apply IH.
Qed.

Lemma starts_with_nil (n : string) : starts_with n "" = true -> n = "".
Proof. destruct n; [reflexivity | discriminate]. Qed.

Lemma contains_app_r (n h b : string) :
  contains n h = true -> contains n (h ++ b) = true.
Proof.
  induction h as [| c h IH]; cbn [contains append].
  - intros H. apply starts_with_nil in H. subst n. destruct b; reflexivity.
  - intros H. apply orb_prop in H as [H | H].
    + change (String c (h ++ b)) with (String c h ++ b).
      now rewrite (starts_with_app _ _ b H).
    + rewrite (IH H). apply orb_true_r.
Qed.

Lemma contains_app_l (n a h : string) :
  contains n h = true -> contains n (a ++ h) = true.
Proof.
  intros H. induction a as [| c a IH]; [exact H |].
  cbn [append contains]. rewrite IH. apply orb_true_r.
Qed.

Lemma starts_contains (n h : string) :
  starts_with n h = true -> contains n h = true.
Proof.
  destruct h as [| c h]; cbn [contains]; [exact (fun H => H) |].
  intros ->. reflexivity.
Qed.

(** Where a text occurs, its endings occur as well. *)
Lemma contains_tail (a b h : string) :
  contains (a ++ b) h = true -> contains b h = true.
Proof.
  assert (S : forall a h, starts_with (a ++ b) h = true ->
                          contains b h = true).
  { clear. induction a as [| c a IH]; intros h; cbn [append].
    - apply starts_contains.
    - destruct h as [| d h]; cbn [starts_with]; [discriminate |].
      intros H. apply andb_prop in H as [_ H]. cbn [contains].
      rewrite (IH h H). apply orb_true_r. }
  induction h as [| c h IH]; cbn [contains].
  - apply S.
  - intros H. apply orb_prop in H as [H | H].
    + apply S in H. exact H.
    + rewrite (IH H). apply orb_true_r.
Qed.

(** X7.  Captcha detection does not depend on letter case, is kept when the
    page is embedded in more text, and is already decided by four of the
    six indicators: "recaptcha" and "g-recaptcha" can only occur where
    "captcha" occurs. *)
Theorem detect_captcha_robust (html : string) :
  _detect_captcha (lower html) = _detect_captcha html
  /\ (forall before after,
         _detect_captcha html = true ->
         _detect_captcha (before ++ html ++ after) = true)
  /\ _detect_captcha html
     = existsb (fun indicator => contains indicator (lower html))
               [ "captcha"; "cloudflare"; "cf-browser-verification";
                 "human verification" ].
Proof.
  split; [| split].
  - unfold _detect_captcha. now rewrite lower_idempotent.
  - intros before after H. unfold _detect_captcha in *.
    apply existsb_exists in H. destruct H as (i & Hi & C).
    apply existsb_exists. exists i. split; [exact Hi |].
    rewrite !lower_app. now apply contains_app_l, contains_app_r.
  - unfold _detect_captcha, captcha_indicators. cbn [existsb].
    pose proof (contains_tail "re" "captcha" (lower html)) as R.
    pose proof (contains_tail "g-re" "captcha" (lower html)) as G.
    cbn [append] in R, G.
    destruct (contains "recaptcha" (lower html));
      destruct (contains "g-recaptcha" (lower html));
      destruct (contains "captcha" (lower html));
      try reflexivity;
      first [discriminate (R eq_refl) | discriminate (G eq_refl)].
Qed.

End Captcha.


(* ================================================================== *)
(** * Further properties of the scores *)
(* ================================================================== *)

Section Scores.

Import Py Models ModelsMore Scraper ScraperMore.


Lemma filled_all (p : AirlinePolicy) (fields : list string) :
  filled p fields = Z.of_nat (List.length fields) <->
  forall f, In f fields -> has_value p f = true.
Proof.
  unfold filled. induction fields as [| f fs IH].
  - split; [intros _ g [] | reflexivity].
  - cbn [filter]. pose proof (filter_length_le (has_value p) fs) as L.
    destruct (has_value p f) eqn:E; cbn [List.length].
    + split.
      * intros H g [<- | Hg]; [exact E |]. apply IH; [lia | exact Hg].
      * intros H. assert (A : forall g, In g fs -> has_value p g = true)
          by (intros g Hg; apply H; now right).
        apply IH in A. lia.
    + split; [lia |]. intros H. rewrite (H f (or_introl eq_refl)) in E.
      discriminate.
Qed.

Lemma filled_none (p : AirlinePolicy) (fields : list string) :
  filled p fields = 0 <-> forall f, In f fields -> has_value p f = false.
Proof.
  unfold filled. induction fields as [| f fs IH].
  - split; [intros _ g [] | reflexivity].
  - cbn [filter]. destruct (has_value p f) eqn:E; cbn [List.length].
    + split; [lia |]. intros H. rewrite (H f (or_introl eq_refl)) in E.
      discriminate.
    + rewrite IH. split.
      * intros H g [<- | Hg]; [exact E | now apply H].
      * intros H g Hg. apply H. now right.
Qed.

Lemma filled_range (p : AirlinePolicy) (fields : list string) :
  0 <= filled p fields <= Z.of_nat (List.length fields).
Proof.
  unfold filled. pose proof (filter_length_le (has_value p) fields). lia.
Qed.

Ltac score_fact :=
  let X := fresh "X" in
  intros X;
  first [ lia
        | discriminate X
        | vm_compute in X; discriminate X
        | vm_compute; reflexivity ].

Ltac score_row :=
  cbv zeta;
  split; [split; vm_compute; discriminate |];
  split; [split; score_fact |];
  split; [split; score_fact |];
  split; score_fact.

(** The score at each filled weight. *)
Lemma score_table (w : Z) :
  0 <= w <= 12 ->
  let s := round (inject_Z w / inject_Z 12) 2 in
  (0 <= s <= 1)%Q
  /\ ((s == 1)%Q <-> w = 12)
  /\ ((s == 0)%Q <-> w = 0)
  /\ ((s ?= 4 # 10)%Q = Lt <-> w <= 4).
Proof.
  intros H.
  assert (C : w = 0 \/ w = 1 \/ w = 2 \/ w = 3 \/ w = 4 \/ w = 5 \/ w = 6
              \/ w = 7 \/ w = 8 \/ w = 9 \/ w = 10 \/ w = 11 \/ w = 12)
    by lia.
  repeat (destruct C as [C | C]; [subst w; score_row |]).
  subst w; score_row.
Qed.

Lemma filled_weight_range (p : AirlinePolicy) : 0 <= filled_weight p <= 12.
Proof.
  unfold filled_weight.
  pose proof (filled_range p critical_fields) as C.
  pose proof (filled_range p important_fields) as I.
  cbn [critical_fields important_fields List.length] in C, I. lia.
Qed.

(** X9.  The confidence score lies in [0, 1]; it is 1 exactly when all
    eight critical and important fields are set, and 0 exactly when none
    is. *)
Theorem confidence_score_extremes (p : AirlinePolicy) :
  (0 <= calculate_confidence_score p <= 1)%Q
  /\ ((calculate_confidence_score p == 1)%Q <->
      forall f, In f (critical_fields ++ important_fields) ->
                has_value p f = true)
  /\ ((calculate_confidence_score p == 0)%Q <->
      forall f, In f (critical_fields ++ important_fields) ->
                has_value p f = false).
Proof.
  rewrite calculate_confidence_score_weighted.
  destruct (score_table (filled_weight p) (filled_weight_range p))
    as (B & One & Zero & _).
  pose proof (filled_range p critical_fields) as C.
  pose proof (filled_range p important_fields) as I.
  change (Z.of_nat (List.length critical_fields)) with 4 in C.
  change (Z.of_nat (List.length important_fields)) with 4 in I.
  split; [exact B |]. split.
  - rewrite One. unfold filled_weight. split.
    + intros H f Hf. apply in_app_or in Hf as [Hf | Hf].
      * apply (proj1 (filled_all p critical_fields)); [| exact Hf].
        change (Z.of_nat (List.length critical_fields)) with 4. lia.
      * apply (proj1 (filled_all p important_fields)); [| exact Hf].
        change (Z.of_nat (List.length important_fields)) with 4. lia.
    + intros H.
      assert (A1 : filled p critical_fields = 4).
      { apply (proj2 (filled_all p critical_fields)).
        intros f Hf. apply H, in_or_app. now left. }
      assert (A2 : filled p important_fields = 4).
      { apply (proj2 (filled_all p important_fields)).
        intros f Hf. apply H, in_or_app. now right. }
      lia.
  - rewrite Zero. unfold filled_weight. split.
    + intros H f Hf. apply in_app_or in Hf as [Hf | Hf].
      * apply (proj1 (filled_none p critical_fields)); [lia | exact Hf].
      * apply (proj1 (filled_none p important_fields)); [lia | exact Hf].
    + intros H.
      assert (A1 : filled p critical_fields = 0).
      { apply (proj2 (filled_none p critical_fields)).
        intros f Hf. apply H, in_or_app. now left. }
      assert (A2 : filled p important_fields = 0).
      { apply (proj2 (filled_none p important_fields)).
        intros f Hf. apply H, in_or_app. now right. }
      lia.
Qed.

Lemma missing_count (p : AirlinePolicy) :
  Z.of_nat (List.length (get_missing_fields p))
  = 4 - filled p critical_fields.
Proof.
  unfold get_missing_fields, filled.
  assert (G : forall fields,
             (List.length
                (filter (fun f => negb (has_value p f)) fields)
              + List.length (filter (has_value p) fields)
              = List.length fields)%nat).
  { induction fields as [| f fs IH]; [reflexivity |].
    cbn [filter]. destruct (has_value p f); cbn [negb List.length]; lia. }
  specialize (G critical_fields).
  change (List.length critical_fields) with 4%nat in G. lia.
Qed.

(** X10.  A policy read back from the store always needs manual review,
    because the store keeps no confidence score and the record comes back
    with 0.0.  For a policy carrying the score just computed for it,
    review is needed exactly when more than two critical fields are
    missing or the filled weight is at most 4 of 12; a policy with all four
    critical fields set never needs it. *)
Theorem needs_manual_review_cases (p : AirlinePolicy) :
  (forall (fault : bool) (db : Database.store) (q : AirlinePolicy),
      In q (Database.get_all_policies fault db) ->
      needs_manual_review q = true)
  /\ (forall (fault : bool) (code : string) (db : Database.store)
             (q : AirlinePolicy),
         Database.get_policy_by_code fault code db = Some q ->
         needs_manual_review q = true)
  /\ (needs_manual_review
        (set_confidence_score (calculate_confidence_score p) p) = true
      <-> (2 < List.length (get_missing_fields p))%nat
          \/ filled_weight p <= 4)
  /\ (get_missing_fields p = [] ->
      needs_manual_review
        (set_confidence_score (calculate_confidence_score p) p) = false).
Proof.
  assert (Z0 : forall q, needs_manual_review (set_confidence_score 0 q)
                         = true).
  { intros q. unfold needs_manual_review.
    destruct (2 <? _)%nat; reflexivity. }
  assert (M : forall c, get_missing_fields (set_confidence_score c p)
                        = get_missing_fields p) by reflexivity.
  assert (R : needs_manual_review
                (set_confidence_score (calculate_confidence_score p) p)
              = true
              <-> (2 < List.length (get_missing_fields p))%nat
                  \/ filled_weight p <= 4).
  { unfold needs_manual_review. rewrite M.
    change (confidence_score
              (set_confidence_score (calculate_confidence_score p) p))
      with (calculate_confidence_score p).
    rewrite calculate_confidence_score_weighted.
    destruct (score_table (filled_weight p) (filled_weight_range p))
      as (_ & _ & _ & Low). cbv zeta in Low.
    destruct (2 <? List.length (get_missing_fields p))%nat eqn:E.
    - apply Nat.ltb_lt in E. split; [now left | reflexivity].
    - apply Nat.ltb_ge in E.
      destruct (round (inject_Z (filled_weight p) / inject_Z 12) 2
                ?= 4 # 10)%Q eqn:C.
      + split; [discriminate |]. intros [H | H]; [lia |].
        apply Low in H. discriminate H.
      + split; [intros _; right; now apply Low | reflexivity].
      + split; [discriminate |]. intros [H | H]; [lia |].
        apply Low in H. discriminate H. }
  split; [| split; [| split; [exact R |]]].
  - intros fault db q H. unfold Database.get_all_policies in H.
    destruct fault; [destruct H |].
    apply in_map_iff in H. destruct H as (r & <- & _). apply Z0.
  - intros fault code db q H. unfold Database.get_policy_by_code in H.
    destruct fault; [discriminate H |].
    destruct (Database.order_by_scraped_at_desc _) as [| r rs];
      [discriminate H |].
    injection H as <-. apply Z0.
  - intros H.
    destruct (needs_manual_review
                (set_confidence_score (calculate_confidence_score p) p))
      eqn:N; [| reflexivity].
    exfalso. pose proof (missing_count p) as K. rewrite H in K.
    cbn [List.length] in K.
    pose proof (filled_range p important_fields).
    destruct (proj1 R eq_refl) as [N' | N'];
      [rewrite H in N'; cbn in N'; lia |].
    unfold filled_weight in N'. lia.
Qed.

End Scores.


Section StatusAndBand.

Import Py Models Analyzer Examples.

Lemma round_half_even_int (z : Z) : round_half_even (inject_Z z) = z.
Proof.
  pose proof (round_half_even_error (inject_Z z)) as [H1 H2].
  assert (L : (inject_Z (z - 1) < inject_Z (round_half_even (inject_Z z)))%Q).
  { unfold Z.sub. rewrite inject_Z_plus, inject_Z_opp.
    change (inject_Z 1) with 1%Q. lra. }
  assert (U : (inject_Z (round_half_even (inject_Z z)) < inject_Z (z + 1))%Q).
  { rewrite inject_Z_plus. change (inject_Z 1) with 1%Q. lra. }
  rewrite <- Zlt_Qlt in L, U. lia.
Qed.

Lemma round_half_even_comp (q1 q2 : Q) :
  (q1 == q2)%Q -> round_half_even q1 = round_half_even q2.
Proof.
  intros E. apply Z.le_antisymm; apply round_half_even_mono; rewrite E;
    apply Qle_refl.
Qed.

(** Rounding to one decimal does not fall below a whole number that the
    number reaches. *)
Lemma round1_ge (c : Q) (t : Z) :
  (inject_Z t <= c)%Q -> (inject_Z t <= round c 1)%Q.
Proof.
  intros H. apply (Qle_trans _ (round (inject_Z t) 1));
    [| now apply round_mono].
  unfold round. change (inject_Z (10 ^ Z.of_nat 1)) with (inject_Z 10).
  rewrite (round_half_even_comp _ (inject_Z (t * 10)))
    by (rewrite inject_Z_mult; reflexivity).
  rewrite round_half_even_int, inject_Z_mult.
  assert (E : (inject_Z t * inject_Z 10 / inject_Z 10 == inject_Z t)%Q)
    by (field; discriminate).
  rewrite E. apply Qle_refl.
Qed.

(** X11.  [is_viable] holds exactly when the status is not NO VIABLE.  The
    report's status, read off the coverage rounded to one decimal, and the
    conclusion band, read off the unrounded coverage, can differ only when
    the coverage lies within 0.05 below a threshold: in [59.95, 60) or in
    [39.95, 40).  They do differ there: with 241 viable airlines out of
    402 the status is VIABLE and the band VIABLE CON RESTRICCIONES. *)
Theorem status_and_conclusion_band (rows : frame) :
  (is_viable (report_of rows) = true <->
   get_viability_status (report_of rows) <> NO_VIABLE)
  /\ (get_viability_status (report_of rows) <> conclusion (report_of rows) ->
      (5995 # 100 <= market_coverage rows < 60)%Q
      \/ (3995 # 100 <= market_coverage rows < 40)%Q)
  /\ (let big :=
        (repeat (avianca_policy 0) 241 ++ repeat (new_policy "X" "X" 0) 161)%list
      in get_viability_status (report_of big) = VIABLE
         /\ conclusion (report_of big) = VIABLE_CON_RESTRICCIONES).
Proof.
  assert (Big : let big :=
                  (repeat (avianca_policy 0) 241
                   ++ repeat (new_policy "X" "X" 0) 161)%list
                in get_viability_status (report_of big) = VIABLE
                   /\ conclusion (report_of big) = VIABLE_CON_RESTRICCIONES)
    by (split; vm_compute; reflexivity).
  revert Big. generalize
    (repeat (avianca_policy 0) 241 ++ repeat (new_policy "X" "X" 0) 161)%list.
  intros big Big.
  cut ((is_viable (report_of rows) = true <->
        get_viability_status (report_of rows) <> NO_VIABLE)
       /\ (get_viability_status (report_of rows)
           <> conclusion (report_of rows) ->
           (5995 # 100 <= market_coverage rows < 60)%Q
           \/ (3995 # 100 <= market_coverage rows < 40)%Q));
    [intros [A B]; split; [exact A | split; [exact B | exact Big]] |].
  clear big Big.
  unfold is_viable, get_viability_status.
  cbn [market_coverage_percentage conclusion report_of].
  unfold conclusion_band, Config.market_coverage_ideal,
    Config.market_coverage_minimum.
  set (c := market_coverage rows).
  pose proof (round_error c 1) as Err.
  apply Qabs_Qle_condition in Err. destruct Err as [E1 E2].
  change ((1 # 2) / inject_Z (10 ^ Z.of_nat 1))%Q with (1 # 20)%Q in E1, E2.
  assert (G60 : (60 <= c)%Q -> (60 <= round c 1)%Q)
    by apply (round1_ge c 60).
  assert (G40 : (40 <= c)%Q -> (40 <= round c 1)%Q)
    by apply (round1_ge c 40).
  split.
  - destruct (Qle_bool 60 (round c 1)) eqn:A;
      destruct (Qle_bool 40 (round c 1)) eqn:B;
      try (split; [discriminate | reflexivity]);
      try (split; [discriminate | intros H; now elim H]).
    apply Qle_bool_iff in A.
    assert (N : ~ (40 <= round c 1)%Q)
      by (intros X; apply Qle_bool_iff in X; congruence).
    exfalso. apply N. lra.
  - destruct (Qle_bool 60 c) eqn:A.
    + apply Qle_bool_iff in A. apply G60, Qle_bool_iff in A. rewrite A.
      intros H. now elim H.
    + assert (A' : (c < 60)%Q).
      { apply Qnot_le_lt. intros X. apply Qle_bool_iff in X. congruence. }
      destruct (Qle_bool 40 c) eqn:B.
      * apply Qle_bool_iff in B. pose proof (G40 B) as B'.
        apply Qle_bool_iff in B'. rewrite B'.
        destruct (Qle_bool 60 (round c 1)) eqn:C;
          [| intros H; now elim H].
        apply Qle_bool_iff in C. intros _. left. split; [lra | exact A'].
      * assert (B' : (c < 40)%Q).
        { apply Qnot_le_lt. intros X. apply Qle_bool_iff in X. congruence. }
        destruct (Qle_bool 60 (round c 1)) eqn:C.
        -- apply Qle_bool_iff in C. exfalso. lra.
        -- destruct (Qle_bool 40 (round c 1)) eqn:D;
             [| intros H; now elim H].
           apply Qle_bool_iff in D. intros _. right. split; [lra | exact B'].
Qed.

End StatusAndBand.

(* ================================================================== *)
(** * Further properties of the scrape operation *)
(* ================================================================== *)

Section Fetch.

Import Py Models Scraper.

Context {Soup : Type}.

(** X12.  [fetch_page] makes at most [MAX_RETRIES] attempts: what later
    attempts would give is never looked at.  It returns the text of the
    first attempt that succeeds after request errors, lets any other
    exception through at once, and returns [None] exactly when every
    attempt failed with a request error. *)
Theorem fetch_page_attempts (env : environment Soup) :
  (forall env' : environment Soup,
      (forall attempt, (attempt < Config.MAX_RETRIES)%nat ->
                       http_get env attempt = http_get env' attempt) ->
      fetch_page env = fetch_page env')
  /\ (fetch_page env = Return None <-> retries_exhausted env)
  /\ (forall (attempt : nat) (text : string),
         (attempt < Config.MAX_RETRIES)%nat ->
         failed_before env attempt ->
         http_get env attempt = Return text ->
         fetch_page env = Return (Some text))
  /\ (forall (attempt : nat) (e : exn),
         (attempt < Config.MAX_RETRIES)%nat ->
         failed_before env attempt ->
         http_get env attempt = Raise e ->
         (forall msg, e <> RequestException msg) ->
         fetch_page env = Raise e).
Proof.
  unfold fetch_page, retries_exhausted, failed_before, Config.MAX_RETRIES.
  split; [| split; [| split]].
  - intros env' H. cbn [fetch_loop].
    rewrite <- (H 0%nat), <- (H 1%nat), <- (H 2%nat) by lia. reflexivity.
  - cbn [fetch_loop].
    destruct (http_get env 0) as [t0 | [m0 | m0 | m0]] eqn:E0; cbn.
    1, 2, 4: split; [discriminate |]; intros H;
      destruct (H 0%nat) as [m E]; [lia | congruence].
    destruct (http_get env 1) as [t1 | [m1 | m1 | m1]] eqn:E1; cbn.
    1, 2, 4: split; [discriminate |]; intros H;
      destruct (H 1%nat) as [m E]; [lia | congruence].
    destruct (http_get env 2) as [t2 | [m2 | m2 | m2]] eqn:E2; cbn.
    1, 2, 4: split; [discriminate |]; intros H;
      destruct (H 2%nat) as [m E]; [lia | congruence].
    split; [| reflexivity]. intros _ attempt Ha.
    destruct attempt as [| [| [| n]]]; [eauto | eauto | eauto | lia].
  - intros attempt text Ha Hb He. cbn [fetch_loop].
    destruct attempt as [| [| [| n]]]; [| | | lia].
    + now rewrite He.
    + destruct (Hb 0%nat) as [m0 E0]; [lia |]. rewrite E0. cbn.
      now rewrite He.
    + destruct (Hb 0%nat) as [m0 E0]; [lia |].
      destruct (Hb 1%nat) as [m1 E1]; [lia |]. rewrite E0. cbn.
      rewrite E1. cbn. now rewrite He.
  - intros attempt e Ha Hb He Hn. cbn [fetch_loop].
    assert (X : forall (k : result (option string)),
               match e with
               | RequestException _ => k
               | _ => Raise e
               end = Raise e).
    { intros k. destruct e as [m | m | m]; try reflexivity.
      now elim (Hn m). }
    destruct attempt as [| [| [| n]]]; [| | | lia].
    + rewrite He. destruct e as [m | m | m]; try reflexivity.
      now elim (Hn m).
    + destruct (Hb 0%nat) as [m0 E0]; [lia |]. rewrite E0. cbn.
      rewrite He. destruct e as [m | m | m]; try reflexivity.
      now elim (Hn m).
    + destruct (Hb 0%nat) as [m0 E0]; [lia |].
      destruct (Hb 1%nat) as [m1 E1]; [lia |]. rewrite E0. cbn.
      rewrite E1. cbn. rewrite He.
      destruct e as [m | m | m]; try reflexivity. now elim (Hn m).
Qed.

End Fetch.


Section ScrapeSuccess.

Import Py Models Scraper.

Context {Soup : Type}.

Lemma rows_after_insert (p : AirlinePolicy) (db : Database.store) :
  filter (fun r => String.eqb (Database.code_of r) (airline_code p))
         (Database.airline_policies (Database.insert_or_replace p db))
  = [Database.mkRow (Database.sequence db + 1) (set_confidence_score 0 p)].
Proof.
  unfold Database.insert_or_replace. cbn [Database.airline_policies].
  rewrite filter_app, filter_other_then_same. cbn [filter app].
  unfold Database.code_of at 1. cbn [Database.columns].
  change (airline_code (set_confidence_score 0 p)) with (airline_code p).
  now rewrite String.eqb_refl.
Qed.

Lemma lookup_after_insert (p : AirlinePolicy) (db : Database.store) :
  Database.get_policy_by_code false (airline_code p)
                              (Database.insert_or_replace p db)
  = Some (set_confidence_score 0 p).
Proof.
  unfold Database.get_policy_by_code. rewrite rows_after_insert. reflexivity.
Qed.


(** X14.  In [scrape] the change detection runs after the upsert, so it
    compares the new policy with the row just written: whenever that write
    and the read that follows succeed, it reports no change, whatever the
    store held before. *)
Theorem change_detection_after_upsert
        (self : BaseScraper Soup) (env : environment Soup)
        (policy : AirlinePolicy) (w : world) :
  insert_fault env = false ->
  read_fault env = false ->
  airline_code policy = scraper_airline_code self ->
  fst (bind (db_insert_policy env policy)
            (fun _ => detect_policy_changes self env policy) w)
  = Return false.
Proof.
  intros Hi Hr Hc. unfold bind, db_insert_policy, detect_policy_changes.
  rewrite Hi, Hr. cbn [Database.insert_policy db]. rewrite <- Hc.
  rewrite lookup_after_insert.
  change (raw_html_hash (set_confidence_score 0 policy))
    with (raw_html_hash policy).
  destruct (raw_html_hash policy) as [h |]; cbn [fst];
    [now rewrite String.eqb_refl | reflexivity].
Qed.

End ScrapeSuccess.

Section ScrapeSuccessInstances.

Import Py Models Scraper Examples.


(** X14, at an input. *)
Lemma change_detection_after_upsert_witness :
  fst (bind (db_insert_policy online (avianca_policy 2))
            (fun _ => detect_policy_changes working_scraper online
                                            (avianca_policy 2))
            stocked_world)
  = Return false.
Proof.
  apply change_detection_after_upsert; reflexivity.
Defined.

End ScrapeSuccessInstances.


(* ================================================================== *)
(** * Further properties of the policy store *)
(* ================================================================== *)

Section StoreQueries.

Import Py Models Database DatabaseMore.

Lemma insert_desc_perm (r : row) (rows : list row) :
  Permutation (r :: rows) (insert_desc r rows).
Proof.
  induction rows as [| x rest IH]; cbn [insert_desc]; [reflexivity |].
  destruct (scraped_at (columns x) <? scraped_at (columns r));
    [reflexivity |].
  rewrite perm_swap. now apply perm_skip.
Qed.

Lemma order_by_scraped_at_desc_perm (rows : list row) :
  Permutation rows (order_by_scraped_at_desc rows).
Proof.
  induction rows as [| r rest IH]; cbn; [reflexivity |].
  rewrite <- insert_desc_perm. now apply perm_skip.
Qed.

Lemma insert_desc_sorted (r : row) (rows : list row) :
  StronglySorted not_newer rows ->
  StronglySorted not_newer (insert_desc r rows).
Proof.
  induction rows as [| x rest IH]; intros S; cbn [insert_desc].
  - repeat constructor.
  - apply StronglySorted_inv in S as [S F].
    destruct (scraped_at (columns x) <? scraped_at (columns r)) eqn:E.
    + apply Z.ltb_lt in E. constructor; [now constructor |].
      constructor; [unfold not_newer; lia |].
      eapply Forall_impl; [| exact F]. unfold not_newer. intros y. lia.
    + apply Z.ltb_ge in E. constructor; [now apply IH |].
      rewrite <- insert_desc_perm. constructor; [exact E | exact F].
Qed.

Lemma order_by_scraped_at_desc_sorted (rows : list row) :
  StronglySorted not_newer (order_by_scraped_at_desc rows).
Proof.
  induction rows as [| r rest IH]; cbn; [constructor |].
  now apply insert_desc_sorted.
Qed.

Lemma StronglySorted_map {A B : Type} (R : A -> A -> Prop)
      (R' : B -> B -> Prop) (f : A -> B) (l : list A) :
  (forall a b, R a b -> R' (f a) (f b)) ->
  StronglySorted R l -> StronglySorted R' (map f l).
Proof.
  intros H S. induction S as [| a l S IH F]; cbn [map]; constructor;
    [exact IH |].
  apply Forall_map. eapply Forall_impl; [| exact F]. intros b. apply H.
Qed.

(** X15.  [get_all_policies] returns every stored row exactly once, each
    with the columns as written and the confidence score at 0.0, the most
    recently captured first; on a storage error it returns the empty
    list. *)
Theorem get_all_policies_complete (db : store) :
  Permutation (map _row_to_policy (airline_policies db))
              (get_all_policies false db)
  /\ StronglySorted (fun a b => scraped_at b <= scraped_at a)
                    (get_all_policies false db)
  /\ List.length (get_all_policies false db)
     = List.length (airline_policies db)
  /\ get_all_policies true db = [].
Proof.
  unfold get_all_policies.
  pose proof (order_by_scraped_at_desc_perm (airline_policies db)) as P.
  split; [now apply Permutation_map |]. split; [| split; [| reflexivity]].
  - apply (StronglySorted_map not_newer); [intros a b H; exact H |].
    apply order_by_scraped_at_desc_sorted.
  - rewrite length_map. symmetry. now apply Permutation_length.
Qed.

Lemma filter_codes_nil (code : string) (rows : list row) :
  filter (fun r => String.eqb (code_of r) code) rows = [] ->
  forall r, In r rows -> code_of r <> code.
Proof.
  intros H r Hr E.
  assert (I : In r (filter (fun r => String.eqb (code_of r) code) rows)).
  { apply filter_In. split; [exact Hr |]. rewrite E. apply String.eqb_refl. }
  rewrite H in I. destruct I.
Qed.

(** X16.  After a successful [delete_policy] the code has no row and its
    lookup gives [None], while the lookup of every other code is what it
    was; after a successful [clear_all_policies] nothing is left.  When
    the storage engine fails, either operation leaves the table as it
    was. *)
Theorem delete_and_clear (db : store) (code : string) :
  let deleted := snd (delete_policy false code db) in
  let cleared := snd (clear_all_policies false db) in
  rows_with_code code deleted = 0%nat
  /\ get_policy_by_code false code deleted = None
  /\ (forall other,
         other <> code ->
         get_policy_by_code false other deleted
         = get_policy_by_code false other db)
  /\ get_all_policies false cleared = []
  /\ (forall any, get_policy_by_code false any cleared = None)
  /\ snd (delete_policy true code db) = db
  /\ snd (clear_all_policies true db) = db.
Proof.
  cbn [delete_policy clear_all_policies snd].
  unfold rows_with_code, get_policy_by_code. cbn [airline_policies].
  rewrite filter_other_then_same.
  repeat split; try reflexivity.
  intros other NE. now rewrite filter_other_keeps.
Qed.

Lemma Permutation_filter {A : Type} (test : A -> bool) (l l' : list A) :
  Permutation l l' -> Permutation (filter test l) (filter test l').
Proof.
  intros P. induction P as [| x l l' P IH | x y l | l l' l'' P1 IH1 P2 IH2];
    cbn [filter].
  - reflexivity.
  - destruct (test x); [now apply perm_skip | exact IH].
  - destruct (test x), (test y); try reflexivity. apply perm_swap.
  - now transitivity (filter test l').
Qed.

Lemma insert_by_name_perm (r : row) (rows : list row) :
  Permutation (r :: rows) (insert_by_name r rows).
Proof.
  induction rows as [| x rest IH]; cbn [insert_by_name]; [reflexivity |].
  destruct (String.ltb _ _); [reflexivity |].
  rewrite perm_swap. now apply perm_skip.
Qed.

Lemma order_by_airline_name_perm (rows : list row) :
  Permutation rows (order_by_airline_name rows).
Proof.
  induction rows as [| r rest IH]; cbn; [reflexivity |].
  rewrite <- insert_by_name_perm. now apply perm_skip.
Qed.

Lemma filter_map_comm {A B : Type} (f : A -> B) (test : B -> bool)
      (l : list A) :
  filter test (map f l) = map f (filter (fun a => test (f a)) l).
Proof.
  induction l as [| a l IH]; cbn [map filter]; [reflexivity |].
  destruct (test (f a)); cbn [map]; now rewrite IH.
Qed.

(** X17.  The store's viable query, the record's [is_transfer_viable] and
    the analyzer's viable mask agree: [get_viable_airlines] returns, each
    once, exactly the policies of [get_all_policies] that are transfer
    viable, so their number is the viable count behind the market
    coverage. *)
Theorem viable_queries_agree (db : store) :
  Permutation (filter is_transfer_viable (get_all_policies false db))
              (get_viable_airlines false db)
  /\ (forall p, Analyzer.viable_mask p = is_transfer_viable p)
  /\ Analyzer.count Analyzer.viable_mask (get_all_policies false db)
     = Z.of_nat (List.length (get_viable_airlines false db)).
Proof.
  assert (V : forall p, Analyzer.viable_mask p = is_transfer_viable p).
  { intros p. unfold Analyzer.viable_mask, is_transfer_viable.
    apply orb_comm. }
  assert (P : Permutation
                (filter is_transfer_viable (get_all_policies false db))
                (get_viable_airlines false db)).
  { unfold get_all_policies, get_viable_airlines.
    rewrite filter_map_comm. apply Permutation_map.
    rewrite <- order_by_airline_name_perm.
    rewrite <- (Permutation_filter _ _ _
                  (order_by_scraped_at_desc_perm (airline_policies db))).
    erewrite filter_ext; [reflexivity |].
    intros r. unfold is_transfer_viable, _row_to_policy.
    cbn [allows_full_name_change allows_transfer_to_third_party
         set_confidence_score].
    destruct (allows_full_name_change (columns r)) as [[] |],
             (allows_transfer_to_third_party (columns r)) as [[] |];
      reflexivity. }
  split; [exact P |]. split; [exact V |].
  unfold Analyzer.count. f_equal.
  rewrite (filter_ext _ _ V). now apply Permutation_length.
Qed.

End StoreQueries.


Section ReviewQuery.

Import Py Models Database.

(** X18.  [get_policies_requiring_review] returns, each once, exactly the
    policies of [get_all_policies] whose review flag is set, so their
    number is the review count that lowers the overall viability score. *)
Theorem review_query_agrees (db : store) :
  Permutation (filter requires_manual_review (get_all_policies false db))
              (get_policies_requiring_review false db)
  /\ Forall (fun p => requires_manual_review p = true)
            (get_policies_requiring_review false db)
  /\ Analyzer.count requires_manual_review (get_all_policies false db)
     = Z.of_nat (List.length (get_policies_requiring_review false db)).
Proof.
  assert (P : Permutation
                (filter requires_manual_review (get_all_policies false db))
                (get_policies_requiring_review false db)).
  { unfold get_all_policies, get_policies_requiring_review.
    rewrite filter_map_comm. apply Permutation_map.
    rewrite <- (order_by_scraped_at_desc_perm (filter _ (airline_policies db))).
    rewrite <- (Permutation_filter _ _ _
                  (order_by_scraped_at_desc_perm (airline_policies db))).
    reflexivity. }
  split; [exact P |]. split.
  - rewrite <- P. apply Forall_forall. intros p Hp.
    apply filter_In in Hp. tauto.
  - unfold Analyzer.count. f_equal. now apply Permutation_length.
Qed.

End ReviewQuery.

Section ScrapeOutcome.

Import Py Models Scraper.

Context {Soup : Type}.



End ScrapeOutcome.

Section FreshAnalyzer.

Import Py Models Analyzer.

Lemma get_all_policies_length (store : Database.store) :
  List.length (Database.get_all_policies false store)
  = List.length (Database.airline_policies store).
Proof.
  unfold Database.get_all_policies. rewrite length_map.
  symmetry. apply Permutation_length.
  apply order_by_scraped_at_desc_perm.
Qed.

Lemma fresh_report (fault fault' : bool) (store : Database.store) :
  fst (generate_viability_report fault fault' (mkAnalyzer store None))
  = if (fault && fault')%bool
    then Raise (Exception "'NoneType' object has no attribute 'empty'")
    else match Database.get_all_policies false store with
         | [] => Raise (Exception "'NoneType' object has no attribute 'empty'")
         | p :: ps => Return (report_of (p :: ps))
         end.
Proof.
  unfold generate_viability_report, ensure_loaded, load_data.
  assert (T : Database.get_all_policies true store = []) by reflexivity.
  destruct fault, fault'; cbn -[Database.get_all_policies]; rewrite ?T;
    cbn -[Database.get_all_policies];
    destruct (Database.get_all_policies false store) eqn:G;
    cbn -[Database.get_all_policies]; rewrite ?T, ?G;
    cbn -[Database.get_all_policies]; rewrite ?G; reflexivity.
Qed.

(** X20.  From an analyzer that has loaded nothing,
    [generate_viability_report] returns a report exactly when one of its
    two reads of the store succeeds and the table holds a row, and the
    report then counts every stored row; on an empty store, or when both
    reads fail, it raises instead of returning a report of zeros. *)
Theorem report_needs_policies (fault fault' : bool) (store : Database.store) :
  let outcome :=
    fst (generate_viability_report fault fault' (mkAnalyzer store None)) in
  ((exists r, outcome = Return r) <->
   (fault && fault')%bool = false /\ Database.airline_policies store <> [])
  /\ (forall r,
         outcome = Return r ->
         r = report_of (Database.get_all_policies false store)
         /\ total_airlines r
            = Z.of_nat (List.length (Database.airline_policies store))).
Proof.
  cbv zeta. rewrite fresh_report.
  pose proof (get_all_policies_length store) as L.
  destruct (fault && fault')%bool.
  - split.
    + split; [intros [r H]; discriminate H | intros [F _]; discriminate F].
    + intros r H. discriminate H.
  - destruct (Database.get_all_policies false store) as [| p ps].
    + split.
      * split; [intros [r H]; discriminate H |].
        intros [_ N]. exfalso. apply N.
        destruct (Database.airline_policies store); [reflexivity |].
        discriminate L.
      * intros r H. discriminate H.
    + split.
      * split; [| intros _; eexists; reflexivity].
        intros _. split; [reflexivity |]. intros N. rewrite N in L.
        discriminate L.
      * intros r H. injection H as <-. split; [reflexivity |].
        cbn [total_airlines report_of]. unfold len. now rewrite L.
Qed.

End FreshAnalyzer.

Section KeywordBoost.

Import Py Utils.

(** X21.  The caller's keyword list can only add positive evidence: a text
    judged [True] without keywords is judged [True] with any keyword list,
    and a text judged [False] with a keyword list is judged [False]
    without one. *)
Theorem keywords_only_favour_true
        (text : string) (keywords : list string) :
  (fst (detect_boolean_policy text None) = Some true ->
   fst (detect_boolean_policy text (Some keywords)) = Some true)
  /\ (fst (detect_boolean_policy text (Some keywords)) = Some false ->
      fst (detect_boolean_policy text None) = Some false).
Proof.
  unfold detect_boolean_policy.
  destruct text as [| c rest]; [split; discriminate |].
  cbn [truthy negb]. set (t := strip (lower (String c rest))).
  unfold positive_matches.
  pose proof (count_keywords_nonneg keywords t) as K.
  set (p := count_found KEYWORDS_POSITIVE t) in *.
  set (k := count_keywords keywords t) in *.
  set (n := negative_matches t).
  unfold determine_result.
  destruct (p + 0 >? n) eqn:A; destruct (p + k >? n) eqn:B;
    destruct (n >? p + 0) eqn:C; destruct (n >? p + k) eqn:D;
    cbn [fst];
    try rewrite Z.gtb_lt in *;
    try (rewrite Z.gtb_ltb, Z.ltb_ge in A);
    try (rewrite Z.gtb_ltb, Z.ltb_ge in B);
    try (rewrite Z.gtb_ltb, Z.ltb_ge in C);
    try (rewrite Z.gtb_ltb, Z.ltb_ge in D);
    split; intros H; first [reflexivity | discriminate H | lia].
Qed.

End KeywordBoost.


Section Sentences.

Import Py Re Utils UtilsMore UtilsSentences.

(** From the start of a text the first piece is a prefix of it. *)
Lemma split_head_prefix (text piece : string) (more : list string) :
  split false text = piece :: more -> exists c, text = piece ++ c.
Proof.
  revert piece more. induction text as [| ch rest IH]; intros piece more;
    cbn [split].
  - intros H. injection H as <- _. now exists "".
  - destruct (is_terminator ch).
    + intros H. injection H as <- _. now exists (String ch rest).
    + destruct (split false rest) as [| p0 m0] eqn:E.
      * intros H. injection H as <- _. now exists rest.
      * intros H. injection H as <- _.
        destruct (IH p0 m0 eq_refl) as [c ->]. now exists c.
Qed.

(** Every piece is a part of the text. *)
Lemma split_pieces (text : string) :
  forall (in_run : bool) (piece : string),
    In piece (split in_run text) -> exists a c, text = a ++ piece ++ c.
Proof.
  induction text as [| ch rest IH]; intros in_run piece; cbn [split].
  - intros [<- | []]. now exists "", "".
  - destruct (is_terminator ch).
    + assert (T : In piece (split true rest) ->
                  exists a c, String ch rest = a ++ piece ++ c).
      { intros H. destruct (IH true piece H) as (a & c & ->).
        now exists (String ch a), c. }
      destruct in_run; [exact T |].
      intros [<- | H]; [now exists "", (String ch rest) | now apply T].
    + destruct (split false rest) as [| p0 m0] eqn:E.
      * intros [<- | []]. now exists "", rest.
      * intros [<- | H].
        -- destruct (split_head_prefix rest p0 m0 E) as [c ->].
           now exists "", c.
        -- destruct (IH false piece) as (a & c & ->);
             [rewrite E; now right |].
           now exists (String ch a), c.
Qed.

(** A keyword met in a piece is met in the text. *)
Lemma mentions_in_text (keywords : list string) (a piece c : string) :
  mentions keywords piece = true ->
  exists k, In k keywords
            /\ contains (lower k) (lower (a ++ piece ++ c)) = true.
Proof.
  unfold mentions. intros H. apply existsb_exists in H as (k & I & H).
  exists k. split; [exact I |].
  rewrite !lower_app. apply contains_app_l. now apply contains_app_r.
Qed.

Lemma sentences_loop_length (sentences keywords : list string)
      (n : nat) (todo : list string) :
  forall i : nat,
    List.length (sentences_loop sentences keywords n i todo)
    = List.length (filter (mentions keywords) todo).
Proof.
  induction todo as [| s rest IH]; intros i; cbn [sentences_loop filter];
    [reflexivity |].
  rewrite List.length_app, IH.
  destruct (mentions keywords s); reflexivity.
Qed.

(** X22.  [extract_sentences_with_keywords] returns one context for each
    sentence that mentions a keyword, whatever the width of the context;
    a text in which no keyword occurs gives none, and so does an empty
    text or an empty keyword list. *)
Theorem extract_sentences_per_mention
        (text : string) (keywords : list string) (n : nat) :
  (forall (c : ascii) (rest k : string) (ks : list string),
      text = String c rest -> keywords = k :: ks ->
      List.length (extract_sentences_with_keywords text keywords n)
      = List.length (filter (mentions keywords) (split false text)))
  /\ ((forall k, In k keywords ->
                 contains (lower k) (lower text) = false) ->
      extract_sentences_with_keywords text keywords n = [])
  /\ extract_sentences_with_keywords "" keywords n = []
  /\ extract_sentences_with_keywords text [] n = [].
Proof.
  split; [| split; [| split]].
  - intros c rest k ks -> ->. cbn [extract_sentences_with_keywords].
    apply sentences_loop_length.
  - intros H. destruct text as [| c rest]; [reflexivity |].
    destruct keywords as [| k ks]; [reflexivity |].
    apply length_zero_iff_nil. cbn [extract_sentences_with_keywords].
    rewrite sentences_loop_length. apply length_zero_iff_nil.
    destruct (filter _ _) as [| s l] eqn:F; [reflexivity |].
    assert (I : In s (filter (mentions (k :: ks))
                             (split false (String c rest))))
      by (rewrite F; now left).
    apply filter_In in I as [I M].
    destruct (split_pieces _ _ _ I) as (a & b & E).
    destruct (mentions_in_text _ a s b M) as (k' & I' & C).
    rewrite <- E in C. rewrite (H k' I') in C. discriminate C.
  - reflexivity.
  - destruct text; reflexivity.
Qed.

End Sentences.

Section ScraperExtraction.

Import Py Models ModelsMore Utils UtilsMore UtilsSentences Scraper.
Import ScraperMore Scrapers.

Context {Soup : Type}.
Variable get_text : Soup -> string.
Variable md5_hexdigest : string -> string.
Variable now : Z.

Lemma percentage_loop_returns (patterns : list Re.regex) (text : string) :
  exists o, percentage_loop patterns text = Return o.
Proof.
  induction patterns as [| r rest IH]; cbn [percentage_loop];
    [now exists None |].
  destruct (Re.findall_first r text) as [m |]; [| exact IH].
  unfold int. destruct (int_of_string m) as [v |]; [now exists (Some v) |].
  exact IH.
Qed.

Lemma extract_percentage_returns (text : string) :
  exists o, extract_percentage text = Return o.
Proof.
  unfold extract_percentage. destruct (negb (truthy text));
    [now exists None | apply percentage_loop_returns].
Qed.

Ltac run_extraction a :=
  unfold extracted, transfer_text, transfer_sections;
  destruct a;
  cbn [scraper extract_data WingoScraper SatenaScraper LatamScraper];
  unfold wingo_extract_data, satena_extract_data, latam_extract_data,
    cancellation_block;
  rewrite ?extract_cop_amount_first_parse, ?extract_usd_amount_first_parse;
  repeat match goal with
         | |- context [extract_percentage ?t] =>
             destruct (extract_percentage_returns t) as [? ->]
         end.

Ltac split_sections :=
  repeat match goal with
         | |- context [extract_sentences_with_keywords ?t ?k ?n] =>
             destruct (extract_sentences_with_keywords t k n)
         end;
  cbn [bind_result].

Lemma below_full_marks (p : AirlinePolicy) :
  time_restrictions p = None ->
  (calculate_confidence_score p < 1)%Q.
Proof.
  intros T. rewrite calculate_confidence_score_weighted.
  pose proof (filled_range p critical_fields) as C.
  change (Z.of_nat (List.length critical_fields)) with 4 in C.
  assert (I : 0 <= filled p important_fields <= 3).
  { unfold filled, important_fields.
    cbn [filter has_value String.eqb Ascii.eqb Bool.eqb]. rewrite T.
    cbn [is_some].
    destruct (is_some (allows_cancellation p)),
             (is_some (cancellation_cost_cop p)),
             (is_some (refund_percentage p)); cbn; lia. }
  assert (W : 0 <= filled_weight p <= 12) by (unfold filled_weight; lia).
  destruct (score_table (filled_weight p) W) as (R & F & _).
  cbv zeta in R, F.
  destruct (Qlt_le_dec (round (inject_Z (filled_weight p) / inject_Z 12) 2) 1)
    as [L | G]; [exact L |].
  assert (E : (round (inject_Z (filled_weight p) / inject_Z 12) 2 == 1)%Q)
    by (apply Qle_antisym; tauto).
  apply F in E. unfold filled_weight in E. lia.
Qed.

(** X23.  The extraction of Wingo, Satena and LATAM returns a policy for
    every page: none of the conversions it makes can raise.  The policy
    carries the scraper's name, code and address, the digest of the page
    and the clock reading, is not flagged, and never has time
    restrictions, so its confidence score stays below 1. *)
Theorem extraction_returns (a : airline) (html : string) (soup : Soup) :
  exists p : AirlinePolicy,
    extracted get_text md5_hexdigest now a html soup = Return p
    /\ airline_name p
       = scraper_airline_name (scraper get_text md5_hexdigest now a)
    /\ airline_code p
       = scraper_airline_code (scraper get_text md5_hexdigest now a)
    /\ source_url p
       = Some (policies_url (scraper get_text md5_hexdigest now a))
    /\ raw_html_hash p = Some (compute_html_hash md5_hexdigest html)
    /\ scraped_at p = now
    /\ requires_manual_review p = false
    /\ time_restrictions p = None
    /\ (calculate_confidence_score p < 1)%Q.
Proof.
  run_extraction a; split_sections;
    (eexists; split; [reflexivity |]);
    repeat (split; [reflexivity |]);
    (apply below_full_marks; reflexivity).
Qed.

Lemma unmentioned_no_sections (a : airline) (soup : Soup) :
  unmentioned (transfer_keywords a) (get_text soup) ->
  extract_sentences_with_keywords (get_text soup) (transfer_keywords a) 2
  = [].
Proof.
  intros H.
  destruct (get_text soup) as [| c rest] eqn:E; [reflexivity |].
  apply length_zero_iff_nil.
  replace (List.length _)
    with (List.length (filter (mentions (transfer_keywords a))
                              (split false (String c rest))))
    by (destruct a; symmetry; apply sentences_loop_length).
  apply length_zero_iff_nil.
  destruct (filter _ _) as [| s l] eqn:F; [reflexivity |].
  assert (I : In s (filter (mentions (transfer_keywords a))
                           (split false (String c rest))))
    by (rewrite F; now left).
  apply filter_In in I as [I M].
  destruct (split_pieces _ _ _ I) as (x & y & E').
  destruct (mentions_in_text _ x s y M) as (k & I' & C).
  rewrite <- E' in C. rewrite (H k I') in C. discriminate C.
Qed.

Lemma invalid_when_all_missing (p : AirlinePolicy) :
  (3 <? List.length (get_missing_fields p))%nat = true ->
  is_valid (validate_extracted_data p) = false.
Proof.
  intros H. unfold validate_extracted_data. rewrite H. cbn [is_valid].
  apply Nat.eqb_neq. rewrite List.length_app. cbn [List.length]. lia.
Qed.

Lemma confidence_unflagged (r : bool) (n : option string)
      (p : AirlinePolicy) :
  calculate_confidence_score (set_manual_review r n p)
  = calculate_confidence_score p.
Proof. reflexivity. Qed.

Lemma finished_fields (p : AirlinePolicy) :
  get_missing_fields (finished p) = get_missing_fields p
  /\ confidence_score (finished p) = calculate_confidence_score p.
Proof.
  unfold finished. destruct (negb (is_valid (validate_extracted_data p)));
    split; reflexivity.
Qed.

(** X24.  A page in which none of the airline's transfer keywords occurs
    gives a policy with every critical field missing and no process
    description: it is not transfer viable, its viability score is 0, it
    fails validation, and what [scrape] stores for it is flagged for
    review with a confidence of at most 0.25. *)
Theorem no_transfer_keyword_flagged
        (a : airline) (html : string) (soup : Soup) :
  unmentioned (transfer_keywords a) (get_text soup) ->
  exists p : AirlinePolicy,
    extracted get_text md5_hexdigest now a html soup = Return p
    /\ get_missing_fields p = critical_fields
    /\ transfer_process_description p = None
    /\ is_transfer_viable p = false
    /\ (get_viability_score p == 0)%Q
    /\ is_valid (validate_extracted_data p) = false
    /\ requires_manual_review (finished p) = true
    /\ (confidence_score (finished p) <= 25 # 100)%Q
    /\ needs_manual_review (finished p) = true.
Proof.
  intros H. apply unmentioned_no_sections in H.
  assert (G : forall p : AirlinePolicy,
             allows_full_name_change p = None ->
             allows_name_correction p = None ->
             allows_transfer_to_third_party p = None ->
             cost_name_change_domestic_cop p = None ->
             transfer_process_description p = None ->
             time_restrictions p = None ->
             get_missing_fields p = critical_fields
             /\ transfer_process_description p = None
             /\ is_transfer_viable p = false
             /\ (get_viability_score p == 0)%Q
             /\ is_valid (validate_extracted_data p) = false
             /\ requires_manual_review (finished p) = true
             /\ (confidence_score (finished p) <= 25 # 100)%Q
             /\ needs_manual_review (finished p) = true).
  { intros p F N T C D R.
    assert (M : get_missing_fields p = critical_fields).
    { unfold get_missing_fields, critical_fields.
      cbn [filter has_value String.eqb Ascii.eqb Bool.eqb].
      rewrite F, N, T, C. reflexivity. }
    assert (V : is_valid (validate_extracted_data p) = false)
      by (apply invalid_when_all_missing; rewrite M; reflexivity).
    assert (S : (calculate_confidence_score p <= 25 # 100)%Q).
    { rewrite calculate_confidence_score_weighted.
      unfold filled_weight, filled, critical_fields, important_fields.
      cbn [filter has_value String.eqb Ascii.eqb Bool.eqb].
      rewrite F, N, T, C, R. cbn [is_some filter].
      destruct (is_some (allows_cancellation p)),
               (is_some (cancellation_cost_cop p)),
               (is_some (refund_percentage p)); vm_compute; discriminate. }
    destruct (finished_fields p) as [FM FC].
    repeat split.
    - exact M.
    - exact D.
    - unfold is_transfer_viable. rewrite F, T. reflexivity.
    - unfold get_viability_score. rewrite F, N, T, C, D. reflexivity.
    - exact V.
    - unfold finished. rewrite V. reflexivity.
    - rewrite FC. exact S.
    - unfold needs_manual_review. rewrite FM, M. reflexivity. }
  revert H. run_extraction a; intros ->; split_sections;
    (eexists; split; [reflexivity |]); apply G; reflexivity.
Qed.

(** X25.  What decides viability in each scraper.  For Wingo and Satena
    the transfer flag is a copy of the name-change flag, so the policy is
    viable exactly when the verdict of [detect_boolean_policy] on the
    transfer sentences is [True].  For LATAM the mere occurrence of
    [transferir] in those sentences makes the policy viable, whatever the
    verdict.  In all three the missing-critical-fields error arises exactly
    when no sentence mentions a transfer keyword. *)
Theorem viability_by_airline (a : airline) (html : string) (soup : Soup) :
  let sections := transfer_sections get_text a soup in
  let verdict := fst (detect_boolean_policy (transfer_text get_text a soup) None) in
  exists p : AirlinePolicy,
    extracted get_text md5_hexdigest now a html soup = Return p
    /\ allows_full_name_change p
       = match sections with [] => None | _ => verdict end
    /\ allows_transfer_to_third_party p
       = match sections, a with
         | [], _ => None
         | _, LATAM =>
             Some (contains "transferir" (lower (transfer_text get_text a soup)))
         | _, _ => verdict
         end
    /\ is_transfer_viable p
       = match sections, a with
         | [], _ => false
         | _, LATAM =>
             (is_True verdict
              || contains "transferir" (lower (transfer_text get_text a soup)))%bool
         | _, _ => is_True verdict
         end
    /\ (3 <? List.length (get_missing_fields p))%nat
       = match sections with [] => true | _ => false end.
Proof.
  cbv zeta.
  assert (V : forall v : option bool,
             (is_True v || is_True v)%bool = is_True v)
    by (intros [[] |]; reflexivity).
  assert (L : forall (v : option bool) (b : bool),
             (is_True v || is_True (Some b))%bool = (is_True v || b)%bool)
    by (intros v []; reflexivity).
  run_extraction a;
    unfold get_missing_fields, critical_fields, is_transfer_viable;
    cbn [filter has_value String.eqb Ascii.eqb Bool.eqb];
    repeat match goal with
           | |- context [extract_sentences_with_keywords ?t ?k ?n] =>
               destruct (extract_sentences_with_keywords t k n)
           end;
    cbn [bind_result];
    (eexists; split; [reflexivity |]);
    cbn [allows_full_name_change allows_transfer_to_third_party
         allows_name_correction cost_name_change_domestic_cop
         set_contact set_cancellation set_transfer initial_policy is_some];
    rewrite ?V, ?L;
    repeat split;
    repeat match goal with
           | |- context [fst (detect_boolean_policy ?t None)] =>
               destruct (fst (detect_boolean_policy t None)) as [[] |]
           | |- context [first_parse ?f ?l] => destruct (first_parse f l)
           end;
    reflexivity.
Qed.

End ScraperExtraction.

Section ScraperExtractionInstances.

Import Py Models Scraper Scrapers.

(** X24, at an input: a Wingo page about fares only. *)
Lemma no_transfer_keyword_flagged_witness :
  exists p : AirlinePolicy,
    extracted (fun soup : string => soup) (fun html : string => html) 0
              Wingo "<p>Vuelos baratos. Reserva ya</p>"
              "Vuelos baratos. Reserva ya"
    = Return p
    /\ is_transfer_viable p = false
    /\ requires_manual_review (finished p) = true.
Proof.
  destruct (no_transfer_keyword_flagged
              (fun soup : string => soup) (fun html : string => html) 0
              Wingo "<p>Vuelos baratos. Reserva ya</p>"
              "Vuelos baratos. Reserva ya")
    as (p & E & _ & _ & V & _ & _ & R & _).
  - intros k [<- | [<- | [<- | []]]]; reflexivity.
  - exists p. auto.
Defined.

End ScraperExtractionInstances.


(* ================================================================== *)
(** * Telephone numbers and addresses *)
(* ================================================================== *)

Section MatcherSoundness.

Import Py Re ReLanguage.

Lemma match_star_sound {R : Type} (a : atom) (s : string)
      (k : string -> option R) (x : R) :
  match_star a s k = Some x ->
  exists w s', s = w ++ s'
               /\ all_chars (atom_matches a) w = true /\ k s' = Some x.
Proof.
  induction s as [| c s IH]; cbn [match_star].
  - intros H. now exists "", "".
  - destruct (atom_matches a c) eqn:A.
    + destruct (match_star a s k) as [y |] eqn:M.
      * intros H. injection H as <-.
        destruct (IH eq_refl) as (w & s' & -> & W & K).
        exists (String c w), s'. cbn [append all_chars]. rewrite A.
        now repeat split.
      * intros H. now exists "", (String c s).
    + intros H. now exists "", (String c s).
Qed.

(** What the matcher consumes belongs to the language of the pattern. *)
Lemma match_re_sound {R : Type} (r : regex) :
  forall (s : string) (cap : option string)
         (k : string -> option string -> option R) (x : R),
    match_re r s cap k = Some x ->
    exists w s' cap',
      s = w ++ s' /\ language r w /\ k s' cap' = Some x.
Proof.
  induction r as [| a | a | a | r IH | r1 IH1 r2 IH2 | r1 IH1 r2 IH2
                  | r IH |];
    intros s cap k x; cbn [match_re language].
  - intros H. now exists "", s, cap.
  - destruct s as [| c s]; [discriminate |].
    destruct (atom_matches a c) eqn:A; [| discriminate].
    intros H. exists (String c ""), s, cap. repeat split; [| exact H].
    now exists c.
  - intros H. apply match_star_sound in H as (w & s' & -> & W & K).
    now exists w, s', cap.
  - destruct s as [| c s]; [discriminate |].
    destruct (atom_matches a c) eqn:A; [| discriminate].
    intros H. apply match_star_sound in H as (w & s' & -> & W & K).
    exists (String c w), s', cap. cbn [append all_chars]. rewrite A.
    repeat split; [discriminate | exact W | exact K].
  - destruct (match_re r s cap k) as [y |] eqn:M.
    + intros H. injection H as <-.
      destruct (IH _ _ _ _ M) as (w & s' & cap' & -> & L & K).
      exists w, s', cap'. repeat split; [now right | exact K].
    + intros H. exists "", s, cap. repeat split; [now left | exact H].
  - intros H. apply IH1 in H as (u & s1 & cap1 & -> & L1 & H).
    apply IH2 in H as (v & s2 & cap2 & -> & L2 & K).
    exists (u ++ v), s2, cap2. rewrite append_assoc.
    repeat split; [| exact K]. now exists u, v.
  - destruct (match_re r1 s cap k) as [y |] eqn:M.
    + intros H. injection H as <-.
      destruct (IH1 _ _ _ _ M) as (w & s' & cap' & -> & L & K).
      exists w, s', cap'. repeat split; [now left | exact K].
    + intros H. destruct (IH2 _ _ _ _ H) as (w & s' & cap' & -> & L & K).
      exists w, s', cap'. repeat split; [now right | exact K].
  - intros H. apply IH in H as (w & s' & cap' & -> & L & K).
    exists w, s', (Some (consumed (w ++ s') s')). now repeat split.
  - destruct (at_end s); [| discriminate].
    intros H. now exists "", s, cap.
Qed.

(** A search for a pattern in an outer group returns a part of the text
    that belongs to the language of the pattern. *)
Lemma search_whole_sound (r : regex) (s g : string) :
  search (Group r) s = Some g ->
  language r g /\ exists a b, s = a ++ g ++ b.
Proof.
  intros H. apply search_inv in H as (s1 & [pre ->] & H).
  unfold match_at in H. cbn [match_re] in H.
  apply match_re_sound in H as (w & s' & _ & -> & L & K).
  injection K as <-. unfold consumed. rewrite take_app_length.
  split; [exact L |]. now exists pre, s'.
Qed.

Lemma all_chars_app (test : ascii -> bool) (u v : string) :
  all_chars test (u ++ v) = (all_chars test u && all_chars test v)%bool.
Proof.
  induction u as [| c u IH]; cbn [append all_chars]; [reflexivity |].
  now rewrite IH, andb_assoc.
Qed.

Lemma all_chars_weaken (p q : ascii -> bool) (w : string) :
  (forall c, p c = true -> q c = true) ->
  all_chars p w = true -> all_chars q w = true.
Proof.
  intros I. induction w as [| c w IH]; cbn [all_chars]; [reflexivity |].
  intros H. apply andb_prop in H as [H1 H2].
  now rewrite (I c H1), IH.
Qed.

(** A match holds only characters that the matchers of the pattern
    accept. *)
Lemma language_chars (test : ascii -> bool) (r : regex) :
  Forall (fun a => forall c, atom_matches a c = true -> test c = true)
         (atoms r) ->
  forall w, language r w -> all_chars test w = true.
Proof.
  induction r as [| a | a | a | r IH | r1 IH1 r2 IH2 | r1 IH1 r2 IH2
                  | r IH |];
    cbn [atoms language]; intros F w.
  - now intros ->.
  - intros (c & -> & A). cbn [all_chars].
    rewrite (Forall_inv F c A). reflexivity.
  - apply all_chars_weaken. exact (Forall_inv F).
  - intros [_ H]. revert H. apply all_chars_weaken. exact (Forall_inv F).
  - intros [-> | H]; [reflexivity | now apply IH].
  - intros (u & v & -> & L1 & L2). apply Forall_app in F as [F1 F2].
    rewrite all_chars_app, (IH1 F1 u L1), (IH2 F2 v L2). reflexivity.
  - apply Forall_app in F as [F1 F2].
    intros [H | H]; [now apply IH1 | now apply IH2].
  - now apply IH.
  - now intros ->.
Qed.

Lemma count_digits_app (u v : string) :
  count_digits (u ++ v) = (count_digits u + count_digits v)%nat.
Proof.
  induction u as [| c u IH]; cbn [append count_digits]; [reflexivity |].
  destruct (is_digit c); rewrite IH; reflexivity.
Qed.

(** A match holds at least the digits the pattern asks for. *)
Lemma language_digits (r : regex) :
  forall w, language r w -> (min_digits r <= count_digits w)%nat.
Proof.
  induction r as [| a | a | a | r IH | r1 IH1 r2 IH2 | r1 IH1 r2 IH2
                  | r IH |];
    cbn [min_digits language]; intros w; try (intros; lia).
  - destruct a; try (intros; lia).
    intros (c & -> & A). cbn [atom_matches] in A. cbn [count_digits].
    rewrite A. lia.
  - destruct a; try (intros; lia).
    intros [N A]. destruct w as [| c w]; [contradiction |].
    cbn [all_chars atom_matches] in A. apply andb_prop in A as [A _].
    cbn [count_digits]. rewrite A. lia.
  - intros (u & v & -> & L1 & L2). rewrite count_digits_app.
    specialize (IH1 u L1). specialize (IH2 v L2). lia.
  - intros [H | H]; [specialize (IH1 w H) | specialize (IH2 w H)]; lia.
  - apply IH.
Qed.

End MatcherSoundness.

Section Contact.

Import Py Re ReLanguage UtilsSentences.

Lemma phone_atoms (r : regex) :
  In r PHONE_PATTERNS ->
  Forall (fun a => forall c, atom_matches a c = true -> phone_char c = true)
         (atoms r)
  /\ (10 <= min_digits r)%nat.
Proof.
  assert (P : forall c, atom_matches (Lit "+") c = true ->
                        phone_char c = true).
  { intros c. destruct c as [[] [] [] [] [] [] [] []]; vm_compute;
      intros H; first [reflexivity | discriminate H]. }
  assert (D : forall c, atom_matches Digit c = true -> phone_char c = true).
  { intros c H. cbn [atom_matches] in H. unfold phone_char. now rewrite H. }
  assert (S : forall c, atom_matches separator c = true ->
                        phone_char c = true).
  { intros c. destruct c as [[] [] [] [] [] [] [] []]; vm_compute;
      intros H; first [reflexivity | discriminate H]. }
  intros [<- | [<- | [<- | []]]];
    (split; [cbn; repeat constructor; assumption | cbn; lia]).
Qed.

(** X26.  A telephone number that [extract_phone] returns is a part of
    the text made of digits, blanks, hyphens and plus signs only, and it
    holds at least ten digits. *)
Theorem extract_phone_shape (text number : string) :
  extract_phone text = Some number ->
  (exists a b, text = a ++ number ++ b)
  /\ all_chars phone_char number = true
  /\ (10 <= count_digits number)%nat.
Proof.
  unfold extract_phone. destruct (negb (truthy text)); [discriminate |].
  assert (G : forall patterns,
             (forall r, In r patterns -> In r PHONE_PATTERNS) ->
             first_found patterns text = Some number ->
             exists r, In r PHONE_PATTERNS /\ search r text = Some number).
  { induction patterns as [| r rest IH]; cbn [first_found];
      [discriminate |].
    intros I. destruct (search r text) as [g |] eqn:E.
    - intros H. injection H as ->. exists r. split; [| exact E].
      apply I. now left.
    - apply IH. intros r' H. apply I. now right. }
  intros H. apply (G PHONE_PATTERNS (fun r I => I)) in H as (r & I & H).
  destruct (phone_atoms r I) as [A M].
  assert (W : exists r0, r = Group r0).
  { destruct I as [<- | [<- | [<- | []]]]; eexists; reflexivity. }
  destruct W as [r0 ->]. apply search_whole_sound in H as [L S].
  split; [exact S |]. split.
  - exact (language_chars phone_char r0 A number L).
  - apply language_digits in L. cbn [min_digits] in M. lia.
Qed.

(** The classes of the address pattern are case-sensitive ranges. *)
Lemma address_classes (c : ascii) :
  atom_matches letter c = is_letter c
  /\ atom_matches local_class c = local_char c
  /\ atom_matches domain_class c = domain_char c
  /\ (atom_matches (Lit "@") c = true -> c = "@"%char)
  /\ (atom_matches (Lit ".") c = true -> c = "."%char).
Proof.
  destruct c as [[] [] [] [] [] [] [] []]; vm_compute;
    repeat split; intros H; first [reflexivity | discriminate H].
Qed.

Lemma all_chars_ext (p q : ascii -> bool) (w : string) :
  (forall c, p c = q c) -> all_chars p w = all_chars q w.
Proof.
  intros E. induction w as [| c w IH]; cbn [all_chars]; [reflexivity |].
  now rewrite E, IH.
Qed.

(** X27.  An address that [extract_email] returns is a part of the text
    of the form local@domain.tld: a non-empty local part of letters,
    digits and [._%+-], a non-empty domain of letters, digits, dots and
    hyphens, and after its last dot at least two letters. *)
Theorem extract_email_shape (text address : string) :
  extract_email text = Some address ->
  (exists a b, text = a ++ address ++ b)
  /\ exists local domain tld : string,
      address = local ++ "@" ++ domain ++ "." ++ tld
      /\ local <> "" /\ all_chars local_char local = true
      /\ domain <> "" /\ all_chars domain_char domain = true
      /\ (2 <= String.length tld)%nat /\ all_chars is_letter tld = true.
Proof.
  unfold extract_email. destruct (negb (truthy text)); [discriminate |].
  unfold EMAIL_PATTERN. intros H. apply search_whole_sound in H as [L S].
  split; [exact S |].
  cbn [cat language] in L.
  destruct L as (l & w1 & -> & [Nl Al] & (at_ & w2 & -> & (c1 & -> & C1)
                 & (d & w3 & -> & [Nd Ad] & (dot & w4 & -> & (c2 & -> & C2)
                 & (t1 & t2 & -> & (c3 & -> & C3) & [Nt At]))))).
  apply (proj1 (proj2 (proj2 (proj2 (address_classes c1))))) in C1.
  apply (proj2 (proj2 (proj2 (proj2 (address_classes c2))))) in C2.
  subst c1 c2.
  exists l, d, (String c3 t2). cbn [append].
  repeat split.
  - exact Nl.
  - rewrite <- Al. apply all_chars_ext. intros c. symmetry.
    apply address_classes.
  - exact Nd.
  - rewrite <- Ad. apply all_chars_ext. intros c. symmetry.
    apply address_classes.
  - destruct t2; [contradiction |]. cbn [String.length]. lia.
  - cbn [all_chars].
    rewrite <- (proj1 (address_classes c3)), C3. cbn [andb].
    rewrite <- At. apply all_chars_ext. intros c. symmetry.
    apply address_classes.
Qed.

(** X26, at an input. *)
Lemma extract_phone_shape_witness :
  all_chars phone_char "+57 601 123 4567" = true
  /\ (10 <= count_digits "+57 601 123 4567")%nat.
Proof.
  exact (proj2 (extract_phone_shape
                  "Llame al +57 601 123 4567 hoy" "+57 601 123 4567"
                  eq_refl)).
Defined.

(** X27, at an input. *)
Lemma extract_email_shape_witness :
  exists a b, "Escriba a ayuda@wingo.com hoy" = a ++ "ayuda@wingo.com" ++ b.
Proof.
  exact (proj1 (extract_email_shape
                  "Escriba a ayuda@wingo.com hoy" "ayuda@wingo.com"
                  eq_refl)).
Defined.

End Contact.


(* ================================================================== *)
(** * The aggregate statistics of the store *)
(* ================================================================== *)

Section Statistics.

Import Py Models Database DatabaseMore DatabaseStatistics.

Lemma filter_length_le {A : Type} (test : A -> bool) (l : list A) :
  (List.length (filter test l) <= List.length l)%nat.
Proof.
  induction l as [| x l IH]; cbn [filter List.length]; [lia |].
  destruct (test x); cbn [List.length]; lia.
Qed.





End Statistics.
